(** * AORA breathwork app: the session timer, its snapshots and the
      saved-session prompt

    A shallow embedding of the parts of the app that decide how a breathing
    session runs and how an interrupted one is offered for resumption:

    - [SessionAutoSave.tsx]: the [SessionAutoSave] prompt component and the
      [useSessionAutoSave] hook;
    - [App.tsx]: the start-up check, [handleStartSession],
      [handleResumeSession], [handleSessionComplete];
    - [SessionScreen] (listed after [ControlPanel] in the sources): the
      React component that runs the inhale/hold/exhale/pause loop with
      browser timers;
    - [ControlPanel]: the sliders, the name field, [handleSavePreset] and
      the start button; [UpdatedExerciseLibrary]: the default exercises and
      the handlers that duplicate, delete and edit the user's own;
      [ReflectionScreen]: [handleSaveReflection], which writes the history.

    Conventions.
    - Numbers.  A duration of [d] seconds is carried as the integer [1000 * d]
      (milliseconds), the unit in which the component arms its timers
      ([setTimeout(.., duration * 1000)]).  Every pattern the interface
      produces (presets in whole seconds, sliders in steps of 0.5 s) is a
      whole number of milliseconds.  [sessionDuration] is in whole seconds,
      as in the source.
    - The countdown.  [remaining] and [timeRemaining] are doubles in the
      source: [remaining] starts at [duration] and loses [0.1] at every step.
      The state carries the decimal value that double stands for
      ([duration - 100 * k] milliseconds after [k] steps), and
      [SessionScreen.remainingAfter] computes the double itself with the
      kernel's binary64 arithmetic (2.7999999999999989 where the decimal
      value is 2.8).  The test [remaining <= 0] is decided by
      [SessionScreen.expired]: on the double when the decimal value is 0,
      where rounding decides it (a countdown of 1 s is left with 1.4e-16
      after ten steps and needs an eleventh), and by the sign of the decimal
      value otherwise.  That this is the test of the source is checked
      against the doubles at every step of every duration a slider can
      show.
    - Time.  [Date.now()] is an explicit integer of milliseconds.  The
      browser's timers are driven by [SessionScreen.tick], which lets one
      millisecond pass and runs the callbacks that fall due.
    - React.  A [setState] takes effect at once; an effect whose dependencies
      changed is re-run right after the handler that changed them.
    - Strings are sequences of bytes: lengths are those of the source on
      ASCII text.  [String.prototype.trim] and the spreading of a string are
      parameters of the definitions that use them. *)

From Stdlib Require Import ZArith QArith List String Bool Lia DecimalString.
From Stdlib Require PrimFloat Uint63.
Import ListNotations.
Open Scope Z_scope.

(* ================================================================== *)
(** ** JavaScript values as [JSON.parse] returns them *)

Module Js.

#[local] Set Warnings "-register-all".

Inductive Value : Type :=
| JNull
| JBool (b : bool)
| JNum (q : Q)
| JStr (s : string)
| JArr (xs : list Value)
| JObj (fields : list (string * Value)).

(** Own property of a parsed object (keys of a parsed object are distinct). *)
Fixpoint lookup (k : string) (fs : list (string * Value)) : option Value :=
  match fs with
  | [] => None
  | (k', v) :: rest => if String.eqb k k' then Some v else lookup k rest
  end.

(** The outcome of evaluating an expression: a value, or a thrown error. *)
Inductive Completion (A : Type) : Type :=
| Normal (a : A)
| Throw.
Arguments Normal {A} a.
Arguments Throw {A}.

(** [v.k] for a value that came out of [JSON.parse]: reading a property of
    [null] throws a TypeError; on an object it is the field or [undefined]
    ([None]); numbers, booleans, strings and arrays have no such property
    (the only key read this way is ["timestamp"]). *)
Definition getProp (v : Value) (k : string) : Completion (option Value) :=
  match v with
  | JNull => Throw
  | JObj fs => Normal (lookup k fs)
  | _ => Normal None
  end.

(** ECMAScript's ToNumber, with [None] for NaN.  [undefined] gives NaN and a
    number is itself; what the language does with the other kinds of value
    (["12"] is 12, [null] is 0, [[]] is 0, [{}] is NaN, ...) is left to
    [coerce], over which every statement below is quantified. *)
Definition toNumber (coerce : Value -> option Q) (v : option Value) : option Q :=
  match v with
  | None => None
  | Some (JNum q) => Some q
  | Some other => coerce other
  end.

(** [a < b] on numbers: false as soon as one side is NaN. *)
Definition Qltb (a b : Q) : bool := negb (Qle_bool b a).

Definition lt (a : option Q) (b : Q) : bool :=
  match a with
  | Some x => Qltb x b
  | None => false
  end.

(** What [localStorage] holds under a key is a string.  [JSON.parse] itself
    is not re-implemented: a stored string is represented by what
    [JSON.parse] does with it. *)
Inductive Text : Type :=
| Unparseable (raw : string)   (* JSON.parse(raw) throws a SyntaxError *)
| Serialized (v : Value).      (* a text that JSON.parse maps to v *)

(** [if (saved)]: the empty string is falsy, every other string is truthy. *)
Definition truthy (t : Text) : bool :=
  match t with
  | Unparseable raw => negb (String.eqb raw EmptyString)
  | Serialized _ => true
  end.

Definition JSON_parse (t : Text) : Completion Value :=
  match t with
  | Unparseable _ => Throw
  | Serialized v => Normal v
  end.

Definition JSON_stringify (v : Value) : Text := Serialized v.

(** ECMAScript's ToBoolean on a parsed value ([if (v)], [v && ...],
    [v || ...]): [null], [false], [0] and the empty string are falsy. *)
Definition toBoolean (v : Value) : bool :=
  match v with
  | JNull => false
  | JBool b => b
  | JNum q => negb (Qeq_bool q 0)
  | JStr s => negb (String.eqb s EmptyString)
  | JArr _ | JObj _ => true
  end.

(** [s.padStart(n, '0')]: zeros in front of [s] up to the length [n]. *)
Definition padStart (n : nat) (s : string) : string :=
  String.concat EmptyString (repeat "0"%string (n - String.length s)) ++ s.

End Js.

(* ================================================================== *)
(** ** Patterns, phases and the saved-session record *)

Inductive Phase : Type := Inhale | Hold | Exhale | Pause.

Definition Phase_eqb (a b : Phase) : bool :=
  match a, b with
  | Inhale, Inhale | Hold, Hold | Exhale, Exhale | Pause, Pause => true
  | _, _ => false
  end.

Definition Phase_name (ph : Phase) : string :=
  match ph with
  | Inhale => "inhale"
  | Hold => "hold"
  | Exhale => "exhale"
  | Pause => "pause"
  end.

(** [interface BreathPattern], durations in milliseconds. *)
Record BreathPattern : Type := {
  inhale : Z;
  hold : Z;
  exhale : Z;
  pause : Z
}.

(** [pattern[phase]]. *)
Definition durationOf (p : BreathPattern) (ph : Phase) : Z :=
  match ph with
  | Inhale => inhale p
  | Hold => hold p
  | Exhale => exhale p
  | Pause => pause p
  end.

(** [totalCycleTime = pattern.inhale + pattern.hold + pattern.exhale + pattern.pause]. *)
Definition totalCycleTime (p : BreathPattern) : Z :=
  inhale p + hold p + exhale p + pause p.

Module SavedSession.

Record Progress : Type := {
  cyclesCompleted : Z;
  totalCycles : Z;
  timeElapsed : Z;
  currentPhase : Phase;
  phaseTimeRemaining : Z
}.

(** [interface SavedSession]. *)
Record t : Type := {
  id : string;
  timestamp : Z;
  pattern : BreathPattern;
  patternName : option string;
  progress : Progress;
  duration : Z
}.

Definition num (z : Z) : Js.Value := Js.JNum (inject_Z z).

(** A duration kept in milliseconds, written in seconds as the source has it. *)
Definition seconds (ms : Z) : Js.Value := Js.JNum (Qmake ms 1000).

Definition patternJson (p : BreathPattern) : Js.Value :=
  Js.JObj [ ("inhale"%string, seconds (inhale p));
            ("hold"%string, seconds (hold p));
            ("exhale"%string, seconds (exhale p));
            ("pause"%string, seconds (pause p)) ].

Definition progressJson (g : Progress) : Js.Value :=
  Js.JObj [ ("cyclesCompleted"%string, num (cyclesCompleted g));
            ("totalCycles"%string, num (totalCycles g));
            ("timeElapsed"%string, num (timeElapsed g));
            ("currentPhase"%string, Js.JStr (Phase_name (currentPhase g)));
            ("phaseTimeRemaining"%string, seconds (phaseTimeRemaining g)) ].

(** The object [JSON.stringify(sessionData)] writes and [JSON.parse] gives
    back; an [undefined] [patternName] is left out by [JSON.stringify]. *)
Definition toJson (s : t) : Js.Value :=
  Js.JObj
    ([ ("id"%string, Js.JStr (id s));
       ("timestamp"%string, num (timestamp s));
       ("pattern"%string, patternJson (pattern s)) ]
     ++ match patternName s with
        | Some n => [ ("patternName"%string, Js.JStr n) ]
        | None => []
        end
     ++ [ ("progress"%string, progressJson (progress s));
          ("duration"%string, num (duration s)) ]).

End SavedSession.

(** [localStorage], restricted to the key ['aora-saved-session']. *)
Definition LocalStorage : Type := option Js.Text.

(** [Date.now().toString()]. *)
Definition toString (n : Z) : string := NilZero.string_of_int (Z.to_int n).

(* ================================================================== *)
(** ** [useSessionAutoSave]: the hook that writes and clears the snapshot *)

Module useSessionAutoSave.

(** The [sessionData] object [saveSession] builds at time [now]. *)
Definition sessionData (now : Z) (pattern : BreathPattern)
    (patternName : option string) (progress : SavedSession.Progress)
    (duration : Z) : SavedSession.t :=
  {| SavedSession.id := toString now;
     SavedSession.timestamp := now;
     SavedSession.pattern := pattern;
     SavedSession.patternName := patternName;
     SavedSession.progress := progress;
     SavedSession.duration := duration |}.

(** [saveSession]: it builds [sessionData] and ends in
    [localStorage.setItem('aora-saved-session', JSON.stringify(sessionData))]. *)
Definition saveSession (now : Z) (pattern : BreathPattern)
    (patternName : option string) (progress : SavedSession.Progress)
    (duration : Z) (_ : LocalStorage) : LocalStorage :=
  Some (Js.JSON_stringify
          (SavedSession.toJson (sessionData now pattern patternName progress duration))).

(** [localStorage.removeItem('aora-saved-session')]. *)
Definition clearSavedSession (_ : LocalStorage) : LocalStorage := None.

(** [getSavedSession]: the parsed value, and the store it leaves behind. *)
Definition getSavedSession (store : LocalStorage) : option Js.Value * LocalStorage :=
  match store with
  | Some saved =>
      if Js.truthy saved then
        match Js.JSON_parse saved with
        | Js.Normal v => (Some v, store)
        | Js.Throw => (None, clearSavedSession store)
        end
      else (None, store)
  | None => (None, store)
  end.

End useSessionAutoSave.

(* ================================================================== *)
(** ** [SessionAutoSave]: the resume prompt *)

Module SessionAutoSave.

Section Resolver.

Variable coerce : Js.Value -> option Q.

Record State : Type := {
  localStorage : LocalStorage;
  savedSession : option Js.Value;   (* useState<SavedSession | null>(null) *)
  showPrompt : bool                 (* useState(false) *)
}.

(** The component as it is mounted over a given store. *)
Definition mount (store : LocalStorage) : State :=
  {| localStorage := store; savedSession := None; showPrompt := false |}.

Definition clearSavedSession (st : State) : State :=
  {| localStorage := None; savedSession := None; showPrompt := showPrompt st |}.

(** [(Date.now() - session.timestamp) / (1000 * 60 * 60)], NaN as [None]. *)
Definition hoursSinceLastSession (now : Z) (ts : option Js.Value) : option Q :=
  match Js.toNumber coerce ts with
  | Some t => Some ((inject_Z now - t) / inject_Z (1000 * 60 * 60))%Q
  | None => None
  end.

Definition checkForSavedSession (now : Z) (st : State) : State :=
  match localStorage st with
  | Some saved =>
      if Js.truthy saved then
        match Js.JSON_parse saved with
        | Js.Normal session =>
            match Js.getProp session "timestamp" with
            | Js.Normal ts =>
                if Js.lt (hoursSinceLastSession now ts) (inject_Z 24) then
                  {| localStorage := localStorage st;
                     savedSession := Some session;
                     showPrompt := true |}
                else clearSavedSession st
            | Js.Throw => clearSavedSession st      (* catch (error) *)
            end
        | Js.Throw => clearSavedSession st          (* catch (error) *)
        end
      else st
  | None => st
  end.

(** What the component offers: it renders [null] unless [showPrompt] is set
    and a session is held. *)
Definition offered (st : State) : option Js.Value :=
  if showPrompt st then savedSession st else None.

(** [handleDismiss]. *)
Definition handleDismiss (st : State) : State :=
  {| localStorage := None; savedSession := None; showPrompt := false |}.

(** [v.k] where [v] may be [undefined]: reading a property of [undefined]
    throws a TypeError. *)
Definition getProp' (v : option Js.Value) (k : string) : Js.Completion (option Js.Value) :=
  match v with
  | Some v => Js.getProp v k
  | None => Js.Throw
  end.

(** Rendering: [null] unless the prompt is shown; the card reads
    [savedSession.progress.cyclesCompleted], [.totalCycles] and
    [.timeElapsed], and [savedSession.pattern.inhale] to [.pause].  [Throw]
    is a TypeError that escapes the render. *)
Definition render (st : State) : Js.Completion unit :=
  match offered st with
  | None => Js.Normal tt
  | Some s =>
      match Js.getProp s "progress", Js.getProp s "pattern" with
      | Js.Normal progress, Js.Normal pattern =>
          match getProp' progress "cyclesCompleted", getProp' pattern "inhale" with
          | Js.Normal _, Js.Normal _ => Js.Normal tt
          | _, _ => Js.Throw
          end
      | _, _ => Js.Throw
      end
  end.


End Resolver.

(** [handleResumeSession]: with a session held and a callback given, the
    callback is called with the session, then the store is cleared and the
    prompt hidden; otherwise nothing happens.  [onResumeSession] is the
    callback as what it does to the state [A] of the parent. *)
Definition handleResumeSession {A : Type}
    (onResumeSession : option (Js.Value -> A -> A)) (st : State) (parent : A) :
    State * A :=
  match savedSession st, onResumeSession with
  | Some session, Some callback =>
      if Js.toBoolean session then
        ({| localStorage := None; savedSession := None; showPrompt := false |},
         callback session parent)
      else (st, parent)
  | _, _ => (st, parent)
  end.

(** [Math.round] on a rational: the nearest integer, halves going up, that
    is the floor of [q + 1/2]. *)
Definition Math_round (q : Q) : Z :=
  let r := (q + (1 # 2))%Q in Qnum r / Zpos (Qden r).

(** [completionPercentage], the number the card shows and the width of its
    progress bar: [Math.round((cyclesCompleted / totalCycles) * 100)].  With
    [totalCycles] 0 the quotient is NaN or an infinity ([None]). *)
Definition completionPercentage (g : SavedSession.Progress) : option Z :=
  if SavedSession.totalCycles g =? 0 then None
  else Some (Math_round
               (inject_Z (SavedSession.cyclesCompleted g)
                / inject_Z (SavedSession.totalCycles g) * inject_Z 100)).

(** [formatTime], for the elapsed time on the card: the minutes, a colon,
    and the seconds padded to two places. *)
Definition formatTime (seconds : Z) : string :=
  (toString (seconds / 60) ++ ":" ++ Js.padStart 2 (toString (Z.rem seconds 60)))%string.

End SessionAutoSave.

(* ================================================================== *)
(** ** [App]: starting, resuming and completing a session *)

(** [interface SessionData]: the summary handed to [onExit]. *)
Module SessionData.
Record t : Type := {
  duration : Z;
  cycles : Z;
  pattern : BreathPattern;
  patternName : option string
}.
End SessionData.

Module App.

Inductive AppScreen : Type :=
| onboarding | home | library | custom | control | session | reflection
| progress | settings.

Record Exercise : Type := {
  id : string;
  name : string;
  tag : string;
  description : string;
  pattern : BreathPattern;
  color : string
}.

Record State : Type := {
  currentScreen : AppScreen;
  selectedExercise : option Exercise;
  customPattern : option BreathPattern;
  sessionData : option SessionData.t;
  showSavedSessionPrompt : bool;
  localStorage : LocalStorage
}.

(** [navigateToScreen]: the 300 ms loading screen is not modelled, the
    state is the one its timeout leaves. *)
Definition navigateToScreen (screen : AppScreen) (st : State) : State :=
  {| currentScreen := screen;
     selectedExercise := selectedExercise st;
     customPattern := customPattern st;
     sessionData := sessionData st;
     showSavedSessionPrompt := showSavedSessionPrompt st;
     localStorage := localStorage st |}.

Definition handleStartSession (pattern : BreathPattern)
    (patternName : option string) (st : State) : State :=
  navigateToScreen session
    {| currentScreen := currentScreen st;
       selectedExercise := selectedExercise st;
       customPattern := Some pattern;
       sessionData := sessionData st;
       showSavedSessionPrompt := showSavedSessionPrompt st;
       localStorage := localStorage st |}.

Definition handleSessionComplete (data : SessionData.t) (st : State) : State :=
  navigateToScreen reflection
    {| currentScreen := currentScreen st;
       selectedExercise := selectedExercise st;
       customPattern := customPattern st;
       sessionData := Some data;
       showSavedSessionPrompt := showSavedSessionPrompt st;
       localStorage := None |}.

(** [handleResumeSession]: of the saved session only [pattern] and
    [patternName] are read.  [savedSession.patternName ? {...} : null] tests
    the name for truthiness: a missing name and the empty one select no
    exercise. *)
Definition handleResumeSession (savedSession : SavedSession.t) (st : State) : State :=
  navigateToScreen session
    {| currentScreen := currentScreen st;
       selectedExercise :=
         match SavedSession.patternName savedSession with
         | Some EmptyString => None
         | Some n =>
             Some {| id := "saved";
                     name := n;
                     tag := "Resumed";
                     description := "Continuing your previous session";
                     pattern := SavedSession.pattern savedSession;
                     color := "#2E3AF0" |}
         | None => None
         end;
       customPattern := Some (SavedSession.pattern savedSession);
       sessionData := sessionData st;
       showSavedSessionPrompt := false;
       localStorage := localStorage st |}.

Definition handleDismissSavedSession (st : State) : State :=
  {| currentScreen := currentScreen st;
     selectedExercise := selectedExercise st;
     customPattern := customPattern st;
     sessionData := sessionData st;
     showSavedSessionPrompt := false;
     localStorage := None |}.

(** The props of the [<SessionScreen>] the app renders, if it renders one:
    [currentScreen === 'session' && customPattern && <SessionScreen
    pattern={customPattern} patternName={selectedExercise?.name} ... />]. *)
Definition sessionProps (st : State) : option (BreathPattern * option string) :=
  match currentScreen st, customPattern st with
  | session, Some p => Some (p, option_map name (selectedExercise st))
  | _, _ => None
  end.

(** [handleSelectExercise]. *)
Definition handleSelectExercise (exercise : Exercise) (st : State) : State :=
  navigateToScreen control
    {| currentScreen := currentScreen st;
       selectedExercise := Some exercise;
       customPattern := customPattern st;
       sessionData := sessionData st;
       showSavedSessionPrompt := showSavedSessionPrompt st;
       localStorage := localStorage st |}.

(** [handleCreateCustom]. *)
Definition handleCreateCustom (st : State) : State :=
  navigateToScreen control
    {| currentScreen := currentScreen st;
       selectedExercise := None;
       customPattern :=
         Some {| inhale := 4000; hold := 4000; exhale := 4000; pause := 4000 |};
       sessionData := sessionData st;
       showSavedSessionPrompt := showSavedSessionPrompt st;
       localStorage := localStorage st |}.

(** [handleReflectionComplete]. *)
Definition handleReflectionComplete (st : State) : State :=
  navigateToScreen home
    {| currentScreen := currentScreen st;
       selectedExercise := None;
       customPattern := None;
       sessionData := None;
       showSavedSessionPrompt := showSavedSessionPrompt st;
       localStorage := localStorage st |}.

(** The props of the [<ControlPanel>] the app renders, if it renders one:
    [initialPattern={selectedExercise?.pattern || customPattern || undefined}]
    and [presetName={selectedExercise?.name}]. *)
Definition controlProps (st : State) : option (option BreathPattern * option string) :=
  match currentScreen st with
  | control =>
      Some (match selectedExercise st with
            | Some e => Some (pattern e)
            | None => customPattern st
            end,
            option_map name (selectedExercise st))
  | _ => None
  end.

(** The summary the [<ReflectionScreen>] is rendered with, if it is
    rendered: [currentScreen === 'reflection' && sessionData && ...]. *)
Definition reflectionProps (st : State) : option SessionData.t :=
  match currentScreen st with
  | reflection => sessionData st
  | _ => None
  end.


Section StartUp.

Variable coerce : Js.Value -> option Q.

(** The check the app runs one second after start-up: it raises the prompt
    for a fresh snapshot and does nothing else (no branch removes the item). *)
Definition savedSessionCheck (now : Z) (st : State) : State :=
  match localStorage st with
  | Some savedSession =>
      if Js.truthy savedSession then
        match Js.JSON_parse savedSession with
        | Js.Normal parsed =>
            match Js.getProp parsed "timestamp" with
            | Js.Normal ts =>
                if Js.lt (SessionAutoSave.hoursSinceLastSession coerce now ts)
                         (inject_Z 24)
                then {| currentScreen := currentScreen st;
                        selectedExercise := selectedExercise st;
                        customPattern := customPattern st;
                        sessionData := sessionData st;
                        showSavedSessionPrompt := true;
                        localStorage := localStorage st |}
                else st
            | Js.Throw => st
            end
        | Js.Throw => st
        end
      else st
  | None => st
  end.

(** The effect the app runs when it is mounted: once the onboarding has been
    completed ([completed]: the item ['aora-onboarding-completed'] is
    ['true']) it shows the home screen and, a second later, checks for a
    saved session. *)
Definition startUp (completed : bool) (now : Z) (st : State) : State :=
  if completed then savedSessionCheck now (navigateToScreen home st) else st.

(** [{showSavedSessionPrompt && <SessionAutoSave ... />}]: the prompt
    component is mounted only while the app's flag is set; its own effect
    then runs [checkForSavedSession], at time [later], over the same store. *)
Definition promptOf (later : Z) (st : State) : option SessionAutoSave.State :=
  if showSavedSessionPrompt st
  then Some (SessionAutoSave.checkForSavedSession coerce later
               (SessionAutoSave.mount (localStorage st)))
  else None.

(** The store once the app has started: what the prompt component left of
    it, if the component was mounted. *)
Definition storeAfterStartUp (completed : bool) (now later : Z) (st : State) :
    LocalStorage :=
  let st' := startUp completed now st in
  match promptOf later st' with
  | Some prompt => SessionAutoSave.localStorage prompt
  | None => localStorage st'
  end.

End StartUp.

End App.

(* ================================================================== *)
(** ** [SessionScreen]: the component that runs a session *)

Module SessionScreen.

(** One call of [runPhase] whose promise is still pending: the closure
    variables [phase], [duration] and [remaining], and its two timers (the
    100 ms [countdown] interval and the [setTimeout] of [duration * 1000],
    both armed [run_age] milliseconds ago).  [run_duration] is in
    milliseconds and [run_remaining] is the decimal value of [remaining], in
    milliseconds too.  [run_handle] is the handle [setTimeout] returned;
    [run_armed] is cleared by [clearTimeout]. *)
Record PhaseRun : Type := {
  run_phase : Phase;
  run_duration : Z;
  run_remaining : Z;
  run_age : Z;
  run_handle : nat;
  run_armed : bool
}.

Record State : Type := {
  (* props *)
  pattern : BreathPattern;
  patternName : option string;
  (* useState *)
  currentPhase : Phase;
  isActive : bool;
  cycles : Z;
  timeRemaining : Z;
  sessionDuration : Z;
  (* useRef *)
  startTimeRef : Z;
  phaseTimeoutRef : option nat;
  (* the browser *)
  dateNow : Z;                   (* Date.now() *)
  mountedFor : Z;                (* age of the 1000 ms duration interval *)
  autoSave : option Z;           (* age of the 5000 ms auto-save interval, if armed *)
  pending : list PhaseRun;       (* runPhase promises not yet resolved *)
  nextHandle : nat;
  effectPending : bool;          (* the breathing effect is due again *)
  localStorage : LocalStorage;
  (* onExit was called with this summary; the screen is unmounted *)
  exited : option SessionData.t
}.

(** [const [totalCycles] = useState(10)]: never set again. *)
Definition totalCycles : Z := 10.

Definition set_currentPhase (v : Phase) (s : State) : State :=
  Build_State (pattern s) (patternName s) v (isActive s) (cycles s)
    (timeRemaining s) (sessionDuration s) (startTimeRef s) (phaseTimeoutRef s)
    (dateNow s) (mountedFor s) (autoSave s) (pending s) (nextHandle s)
    (effectPending s) (localStorage s) (exited s).

Definition set_isActive (v : bool) (s : State) : State :=
  Build_State (pattern s) (patternName s) (currentPhase s) v (cycles s)
    (timeRemaining s) (sessionDuration s) (startTimeRef s) (phaseTimeoutRef s)
    (dateNow s) (mountedFor s) (autoSave s) (pending s) (nextHandle s)
    (effectPending s) (localStorage s) (exited s).

Definition set_cycles (v : Z) (s : State) : State :=
  Build_State (pattern s) (patternName s) (currentPhase s) (isActive s) v
    (timeRemaining s) (sessionDuration s) (startTimeRef s) (phaseTimeoutRef s)
    (dateNow s) (mountedFor s) (autoSave s) (pending s) (nextHandle s)
    (effectPending s) (localStorage s) (exited s).

Definition set_timeRemaining (v : Z) (s : State) : State :=
  Build_State (pattern s) (patternName s) (currentPhase s) (isActive s) (cycles s)
    v (sessionDuration s) (startTimeRef s) (phaseTimeoutRef s)
    (dateNow s) (mountedFor s) (autoSave s) (pending s) (nextHandle s)
    (effectPending s) (localStorage s) (exited s).

Definition set_sessionDuration (v : Z) (s : State) : State :=
  Build_State (pattern s) (patternName s) (currentPhase s) (isActive s) (cycles s)
    (timeRemaining s) v (startTimeRef s) (phaseTimeoutRef s)
    (dateNow s) (mountedFor s) (autoSave s) (pending s) (nextHandle s)
    (effectPending s) (localStorage s) (exited s).

Definition set_startTimeRef (v : Z) (s : State) : State :=
  Build_State (pattern s) (patternName s) (currentPhase s) (isActive s) (cycles s)
    (timeRemaining s) (sessionDuration s) v (phaseTimeoutRef s)
    (dateNow s) (mountedFor s) (autoSave s) (pending s) (nextHandle s)
    (effectPending s) (localStorage s) (exited s).

Definition set_phaseTimeoutRef (v : option nat) (s : State) : State :=
  Build_State (pattern s) (patternName s) (currentPhase s) (isActive s) (cycles s)
    (timeRemaining s) (sessionDuration s) (startTimeRef s) v
    (dateNow s) (mountedFor s) (autoSave s) (pending s) (nextHandle s)
    (effectPending s) (localStorage s) (exited s).

(** One millisecond passes: the clock and the two component-level intervals
    grow older. *)
Definition elapse (s : State) : State :=
  Build_State (pattern s) (patternName s) (currentPhase s) (isActive s) (cycles s)
    (timeRemaining s) (sessionDuration s) (startTimeRef s) (phaseTimeoutRef s)
    (dateNow s + 1) (mountedFor s + 1) (option_map Z.succ (autoSave s))
    (pending s) (nextHandle s) (effectPending s) (localStorage s) (exited s).

Definition set_autoSave (v : option Z) (s : State) : State :=
  Build_State (pattern s) (patternName s) (currentPhase s) (isActive s) (cycles s)
    (timeRemaining s) (sessionDuration s) (startTimeRef s) (phaseTimeoutRef s)
    (dateNow s) (mountedFor s) v (pending s) (nextHandle s)
    (effectPending s) (localStorage s) (exited s).

Definition set_pending (v : list PhaseRun) (s : State) : State :=
  Build_State (pattern s) (patternName s) (currentPhase s) (isActive s) (cycles s)
    (timeRemaining s) (sessionDuration s) (startTimeRef s) (phaseTimeoutRef s)
    (dateNow s) (mountedFor s) (autoSave s) v (nextHandle s)
    (effectPending s) (localStorage s) (exited s).

Definition set_nextHandle (v : nat) (s : State) : State :=
  Build_State (pattern s) (patternName s) (currentPhase s) (isActive s) (cycles s)
    (timeRemaining s) (sessionDuration s) (startTimeRef s) (phaseTimeoutRef s)
    (dateNow s) (mountedFor s) (autoSave s) (pending s) v
    (effectPending s) (localStorage s) (exited s).

Definition set_effectPending (v : bool) (s : State) : State :=
  Build_State (pattern s) (patternName s) (currentPhase s) (isActive s) (cycles s)
    (timeRemaining s) (sessionDuration s) (startTimeRef s) (phaseTimeoutRef s)
    (dateNow s) (mountedFor s) (autoSave s) (pending s) (nextHandle s)
    v (localStorage s) (exited s).

Definition set_localStorage (v : LocalStorage) (s : State) : State :=
  Build_State (pattern s) (patternName s) (currentPhase s) (isActive s) (cycles s)
    (timeRemaining s) (sessionDuration s) (startTimeRef s) (phaseTimeoutRef s)
    (dateNow s) (mountedFor s) (autoSave s) (pending s) (nextHandle s)
    (effectPending s) v (exited s).

Definition set_exited (v : option SessionData.t) (s : State) : State :=
  Build_State (pattern s) (patternName s) (currentPhase s) (isActive s) (cycles s)
    (timeRemaining s) (sessionDuration s) (startTimeRef s) (phaseTimeoutRef s)
    (dateNow s) (mountedFor s) (autoSave s) (pending s) (nextHandle s)
    (effectPending s) (localStorage s) v.

(* ------------------------------------------------------------------ *)
(** *** Saving a snapshot *)

(** The [progress] argument every [saveSession] call site builds. *)
Definition progressOf (s : State) : SavedSession.Progress :=
  {| SavedSession.cyclesCompleted := cycles s;
     SavedSession.totalCycles := totalCycles;
     SavedSession.timeElapsed := sessionDuration s;
     SavedSession.currentPhase := currentPhase s;
     SavedSession.phaseTimeRemaining := timeRemaining s |}.

(** The snapshot a [saveSession] call would write in state [s]. *)
Definition snapshot (s : State) : SavedSession.t :=
  useSessionAutoSave.sessionData (dateNow s) (pattern s) (patternName s)
    (progressOf s) (sessionDuration s).

(** [saveSession(pattern, patternName, {...}, sessionDuration)], as all three
    call sites have it. *)
Definition saveSession (s : State) : State :=
  set_localStorage
    (useSessionAutoSave.saveSession (dateNow s) (pattern s) (patternName s)
       (progressOf s) (sessionDuration s) (localStorage s)) s.

(** The auto-save effect: [if (isActive && cycles > 0)] it arms a fresh
    5000 ms interval, otherwise it leaves none. *)
Definition autoSaveEffect (s : State) : State :=
  set_autoSave (if isActive s && (0 <? cycles s) then Some 0 else None) s.

(** Whether two states render alike (the five [useState] cells). *)
Definition sameRender (a b : State) : bool :=
  Phase_eqb (currentPhase a) (currentPhase b)
  && Bool.eqb (isActive a) (isActive b)
  && (cycles a =? cycles b)
  && (timeRemaining a =? timeRemaining b)
  && (sessionDuration a =? sessionDuration b).

(** After a handler turned [before] into [after]: when a state cell changed
    the component renders again, and the auto-save effect, which depends on
    all five cells and on the [saveSession] closure of the render, tears its
    interval down and runs anew. *)
Definition rerender (before after : State) : State :=
  if sameRender before after then after else autoSaveEffect after.

Definition handleBeforeUnload (s : State) : State :=
  if isActive s && (0 <? cycles s) then saveSession s else s.

Definition handleVisibilityChange (hidden : bool) (s : State) : State :=
  if hidden && isActive s && (0 <? cycles s) then saveSession s else s.

(** The callback of the auto-save interval. *)
Definition autoSaveTick (s : State) : State :=
  match autoSave s with
  | Some age => if (0 <? age) && (age mod 5000 =? 0) then saveSession s else s
  | None => s
  end.

(** The callback of the duration interval:
    [setSessionDuration(Math.floor((Date.now() - startTimeRef.current) / 1000))]. *)
Definition durationTick (s : State) : State :=
  set_sessionDuration ((dateNow s - startTimeRef s) / 1000) s.

(* ------------------------------------------------------------------ *)
(** *** The breathing cycle *)

Definition disarm (r : PhaseRun) : PhaseRun :=
  {| run_phase := run_phase r; run_duration := run_duration r;
     run_remaining := run_remaining r; run_age := run_age r;
     run_handle := run_handle r; run_armed := false |}.

(** [clearTimeout(phaseTimeoutRef.current)], the cleanup of the effect. *)
Definition clearTimeout (h : option nat) (s : State) : State :=
  match h with
  | Some h =>
      set_pending
        (map (fun r => if Nat.eqb (run_handle r) h then disarm r else r) (pending s)) s
  | None => s
  end.

(** [runPhase(phase, duration)] for [duration !== 0]: it shows the phase and
    arms the countdown interval and the time-out. *)
Definition runPhase (phase : Phase) (duration : Z) (s : State) : State :=
  let h := nextHandle s in
  set_nextHandle (S h)
    (set_phaseTimeoutRef (Some h)
       (set_pending
          (pending s ++
             [ {| run_phase := phase; run_duration := duration;
                  run_remaining := duration; run_age := 0;
                  run_handle := h; run_armed := true |} ])
          (set_timeRemaining duration (set_currentPhase phase s)))).

(** [runCycle] from a given point on: a phase of duration 0 resolves at once
    ([if (duration === 0) return Promise.resolve()]) and the next one is
    tried; the first phase with another duration is run and awaited.  The
    result is [true] when no phase was left to await, so that
    [setCycles(prev => prev + 1)] comes next.  The tests [if (!isActive)
    return] between the phases read the [isActive] of the render that
    started the cycle, which is [true] (the effect returns before [runCycle]
    otherwise): they never leave the cycle. *)
Fixpoint runCycleFrom (phases : list Phase) (s : State) : bool * State :=
  match phases with
  | [] => (true, s)
  | ph :: rest =>
      if durationOf (pattern s) ph =? 0 then runCycleFrom rest s
      else (false, runPhase ph (durationOf (pattern s) ph) s)
  end.

(** The body of the breathing effect.  When all four durations are 0 the
    cycle ends in the microtasks that follow the effect, [cycles] grows and
    the effect is due again ([effectPending]): that loop goes on at the pace
    of [tick]. *)
Definition breathingEffect (s : State) : State :=
  if isActive s then
    match runCycleFrom [Inhale; Hold; Exhale; Pause] s with
    | (true, s') => set_effectPending true (set_cycles (cycles s' + 1) s')
    | (false, s') => s'
    end
  else s.

(** The effect runs again (its dependencies are [pattern], [isActive] and
    [cycles]): first the cleanup its last run returned, which exists when
    that run was of an active render, then the body. *)
Definition rerunBreathing (wasActive : bool) (s : State) : State :=
  let s := set_effectPending false s in
  breathingEffect (if wasActive then clearTimeout (phaseTimeoutRef s) s else s).

Definition phasesAfter (ph : Phase) : list Phase :=
  match ph with
  | Inhale => [Hold; Exhale; Pause]
  | Hold => [Exhale; Pause]
  | Exhale => [Pause]
  | Pause => []
  end.

(** [runCycle] goes on after the promise of phase [ph] resolved. *)
Definition continueCycle (ph : Phase) (s : State) : State :=
  match runCycleFrom (phasesAfter ph) s with
  | (true, s') => rerunBreathing (isActive s') (set_cycles (cycles s' + 1) s')
  | (false, s') => s'
  end.

Definition remove_run (h : nat) (l : list PhaseRun) : list PhaseRun :=
  filter (fun r => negb (Nat.eqb (run_handle r) h)) l.

Definition replace_run (r : PhaseRun) (l : list PhaseRun) : list PhaseRun :=
  map (fun x => if Nat.eqb (run_handle x) (run_handle r) then r else x) l.

Definition find_run (h : nat) (l : list PhaseRun) : option PhaseRun :=
  find (fun r => Nat.eqb (run_handle r) h) l.

(** Run [r] after [remaining -= 0.1]. *)
Definition counted (r : PhaseRun) : PhaseRun :=
  {| run_phase := run_phase r; run_duration := run_duration r;
     run_remaining := run_remaining r - 100; run_age := run_age r;
     run_handle := run_handle r; run_armed := run_armed r |}.

(** The doubles of the countdown.  [secondsOf ms] is [duration] for a
    phase of [ms] milliseconds, [tenth] the literal [0.1], and
    [remainingAfter ms k] the value of [remaining] after [k] steps of
    [remaining -= 0.1]. *)
Definition secondsOf (ms : Z) : PrimFloat.float :=
  PrimFloat.div (PrimFloat.of_uint63 (Uint63.of_Z ms)) (PrimFloat.of_uint63 (Uint63.of_Z 1000)).

Definition tenth : PrimFloat.float :=
  PrimFloat.div (PrimFloat.of_uint63 (Uint63.of_Z 1)) (PrimFloat.of_uint63 (Uint63.of_Z 10)).

Fixpoint subtractTenths (k : nat) (remaining : PrimFloat.float) : PrimFloat.float :=
  match k with
  | O => remaining
  | S k => subtractTenths k (PrimFloat.sub remaining tenth)
  end.

Definition remainingAfter (ms : Z) (k : nat) : PrimFloat.float :=
  subtractTenths k (secondsOf ms).

(** After the [ms / 100] steps that take the decimal value to 0 the double
    is still above 0: so it is for 0.5 s, 1 s and from 5 s on, and the
    countdown then takes one step more. *)
Definition lingers (ms : Z) : bool :=
  PrimFloat.ltb PrimFloat.zero (remainingAfter ms (Z.to_nat (ms / 100))).

(** [remaining <= 0], for the countdown of a phase of [duration]
    milliseconds whose decimal value has come to [remaining]. *)
Definition expired (duration remaining : Z) : bool :=
  (remaining <? 0) || ((remaining =? 0) && negb (lingers duration)).

(** The callback of the [countdown] interval of run [r]. *)
Definition countdownTick (r : PhaseRun) (s : State) : State :=
  let remaining := run_remaining r - 100 in
  let s := set_timeRemaining (Z.max 0 remaining) s in
  if expired (run_duration r) remaining then
    continueCycle (run_phase r) (set_pending (remove_run (run_handle r) (pending s)) s)
  else
    set_pending (replace_run (counted r) (pending s)) s.

(** The callback of the time-out of run [r]. *)
Definition phaseTimeout (r : PhaseRun) (s : State) : State :=
  continueCycle (run_phase r) (set_pending (remove_run (run_handle r) (pending s)) s).

(** Run [r] one millisecond later. *)
Definition aged (r : PhaseRun) : PhaseRun :=
  {| run_phase := run_phase r; run_duration := run_duration r;
     run_remaining := run_remaining r; run_age := run_age r + 1;
     run_handle := run_handle r; run_armed := run_armed r |}.

(** The run with time-out handle [h] grows one millisecond older. *)
Definition ageRun (h : nat) (s : State) : State :=
  set_pending
    (map (fun r => if Nat.eqb (run_handle r) h then aged r else r) (pending s)) s.

(** The [countdown] interval of run [h] fires at every multiple of 100 ms. *)
Definition fireCountdown (h : nat) (s : State) : State :=
  match find_run h (pending s) with
  | Some r => if run_age r mod 100 =? 0 then rerender s (countdownTick r s) else s
  | None => s
  end.

(** The time-out of run [h] fires, if it is still armed and the run still
    pending, once [duration * 1000] ms have passed. *)
Definition fireTimeout (h : nat) (s : State) : State :=
  match find_run h (pending s) with
  | Some r =>
      if run_armed r && (run_duration r <=? run_age r)
      then rerender s (phaseTimeout r s) else s
  | None => s
  end.

(** One millisecond in the life of the run with time-out handle [h]: the
    interval was armed before the time-out and fires first. *)
Definition stepRun (h : nat) (s : State) : State :=
  fireTimeout h (fireCountdown h (ageRun h s)).

Definition stepRuns (s : State) : State :=
  fold_left (fun s h => stepRun h s) (map run_handle (pending s)) s.

(* ------------------------------------------------------------------ *)
(** *** Events *)

(** [toggleSession]. *)
Definition toggleSession (s : State) : State :=
  let s1 := set_isActive (negb (isActive s)) s in
  let s2 := if negb (isActive s)
            then set_startTimeRef (dateNow s - sessionDuration s * 1000) s1
            else s1 in
  rerender s (rerunBreathing (isActive s) s2).

(** [handleExit]. *)
Definition handleExit (s : State) : State :=
  let finalDuration := (dateNow s - startTimeRef s) / 1000 in
  set_exited
    (Some {| SessionData.duration := finalDuration;
             SessionData.cycles := cycles s;
             SessionData.pattern := pattern s;
             SessionData.patternName := patternName s |})
    (set_autoSave None
       (set_localStorage (useSessionAutoSave.clearSavedSession (localStorage s)) s)).

(** One millisecond passes and every callback that falls due runs: a
    breathing effect that is due, the duration interval, the auto-save
    interval, then the timers of the pending phases. *)
Definition tick (s : State) : State :=
  match exited s with
  | Some _ => s
  | None =>
      let s := elapse s in
      let s := if effectPending s
               then rerender s (rerunBreathing (isActive s) s) else s in
      let s := if mountedFor s mod 1000 =? 0
               then rerender s (durationTick s) else s in
      let s := autoSaveTick s in
      stepRuns s
  end.

Inductive Event : Type :=
| Tick
| ToggleSession
| BeforeUnload
| VisibilityChange (hidden : bool)
| Exit.

(** After [handleExit] the screen is unmounted and hears nothing more. *)
Definition handle (e : Event) (s : State) : State :=
  match exited s with
  | Some _ => s
  | None =>
      match e with
      | Tick => tick s
      | ToggleSession => toggleSession s
      | BeforeUnload => handleBeforeUnload s
      | VisibilityChange hidden => handleVisibilityChange hidden s
      | Exit => handleExit s
      end
  end.

Definition run (events : list Event) (s : State) : State :=
  fold_left (fun s e => handle e s) events s.

(** [n] milliseconds pass. *)
Definition advance (n : nat) (s : State) : State := Nat.iter n tick s.

(** A sequence of waits, each of so many milliseconds. *)
Definition advanceAll (deltas : list nat) (s : State) : State :=
  fold_left (fun s d => advance d s) deltas s.

(** The first render: the initial values of the state cells and refs. *)
Definition initial (pattern : BreathPattern) (patternName : option string)
    (now : Z) (store : LocalStorage) : State :=
  {| pattern := pattern; patternName := patternName;
     currentPhase := Inhale; isActive := true; cycles := 0;
     timeRemaining := 0; sessionDuration := 0;
     startTimeRef := now; phaseTimeoutRef := None;
     dateNow := now; mountedFor := 0; autoSave := None;
     pending := []; nextHandle := 0; effectPending := false;
     localStorage := store; exited := None |}.

(** Mounting the screen: the first render, then its effects in order (the
    duration interval, the auto-save effect, the breathing effect). *)
Definition mount (pattern : BreathPattern) (patternName : option string)
    (now : Z) (store : LocalStorage) : State :=
  let s := initial pattern patternName now store in
  rerender s (breathingEffect (autoSaveEffect s)).

(* ------------------------------------------------------------------ *)
(** *** Vocabulary for the statements below *)

(** The pattern invariant of the data model: no negative duration, and a
    cycle that takes time. *)
Definition valid (p : BreathPattern) : Prop :=
  0 <= inhale p /\ 0 <= hold p /\ 0 <= exhale p /\ 0 <= pause p
  /\ 0 < totalCycleTime p.

(** The first of [phases] that [runCycleFrom] awaits. *)
Fixpoint firstAwaited (p : BreathPattern) (phases : list Phase) : option Phase :=
  match phases with
  | [] => None
  | ph :: rest => if durationOf p ph =? 0 then firstAwaited p rest else Some ph
  end.

(** The time the phases [phases] take. *)
Fixpoint timeOf (p : BreathPattern) (phases : list Phase) : Z :=
  match phases with
  | [] => 0
  | ph :: rest => durationOf p ph + timeOf p rest
  end.

(** The run of phase [ph], [a] milliseconds after [runPhase] armed it. *)
Definition runAt (p : BreathPattern) (ph : Phase) (a : Z) (h : nat) : PhaseRun :=
  {| run_phase := ph; run_duration := durationOf p ph;
     run_remaining := durationOf p ph - 100 * (a / 100);
     run_age := a; run_handle := h; run_armed := true |}.

(** A running session of pattern [p] with [c] cycles done whose only pending
    run is [r], with [tr] shown as the time remaining. *)
Definition Sole (p : BreathPattern) (c : Z) (r : PhaseRun) (tr : Z) (s : State) : Prop :=
  exited s = None /\ isActive s = true /\ effectPending s = false
  /\ pattern s = p /\ cycles s = c /\ currentPhase s = run_phase r
  /\ timeRemaining s = tr /\ pending s = [r]
  /\ (run_handle r < nextHandle s)%nat.

(** A running session of pattern [p] with [c] cycles done that awaits
    nothing: the run it awaited has just resolved. *)
Definition Quiet (p : BreathPattern) (c : Z) (s : State) : Prop :=
  exited s = None /\ isActive s = true /\ effectPending s = false
  /\ pattern s = p /\ cycles s = c /\ pending s = [].

(** A running session of pattern [p] with [c] cycles done that has been
    awaiting phase [ph], and nothing else, for [a] milliseconds. *)
Definition Awaiting (p : BreathPattern) (c : Z) (ph : Phase) (a : Z) (s : State) : Prop :=
  exists h, Sole p c (runAt p ph a h) (durationOf p ph - 100 * (a / 100)) s.

(** The top of a cycle: [runCycle] has just started and awaits its first
    phase. *)
Definition CycleStart (p : BreathPattern) (c : Z) (s : State) : Prop :=
  exists ph, firstAwaited p [Inhale; Hold; Exhale; Pause] = Some ph
             /\ Awaiting p c ph 0 s.

(** [runCycle] has just reached the phases [phases] of cycle [c]: it awaits
    the first of them that takes time or, when none does, the next cycle
    has started. *)
Definition Entering (p : BreathPattern) (c : Z) (phases : list Phase) (s : State) : Prop :=
  match firstAwaited p phases with
  | Some ph => Awaiting p c ph 0 s
  | None => CycleStart p (c + 1) s
  end.

(** [s'] differs from [s] at most in the clock, the stop-watch, the auto-save
    interval and the store. *)
Definition sameEngine (s s' : State) : Prop :=
  exited s' = exited s /\ isActive s' = isActive s
  /\ effectPending s' = effectPending s /\ pattern s' = pattern s
  /\ cycles s' = cycles s /\ currentPhase s' = currentPhase s
  /\ timeRemaining s' = timeRemaining s /\ pending s' = pending s
  /\ phaseTimeoutRef s' = phaseTimeoutRef s /\ nextHandle s' = nextHandle s.

(** Total time of a list of waits. *)
Definition total (deltas : list nat) : nat := fold_right Nat.add 0%nat deltas.

(** Every phase shown or awaited takes time. *)
Definition ShowsTimedPhases (s : State) : Prop :=
  durationOf (pattern s) (currentPhase s) <> 0
  /\ Forall (fun r => durationOf (pattern s) (run_phase r) <> 0) (pending s).

(** The auto-save interval is armed only for an active session with a
    completed cycle. *)
Definition AutoSaveGuarded (s : State) : Prop :=
  autoSave s <> None -> isActive s = true /\ 0 < cycles s.

(** [s'] comes after [s] in the same session: the store, the summary and
    the pause flag are those of [s], no cycle is lost, and the auto-save
    interval is the one of [s] unless a render armed a fresh one or none. *)
Definition Follows (s s' : State) : Prop :=
  localStorage s' = localStorage s
  /\ exited s' = exited s
  /\ pattern s' = pattern s
  /\ isActive s' = isActive s
  /\ cycles s <= cycles s'
  /\ (AutoSaveGuarded s -> AutoSaveGuarded s')
  /\ ((autoSave s' = autoSave s /\ cycles s' = cycles s)
      \/ autoSave s' = Some 0 \/ autoSave s' = None).

(** [s'] is [s] after some work of the breathing cycle alone: the store,
    the summary, the pattern, the pause flag and the auto-save interval are
    untouched and no cycle is lost. *)
Definition CycleWork (s s' : State) : Prop :=
  localStorage s' = localStorage s
  /\ exited s' = exited s
  /\ pattern s' = pattern s
  /\ isActive s' = isActive s
  /\ cycles s <= cycles s'
  /\ autoSave s' = autoSave s.

(** What holds of every state of a session that was mounted over an empty
    store: the auto-save interval is guarded, and a snapshot is in the store
    only if a cycle was completed. *)
Definition Guarded (s : State) : Prop :=
  AutoSaveGuarded s /\ (localStorage s <> None -> 0 < cycles s).

(** The part of a tick that comes before the auto-save interval. *)
Definition beforeAutoSave (s : State) : State :=
  let s := if effectPending s
           then rerender s (rerunBreathing (isActive s) s) else s in
  if mountedFor s mod 1000 =? 0 then rerender s (durationTick s) else s.


(** The phases of a cycle that [runCycle] has been through when it reaches
    [ph]. *)
Definition phasesBefore (ph : Phase) : list Phase :=
  match ph with
  | Inhale => []
  | Hold => [Inhale]
  | Exhale => [Inhale; Hold]
  | Pause => [Inhale; Hold; Exhale]
  end.

(** The phase in which the instant [t] of a cycle falls, with the time
    already spent in it: the first of [phases] that is not over at [t]. *)
Fixpoint phaseAt (p : BreathPattern) (phases : list Phase) (t : Z) : option (Phase * Z) :=
  match phases with
  | [] => None
  | ph :: rest =>
      if t <? durationOf p ph then Some (ph, t)
      else phaseAt p rest (t - durationOf p ph)
  end.

(** A session of pattern [p] mounted over [store] that has been left alone
    for [n] ms: it is [a] ms into phase [ph] of cycle [c], the store is as it
    was, and the auto-save interval, if armed, was armed again at the last
    step of the countdown or later. *)
Definition Untouched (p : BreathPattern) (store : LocalStorage) (n : Z) (s : State) : Prop :=
  exists c ph a,
    0 <= c /\ 0 <= a < durationOf p ph
    /\ n = c * totalCycleTime p + timeOf p (phasesBefore ph) + a
    /\ Awaiting p c ph a s
    /\ localStorage s = store
    /\ match autoSave s with
       | Some age => 0 <= age <= a mod 100
       | None => True
       end.

(** [s'] shows the name and the time [s] shows: the name of the pattern,
    the clock, the age of the duration interval, the start time and the
    stop-watch are the same. *)
Definition sameClock (s s' : State) : Prop :=
  patternName s' = patternName s
  /\ dateNow s' = dateNow s /\ mountedFor s' = mountedFor s
  /\ startTimeRef s' = startTimeRef s /\ sessionDuration s' = sessionDuration s.

(** A session mounted at [now] that has only seen [n] ms pass. *)
Definition Clock (now n : Z) (s : State) : Prop :=
  exited s = None /\ dateNow s = now + n /\ mountedFor s = n
  /\ startTimeRef s = now /\ sessionDuration s = n / 1000.

(** The events that leave the pause control and the exit alone. *)
Definition passive (e : Event) : bool :=
  match e with
  | ToggleSession | Exit => false
  | _ => true
  end.

(** The auto-save interval is armed whenever the session is active and has
    completed a cycle. *)
Definition AutoSaveArmed (s : State) : Prop :=
  isActive s = true -> 0 < cycles s -> autoSave s <> None.

(* ------------------------------------------------------------------ *)
(** *** What the header shows *)

(** [formatTime], for the stop-watch in the header: the minutes, a colon,
    and the seconds padded to two places. *)
Definition formatTime (seconds : Z) : string :=
  (toString (seconds / 60) ++ ":" ++ Js.padStart 2 (toString (Z.rem seconds 60)))%string.

(** The test [remaining <= 0] as the source makes it, on the double that
    [k] steps leave of a phase of [ms] milliseconds. *)
Definition expiredDouble (ms : Z) (k : nat) : bool :=
  PrimFloat.leb (remainingAfter ms k) PrimFloat.zero.

(** [expired] is the test of the source at each of the [n] steps that
    follow step [k], at which the double is [remaining]. *)
Fixpoint agreesFrom (ms : Z) (n k : nat) (remaining : PrimFloat.float) : bool :=
  match n with
  | O => true
  | S n =>
      let remaining := PrimFloat.sub remaining tenth in
      Bool.eqb (PrimFloat.leb remaining PrimFloat.zero)
               (expired ms (ms - 100 * Z.of_nat (S k)))
      && agreesFrom ms n (S k) remaining
  end.

(** The durations the sliders show, in halves of a second: from 0 to 15 s. *)
Definition sliderHalves : list Z := map Z.of_nat (seq 0 31).

End SessionScreen.

(* ================================================================== *)
(** ** The session screen as the app mounts it *)

(** The [SessionScreen] the app renders in state [st], mounted at time
    [now] over the app's store. *)
Definition mountSession (now : Z) (st : App.State) : option SessionScreen.State :=
  match App.sessionProps st with
  | Some (p, n) => Some (SessionScreen.mount p n now (App.localStorage st))
  | None => None
  end.

(** The progress a session shows, in the shape snapshots store it. *)
Definition shownProgress (s : option SessionScreen.State) : option SavedSession.Progress :=
  option_map SessionScreen.progressOf s.

(** Resuming: the app handles the saved session, then mounts the screen. *)
Definition resume (now : Z) (saved : SavedSession.t) (st : App.State) :
    option SessionScreen.State :=
  mountSession now (App.handleResumeSession saved st).

(** The app as it stands on the home screen. *)
Definition atHome (store : LocalStorage) : App.State :=
  {| App.currentScreen := App.home;
     App.selectedExercise := None;
     App.customPattern := None;
     App.sessionData := None;
     App.showSavedSessionPrompt := false;
     App.localStorage := store |}.

(** Patterns of the exercise library. *)
Definition boxBreathing : BreathPattern :=
  {| inhale := 4000; hold := 4000; exhale := 4000; pause := 4000 |}.

Definition relaxing478 : BreathPattern :=
  {| inhale := 4000; hold := 7000; exhale := 8000; pause := 0 |}.

Definition allZero : BreathPattern :=
  {| inhale := 0; hold := 0; exhale := 0; pause := 0 |}.

(** The shortest pattern the sliders of the control panel allow: one second
    in, one second out. *)
Definition briefPattern : BreathPattern :=
  {| inhale := 1000; hold := 0; exhale := 1000; pause := 0 |}.

(* ================================================================== *)
(** ** [UpdatedExerciseLibrary]: the presets and the user's own exercises *)

Module ExerciseLibrary.

(** [interface Exercise], with its optional [isDefault]. *)
Record Exercise : Type := {
  id : string;
  name : string;
  tag : string;
  description : string;
  pattern : BreathPattern;
  color : string;
  isDefault : option bool
}.

(** [const defaultExercises]. *)
Definition defaultExercises : list Exercise :=
  [ {| id := "box"; name := "Box Breathing"; tag := "Focus";
       description := "Equal rhythm for mental clarity";
       pattern := {| inhale := 4000; hold := 4000; exhale := 4000; pause := 4000 |};
       color := "from-blue-500 to-blue-600"; isDefault := Some true |};
    {| id := "478"; name := "4·7·8 Breathing"; tag := "Sleep";
       description := "Natural sedative for relaxation";
       pattern := {| inhale := 4000; hold := 7000; exhale := 8000; pause := 0 |};
       color := "from-violet-500 to-purple-600"; isDefault := Some true |};
    {| id := "coherent"; name := "Coherent Breathing"; tag := "Calm";
       description := "Heart-brain synchronization";
       pattern := {| inhale := 5000; hold := 0; exhale := 5000; pause := 0 |};
       color := "from-emerald-500 to-teal-600"; isDefault := Some true |};
    {| id := "resonant"; name := "Resonant Breathing"; tag := "Calm";
       description := "Optimal breathing frequency";
       pattern := {| inhale := 6000; hold := 0; exhale := 6000; pause := 0 |};
       color := "from-cyan-500 to-blue-600"; isDefault := Some true |};
    {| id := "triangle"; name := "Triangle Breathing"; tag := "Focus";
       description := "Three-phase rhythm";
       pattern := {| inhale := 4000; hold := 4000; exhale := 4000; pause := 0 |};
       color := "from-indigo-500 to-purple-600"; isDefault := Some true |};
    {| id := "alternate"; name := "Alternate Nostril"; tag := "Balance";
       description := "Channel balancing technique";
       pattern := {| inhale := 4000; hold := 4000; exhale := 4000; pause := 0 |};
       color := "from-pink-500 to-rose-600"; isDefault := Some true |} ]%string.

(** The object [JSON.stringify] writes for an exercise. *)
Definition exerciseJson (e : Exercise) : Js.Value :=
  Js.JObj
    ([ ("id"%string, Js.JStr (id e));
       ("name"%string, Js.JStr (name e));
       ("tag"%string, Js.JStr (tag e));
       ("description"%string, Js.JStr (description e));
       ("pattern"%string, SavedSession.patternJson (pattern e));
       ("color"%string, Js.JStr (color e)) ]
     ++ match isDefault e with
        | Some b => [ ("isDefault"%string, Js.JBool b) ]
        | None => []
        end).

(** The exercise as the app keeps it. *)
Definition toApp (e : Exercise) : App.Exercise :=
  {| App.id := id e; App.name := name e; App.tag := tag e;
     App.description := description e; App.pattern := pattern e;
     App.color := color e |}.

Record State : Type := {
  activeExercise : option Exercise;
  customExercises : list Exercise;
  showGuidedBanner : bool;
  editingExercise : option Exercise;
  deleteConfirmOpen : bool;
  exerciseToDelete : option Exercise;
  (* localStorage: the items 'aora-active-exercise' and 'aora-custom-exercises' *)
  activeItem : option Js.Text;
  customItem : option Js.Text
}.

(** [exercise.isDefault] as a condition: [undefined] is falsy. *)
Definition locked (e : Exercise) : bool :=
  match isDefault e with
  | Some b => b
  | None => false
  end.

(** [handleSelectExercise], up to the callback to the app. *)
Definition handleSelectExercise (exercise : Exercise) (st : State) : State :=
  {| activeExercise := Some exercise;
     customExercises := customExercises st;
     showGuidedBanner := false;
     editingExercise := editingExercise st;
     deleteConfirmOpen := deleteConfirmOpen st;
     exerciseToDelete := exerciseToDelete st;
     activeItem := Some (Js.JSON_stringify (exerciseJson exercise));
     customItem := customItem st |}.

(** [saveCustomExercises]. *)
Definition saveCustomExercises (exercises : list Exercise) (st : State) : State :=
  {| activeExercise := activeExercise st;
     customExercises := exercises;
     showGuidedBanner := showGuidedBanner st;
     editingExercise := editingExercise st;
     deleteConfirmOpen := deleteConfirmOpen st;
     exerciseToDelete := exerciseToDelete st;
     activeItem := activeItem st;
     customItem := Some (Js.JSON_stringify (Js.JArr (map exerciseJson exercises))) |}.

(** The copy [handleDuplicateExercise] makes at time [now]. *)
Definition duplicatedExercise (now : Z) (exercise : Exercise) : Exercise :=
  {| id := "custom-" ++ toString now;
     name := name exercise ++ " (Copy)";
     tag := tag exercise;
     description := description exercise;
     pattern := pattern exercise;
     color := color exercise;
     isDefault := Some false |}%string.

(** [handleDuplicateExercise]. *)
Definition handleDuplicateExercise (now : Z) (exercise : Exercise) (st : State) : State :=
  saveCustomExercises (customExercises st ++ [duplicatedExercise now exercise]) st.

(** [handleDeleteExercise]: a default exercise only gets an error toast. *)
Definition handleDeleteExercise (exercise : Exercise) (st : State) : State :=
  if locked exercise then st
  else {| activeExercise := activeExercise st;
          customExercises := customExercises st;
          showGuidedBanner := showGuidedBanner st;
          editingExercise := editingExercise st;
          deleteConfirmOpen := true;
          exerciseToDelete := Some exercise;
          activeItem := activeItem st;
          customItem := customItem st |}.

(** [confirmDeleteExercise]. *)
Definition confirmDeleteExercise (st : State) : State :=
  match exerciseToDelete st with
  | None => st
  | Some doomed =>
      let st1 :=
        saveCustomExercises
          (filter (fun ex => negb (String.eqb (id ex) (id doomed))) (customExercises st))
          st in
      let wasActive :=
        match activeExercise st with
        | Some a => String.eqb (id a) (id doomed)
        | None => false
        end in
      {| activeExercise := if wasActive then None else activeExercise st1;
         customExercises := customExercises st1;
         showGuidedBanner := showGuidedBanner st1;
         editingExercise := editingExercise st1;
         deleteConfirmOpen := false;
         exerciseToDelete := None;
         activeItem := if wasActive then None else activeItem st1;
         customItem := customItem st1 |}
  end.

(** [handleEditExercise]: a default exercise only gets an error toast. *)
Definition handleEditExercise (exercise : Exercise) (st : State) : State :=
  if locked exercise then st
  else {| activeExercise := activeExercise st;
          customExercises := customExercises st;
          showGuidedBanner := showGuidedBanner st;
          editingExercise := Some exercise;
          deleteConfirmOpen := deleteConfirmOpen st;
          exerciseToDelete := exerciseToDelete st;
          activeItem := activeItem st;
          customItem := customItem st |}.

End ExerciseLibrary.

(* ================================================================== *)
(** ** [ControlPanel]: the sliders, the preset and the start button *)

Module ControlPanel.

Record State : Type := {
  pattern : BreathPattern;      (* useState(initialPattern || { 4, 4, 4, 4 }) *)
  customName : string;          (* useState('') *)
  presetName : option string    (* prop *)
}.

Definition mount (initialPattern : option BreathPattern) (presetName : option string) :
    State :=
  {| pattern := match initialPattern with
                | Some p => p
                | None => {| inhale := 4000; hold := 4000; exhale := 4000; pause := 4000 |}
                end;
     customName := EmptyString;
     presetName := presetName |}.

(** [updatePattern]: [setPattern(prev => ({ ...prev, [key]: value }))]; the
    keys of a pattern are the names of the phases. *)
Definition updatePattern (key : Phase) (value : Z) (s : State) : State :=
  {| pattern :=
       match key with
       | Inhale => {| inhale := value; hold := hold (pattern s);
                      exhale := exhale (pattern s); pause := pause (pattern s) |}
       | Hold => {| inhale := inhale (pattern s); hold := value;
                    exhale := exhale (pattern s); pause := pause (pattern s) |}
       | Exhale => {| inhale := inhale (pattern s); hold := hold (pattern s);
                      exhale := value; pause := pause (pattern s) |}
       | Pause => {| inhale := inhale (pattern s); hold := hold (pattern s);
                     exhale := exhale (pattern s); pause := value |}
       end;
     customName := customName s;
     presetName := presetName s |}.

(** The [min], [max] and [step] of the four [<CustomSlider>]s. *)
Definition sliderMin (key : Phase) : Z :=
  match key with
  | Inhale => 1000
  | Hold => 0
  | Exhale => 1000
  | Pause => 0
  end.

Definition sliderMax (key : Phase) : Z :=
  match key with
  | Inhale => 12000
  | Hold => 15000
  | Exhale => 15000
  | Pause => 10000
  end.

Definition sliderStep : Z := 500.

(** The values an [<input type="range">] with these attributes hands to
    [onChange]: on the grid of steps from [min], and not beyond [max]. *)
Definition slides (key : Phase) (value : Z) : bool :=
  (sliderMin key <=? value) && (value <=? sliderMax key)
  && ((value - sliderMin key) mod sliderStep =? 0).

(** A pattern each of whose durations its slider can show. *)
Definition withinSliders (p : BreathPattern) : bool :=
  forallb (fun key => slides key (durationOf p key)) [Inhale; Hold; Exhale; Pause].

(** One movement of a slider: [onChange={(value) => updatePattern(key, value)}]. *)
Definition slide (s : State) (move : Phase * Z) : State :=
  updatePattern (fst move) (snd move) s.

(** The [onChange] of the name field. *)
Definition setName (value : string) (s : State) : State :=
  if (String.length value <=? 30)%nat
  then {| pattern := pattern s; customName := value; presetName := presetName s |}
  else s.

(** [totalCycleTime], shown in the header as [Math.round(totalCycleTime)]. *)
Definition totalCycleTime (s : State) : Z :=
  inhale (pattern s) + hold (pattern s) + exhale (pattern s) + pause (pattern s).

Section SavePreset.

(** [String.prototype.trim], and the strings a string spreads into. *)
Variable trim : string -> string.
Variable spreadString : string -> list string.

(** [customName.trim() || `Custom ${Date.now()}`]. *)
Definition nameOfPreset (now : Z) (s : State) : string :=
  if String.eqb (trim (customName s)) EmptyString
  then ("Custom " ++ toString now)%string
  else trim (customName s).

(** [newExercise]. *)
Definition newExercise (now : Z) (s : State) : ExerciseLibrary.Exercise :=
  {| ExerciseLibrary.id := ("custom-" ++ toString now)%string;
     ExerciseLibrary.name := nameOfPreset now s;
     ExerciseLibrary.tag := "Custom";
     ExerciseLibrary.description := "Custom breathing pattern";
     ExerciseLibrary.pattern := pattern s;
     ExerciseLibrary.color := "from-indigo-500 to-purple-600";
     ExerciseLibrary.isDefault := Some false |}.

(** [[...existingCustomExercises]]: an array spreads into its elements, a
    string into strings; [null], numbers, booleans and plain objects are
    not iterable and the spread throws a TypeError. *)
Definition spread (v : Js.Value) : Js.Completion (list Js.Value) :=
  match v with
  | Js.JArr xs => Js.Normal xs
  | Js.JStr s => Js.Normal (map Js.JStr (spreadString s))
  | _ => Js.Throw
  end.

(** [handleSavePreset], on the item ['aora-custom-exercises']: the item it
    leaves, or the error that escapes it before anything is written. *)
Definition handleSavePreset (now : Z) (s : State) (item : option Js.Text) :
    Js.Completion (option Js.Text) :=
  let text := match item with
              | Some t => if Js.truthy t then t else Js.Serialized (Js.JArr [])
              | None => Js.Serialized (Js.JArr [])
              end in
  match Js.JSON_parse text with
  | Js.Normal existing =>
      match spread existing with
      | Js.Normal xs =>
          Js.Normal
            (Some (Js.JSON_stringify
                     (Js.JArr (xs ++ [ExerciseLibrary.exerciseJson (newExercise now s)]))))
      | Js.Throw => Js.Throw
      end
  | Js.Throw => Js.Throw
  end.

End SavePreset.

End ControlPanel.

(* ================================================================== *)
(** ** [ReflectionScreen]: the record of a finished session *)

Module ReflectionScreen.

(** [sessionData.patternName || 'Custom Pattern']: a missing or empty name
    is replaced. *)
Definition exerciseName (data : SessionData.t) : string :=
  match SessionData.patternName data with
  | Some n => if String.eqb n EmptyString then "Custom Pattern"%string else n
  | None => "Custom Pattern"%string
  end.

(** [sessionRecord], as [JSON.stringify] writes it; [date] is
    [new Date().toISOString()]. *)
Definition sessionRecord (date : string) (data : SessionData.t) (reflection : string) :
    Js.Value :=
  Js.JObj [ ("date"%string, Js.JStr date);
            ("duration"%string, SavedSession.num (SessionData.duration data));
            ("exercise"%string, Js.JStr (exerciseName data));
            ("cycles"%string, SavedSession.num (SessionData.cycles data));
            ("pattern"%string, SavedSession.patternJson (SessionData.pattern data));
            ("reflection"%string, Js.JStr reflection) ].

(** [sessionHistory.push(sessionRecord)]: only an array has [push]. *)
Definition push (history : Js.Value) (record : Js.Value) : Js.Completion Js.Value :=
  match history with
  | Js.JArr xs => Js.Normal (Js.JArr (xs ++ [record]))
  | _ => Js.Throw
  end.

(** [handleSaveReflection], on the item ['aora-session-history'] and the
    app: a history that does not parse is started anew; when the push
    throws, nothing is written and [onComplete] is not called. *)
Definition handleSaveReflection (date : string) (data : SessionData.t)
    (reflection : string) (item : option Js.Text) (app : App.State) :
    Js.Completion (option Js.Text * App.State) :=
  let sessionHistory :=
    match item with
    | Some existingHistory =>
        if Js.truthy existingHistory then
          match Js.JSON_parse existingHistory with
          | Js.Normal parsed => parsed
          | Js.Throw => Js.JArr []
          end
        else Js.JArr []
    | None => Js.JArr []
    end in
  match push sessionHistory (sessionRecord date data reflection) with
  | Js.Normal history =>
      Js.Normal (Some (Js.JSON_stringify history), App.handleReflectionComplete app)
  | Js.Throw => Js.Throw
  end.

End ReflectionScreen.

(* ================================================================== *)
(** * Properties *)

(* ------------------------------------------------------------------ *)
(** ** The saved-session prompt *)

Lemma Qltb_true (a b : Q) : Js.Qltb a b = true <-> (a < b)%Q.
Proof.
  unfold Js.Qltb. rewrite negb_true_iff. split.
  - intros H. apply Qnot_le_lt. intros L. apply Qle_bool_iff in L. congruence.
  - intros H. destruct (Qle_bool b a) eqn:E; [|reflexivity].
    apply Qle_bool_iff in E. exfalso. exact (Qlt_not_le _ _ H E).
Qed.

(** The age test of the source, in hours, is a comparison of milliseconds. *)
Lemma hours_lt (now ts : Z) :
  ((inject_Z now - inject_Z ts) / inject_Z (1000 * 60 * 60) < inject_Z 24)%Q
  <-> now - ts < 86400000.
Proof.
  unfold Qlt, Qdiv, Qmult, Qinv, Qminus, Qplus, Qopp, inject_Z. simpl. lia.
Qed.

Lemma age_lt (now ts : Z) :
  (inject_Z (now - ts) / inject_Z 3600000 < inject_Z 24)%Q
  <-> now - ts < 86400000.
Proof.
  unfold Qlt, Qdiv, Qmult, Qinv, inject_Z. simpl. lia.
Qed.

Lemma fresh_test (coerce : Js.Value -> option Q) (now ts : Z) :
  Js.lt (SessionAutoSave.hoursSinceLastSession coerce now (Some (SavedSession.num ts)))
        (inject_Z 24)
  = (now - ts <? 86400000).
Proof.
  unfold SessionAutoSave.hoursSinceLastSession, SavedSession.num. simpl.
  destruct (now - ts <? 86400000) eqn:E.
  - apply Qltb_true, hours_lt, Z.ltb_lt, E.
  - apply Z.ltb_ge in E.
    destruct (Js.Qltb _ _) eqn:F; [|reflexivity].
    apply Qltb_true, hours_lt in F. lia.
Qed.

Lemma timestamp_of_snapshot (ss : SavedSession.t) :
  Js.getProp (SavedSession.toJson ss) "timestamp"
  = Js.Normal (Some (SavedSession.num (SavedSession.timestamp ss))).
Proof. reflexivity. Qed.

(** What [checkForSavedSession] does with a stored snapshot. *)
Lemma check_snapshot (coerce : Js.Value -> option Q) (ss : SavedSession.t) (now : Z) :
  SessionAutoSave.checkForSavedSession coerce now
    (SessionAutoSave.mount (Some (Js.JSON_stringify (SavedSession.toJson ss))))
  = if now - SavedSession.timestamp ss <? 86400000
    then {| SessionAutoSave.localStorage :=
              Some (Js.JSON_stringify (SavedSession.toJson ss));
            SessionAutoSave.savedSession := Some (SavedSession.toJson ss);
            SessionAutoSave.showPrompt := true |}
    else {| SessionAutoSave.localStorage := None;
            SessionAutoSave.savedSession := None;
            SessionAutoSave.showPrompt := false |}.
Proof.
  unfold SessionAutoSave.checkForSavedSession, SessionAutoSave.mount.
  cbn [SessionAutoSave.localStorage Js.truthy Js.JSON_stringify Js.JSON_parse].
  rewrite timestamp_of_snapshot, fresh_test.
  destruct (_ <? _); reflexivity.
Qed.

(** The check of the prompt component, taken by itself.  For every stored
    snapshot and every time [now], [checkForSavedSession] offers the
    snapshot exactly when [(now - timestamp) / 3600000 < 24], leaving it in
    the store; otherwise it removes the snapshot from the store and offers
    nothing.  With nothing stored, nothing is offered. *)
Lemma checkForSavedSession_freshness :
  forall (coerce : Js.Value -> option Q) (ss : SavedSession.t) (now : Z),
    let stored := Some (Js.JSON_stringify (SavedSession.toJson ss)) in
    let st := SessionAutoSave.checkForSavedSession coerce now
                (SessionAutoSave.mount stored) in
    let age := (inject_Z (now - SavedSession.timestamp ss) / inject_Z 3600000)%Q in
    ((age < inject_Z 24)%Q ->
       SessionAutoSave.offered st = Some (SavedSession.toJson ss)
       /\ SessionAutoSave.localStorage st = stored)
    /\ (~ (age < inject_Z 24)%Q ->
       SessionAutoSave.offered st = None
       /\ SessionAutoSave.localStorage st = None)
    /\ (SessionAutoSave.offered st = Some (SavedSession.toJson ss)
        <-> (age < inject_Z 24)%Q)
    /\ (now - SavedSession.timestamp ss = 24 * 3600000 - 1 ->
        SessionAutoSave.offered st = Some (SavedSession.toJson ss))
    /\ (now - SavedSession.timestamp ss = 24 * 3600000 + 1 ->
        SessionAutoSave.offered st = None /\ SessionAutoSave.localStorage st = None)
    /\ SessionAutoSave.offered
         (SessionAutoSave.checkForSavedSession coerce now (SessionAutoSave.mount None))
       = None.
Proof.
  intros coerce ss now stored st age.
  assert (E : st = if now - SavedSession.timestamp ss <? 86400000
                   then {| SessionAutoSave.localStorage := stored;
                           SessionAutoSave.savedSession := Some (SavedSession.toJson ss);
                           SessionAutoSave.showPrompt := true |}
                   else {| SessionAutoSave.localStorage := None;
                           SessionAutoSave.savedSession := None;
                           SessionAutoSave.showPrompt := false |})
    by apply check_snapshot.
  clearbody st. subst st. unfold age.
  pose proof (age_lt now (SavedSession.timestamp ss)) as A.
  destruct (now - SavedSession.timestamp ss <? 86400000) eqn:F.
  - apply Z.ltb_lt in F. pose proof (proj2 A F) as Y. cbn.
    repeat split; intros; try reflexivity; try assumption; try contradiction; lia.
  - apply Z.ltb_ge in F.
    assert (N : ~ (inject_Z (now - SavedSession.timestamp ss) / inject_Z 3600000
                   < inject_Z 24)%Q) by (intros X; apply A in X; lia).
    cbn.
    repeat split; intros; try reflexivity; try contradiction; try discriminate; lia.
Qed.

(** The check the app itself runs at start-up applies the same age test to
    decide whether to raise the prompt, and never touches the store. *)
Lemma savedSessionCheck_keeps_store (coerce : Js.Value -> option Q) (now : Z)
    (st : App.State) :
  App.localStorage (App.savedSessionCheck coerce now st) = App.localStorage st.
Proof.
  unfold App.savedSessionCheck.
  destruct (App.localStorage st) as [saved|] eqn:L; [|exact L].
  destruct (Js.truthy saved); [|exact L].
  destruct (Js.JSON_parse saved) as [v|]; [|exact L].
  destruct (Js.getProp v "timestamp") as [ts|]; [|exact L].
  destruct (Js.lt _ _); [reflexivity|exact L].
Qed.

(** C7 on the code.  The onboarding is completed and the store holds the
    snapshot a session wrote 24 h and 1 ms before the app is opened.  Run on
    that store, [checkForSavedSession] removes the snapshot, as its comment
    says.  But the app mounts the prompt component, and with it that
    function, only once its own check has raised the flag, which it does for
    a fresh snapshot only: nothing is offered, and the snapshot is still in
    the store after start-up.  One aged 24 h less 1 ms is offered and kept;
    with nothing stored nothing is offered. *)
Theorem stale_snapshot_stays_in_store :
  let written := 1700000000000 in
  let ss := useSessionAutoSave.sessionData written boxBreathing
              (Some "Box Breathing"%string)
              {| SavedSession.cyclesCompleted := 3;
                 SavedSession.totalCycles := 10;
                 SavedSession.timeElapsed := 50;
                 SavedSession.currentPhase := Hold;
                 SavedSession.phaseTimeRemaining := 1500 |} 50 in
  let store := Some (Js.JSON_stringify (SavedSession.toJson ss)) in
  let coerce := fun _ : Js.Value => @None Q in
  let stale := written + 24 * 3600000 + 1 in
  let fresh := written + 24 * 3600000 - 1 in
  SessionAutoSave.localStorage
    (SessionAutoSave.checkForSavedSession coerce stale (SessionAutoSave.mount store))
  = None
  /\ App.showSavedSessionPrompt (App.startUp coerce true stale (atHome store)) = false
  /\ App.promptOf coerce stale (App.startUp coerce true stale (atHome store)) = None
  /\ App.storeAfterStartUp coerce true stale stale (atHome store) = store
  /\ option_map SessionAutoSave.offered
       (App.promptOf coerce fresh (App.startUp coerce true fresh (atHome store)))
     = Some (Some (SavedSession.toJson ss))
  /\ App.storeAfterStartUp coerce true fresh fresh (atHome store) = store
  /\ App.promptOf coerce stale (App.startUp coerce true stale (atHome None)) = None.
Proof. vm_compute. repeat split. Qed.





(* ------------------------------------------------------------------ *)
(** ** Starting and resuming *)

Import SessionScreen.

Lemma rerender_cases (a b : State) :
  rerender a b = b \/ rerender a b = autoSaveEffect b.
Proof. unfold rerender. destruct (sameRender a b); auto. Qed.

(** A render touches nothing but the auto-save interval. *)
Ltac rerender_field :=
  intros;
  match goal with
  | |- context [rerender ?a ?b] =>
      destruct (rerender_cases a b) as [E | E]; rewrite E; reflexivity
  end.

Lemma rerender_currentPhase a b : currentPhase (rerender a b) = currentPhase b.
Proof. rerender_field. Qed.
Lemma rerender_isActive a b : isActive (rerender a b) = isActive b.
Proof. rerender_field. Qed.
Lemma rerender_cycles a b : cycles (rerender a b) = cycles b.
Proof. rerender_field. Qed.
Lemma rerender_timeRemaining a b : timeRemaining (rerender a b) = timeRemaining b.
Proof. rerender_field. Qed.
Lemma rerender_sessionDuration a b : sessionDuration (rerender a b) = sessionDuration b.
Proof. rerender_field. Qed.
Lemma rerender_pending a b : pending (rerender a b) = pending b.
Proof. rerender_field. Qed.
Lemma rerender_exited a b : exited (rerender a b) = exited b.
Proof. rerender_field. Qed.
Lemma rerender_pattern a b : pattern (rerender a b) = pattern b.
Proof. rerender_field. Qed.
Lemma rerender_effectPending a b : effectPending (rerender a b) = effectPending b.
Proof. rerender_field. Qed.
Lemma rerender_localStorage a b : localStorage (rerender a b) = localStorage b.
Proof. rerender_field. Qed.
Lemma rerender_startTimeRef a b : startTimeRef (rerender a b) = startTimeRef b.
Proof. rerender_field. Qed.
Lemma rerender_dateNow a b : dateNow (rerender a b) = dateNow b.
Proof. rerender_field. Qed.

(** Resuming mounts the very screen a fresh start of the saved pattern
    mounts: nothing of the saved progress reaches it.  An empty name is
    passed on as no name. *)
Lemma resume_is_fresh_mount (now : Z) (saved : SavedSession.t) (st : App.State) :
  resume now saved st
  = Some (mount (SavedSession.pattern saved)
            match SavedSession.patternName saved with
            | Some EmptyString => None
            | name => name
            end
            now (App.localStorage st)).
Proof.
  unfold resume, mountSession, App.sessionProps, App.handleResumeSession,
    App.navigateToScreen. cbn.
  destruct (SavedSession.patternName saved) as [[|c n]|]; reflexivity.
Qed.

(** C1 on the code.  A session of the one-second pattern is 3.5 s in,
    halfway through the exhale of its second cycle; the snapshot an unload
    writes then is resumed later.  The resumed screen shows inhale with 1 s
    to go, no cycle and no elapsed time, not the progress of the snapshot. *)
Theorem resume_drops_progress :
  let s := advance (Z.to_nat 3500) (mount briefPattern (Some "Quick"%string) 0 None) in
  let saved := snapshot s in
  localStorage (handleBeforeUnload s)
  = Some (Js.JSON_stringify (SavedSession.toJson saved))
  /\ SavedSession.progress saved
     = {| SavedSession.cyclesCompleted := 1;
          SavedSession.totalCycles := 10;
          SavedSession.timeElapsed := 3;
          SavedSession.currentPhase := Exhale;
          SavedSession.phaseTimeRemaining := 500 |}
  /\ shownProgress (resume 60000 saved (atHome None))
     = Some {| SavedSession.cyclesCompleted := 0;
               SavedSession.totalCycles := 10;
               SavedSession.timeElapsed := 0;
               SavedSession.currentPhase := Inhale;
               SavedSession.phaseTimeRemaining := 1000 |}.
Proof. vm_compute. repeat split. Qed.

(** C3 as stated fails: the all-zero pattern and a pattern with a negative
    duration both start a session, and a pattern that is valid but has no
    inhale starts in its first phase that takes time. *)
Lemma start_accepts_any_pattern :
  let negative := {| inhale := -1000; hold := 4000; exhale := 4000; pause := 0 |} in
  let noInhale := {| inhale := 0; hold := 4000; exhale := 4000; pause := 0 |} in
  mountSession 0 (App.handleStartSession allZero None (atHome None))
  = Some (mount allZero None 0 None)
  /\ mountSession 0 (App.handleStartSession negative None (atHome None))
     = Some (mount negative None 0 None)
  /\ option_map currentPhase
       (mountSession 0 (App.handleStartSession negative None (atHome None)))
     = Some Inhale
  /\ option_map timeRemaining
       (mountSession 0 (App.handleStartSession negative None (atHome None)))
     = Some (-1000)
  /\ option_map currentPhase
       (mountSession 0 (App.handleStartSession noInhale None (atHome None)))
     = Some Hold.
Proof. vm_compute. repeat split. Qed.

(** C3, as the code has it.  Starting never fails and validates nothing:
    for every pattern a session screen is mounted, running, with no elapsed
    time; when the inhale duration is not 0 it shows inhale with the inhale
    duration to go and no cycle done. *)
Theorem start_never_fails :
  forall (p : BreathPattern) (name : option string) (now : Z) (st : App.State),
    exists s,
      mountSession now (App.handleStartSession p name st) = Some s
      /\ pattern s = p
      /\ exited s = None
      /\ isActive s = true
      /\ sessionDuration s = 0
      /\ (inhale p <> 0 ->
          currentPhase s = Inhale /\ timeRemaining s = inhale p /\ cycles s = 0).
Proof.
  intros p name now st. eexists. split; [reflexivity|].
  unfold mount. cbn [App.localStorage App.handleStartSession App.navigateToScreen].
  rewrite rerender_pattern, rerender_exited, rerender_isActive,
    rerender_sessionDuration, rerender_currentPhase, rerender_timeRemaining,
    rerender_cycles.
  unfold breathingEffect, autoSaveEffect, initial. cbn.
  destruct (inhale p =? 0) eqn:E1; cbn.
  - apply Z.eqb_eq in E1.
    destruct (hold p =? 0); cbn;
      [destruct (exhale p =? 0); cbn; [destruct (pause p =? 0); cbn|]|];
      repeat split; intros; contradiction.
  - repeat split; reflexivity.
Qed.

(* ------------------------------------------------------------------ *)
(** ** The countdown of one phase *)

Lemma advance_add (n m : nat) (s : State) :
  advance (n + m) s = advance m (advance n s).
Proof.
  unfold advance. rewrite Nat.add_comm. apply Nat.iter_add.
Qed.

Lemma advanceAll_total (deltas : list nat) (s : State) :
  advanceAll deltas s = advance (total deltas) s.
Proof.
  unfold advanceAll. revert s. induction deltas as [|d ds IH]; intros s; cbn.
  - reflexivity.
  - rewrite IH. symmetry. apply advance_add.
Qed.

Lemma countdown_fires (a : Z) :
  0 <= a -> (a + 1) mod 100 = 0 -> 100 * ((a + 1) / 100) = 100 * (a / 100) + 100.
Proof. intros. Z.div_mod_to_equations. lia. Qed.

Lemma countdown_idle (a : Z) :
  0 <= a -> (a + 1) mod 100 <> 0 -> (a + 1) / 100 = a / 100.
Proof. intros. Z.div_mod_to_equations. lia. Qed.

Lemma countdown_behind (a : Z) : 0 <= a -> 100 * (a / 100) <= a.
Proof. intros. Z.div_mod_to_equations. lia. Qed.


Lemma sameEngine_refl s : sameEngine s s.
Proof. unfold sameEngine; repeat split. Qed.

Lemma sameEngine_trans s1 s2 s3 :
  sameEngine s1 s2 -> sameEngine s2 s3 -> sameEngine s1 s3.
Proof. unfold sameEngine. intuition congruence. Qed.

Lemma sameEngine_rerender a b : sameEngine b (rerender a b).
Proof.
  destruct (rerender_cases a b) as [E | E]; rewrite E;
    unfold sameEngine; repeat split.
Qed.

Lemma sameEngine_elapse s : sameEngine s (elapse s).
Proof. unfold sameEngine; repeat split. Qed.

Lemma sameEngine_durationTick s : sameEngine s (durationTick s).
Proof. unfold sameEngine; repeat split. Qed.

Lemma sameEngine_autoSaveTick s : sameEngine s (autoSaveTick s).
Proof.
  unfold autoSaveTick. destruct (autoSave s) as [age|]; [|apply sameEngine_refl].
  destruct (_ && _); [|apply sameEngine_refl].
  unfold sameEngine; repeat split.
Qed.

Lemma Sole_sameEngine p c r tr s s' :
  sameEngine s s' -> Sole p c r tr s -> Sole p c r tr s'.
Proof.
  unfold sameEngine, Sole.
  intros (E1 & E2 & E3 & E4 & E5 & E6 & E7 & E8 & E9 & E10)
         (A1 & A2 & A3 & A4 & A5 & A6 & A7 & A8 & A9).
  repeat split; congruence.
Qed.

Lemma Awaiting_sameEngine p c ph a s s' :
  sameEngine s s' -> Awaiting p c ph a s -> Awaiting p c ph a s'.
Proof.
  intros E (h & A). exists h. eapply Sole_sameEngine; eassumption.
Qed.

(** Up to the run of the pending phases, a tick of a session that awaits a
    phase leaves the engine as it was. *)
Lemma tick_prelude (s : State) :
  exited s = None -> effectPending s = false ->
  exists s', sameEngine s s' /\ tick s = stepRuns s'.
Proof.
  intros X P. unfold tick. rewrite X.
  assert (P' : effectPending (elapse s) = false) by exact P.
  rewrite P'.
  eexists. split; [|reflexivity].
  eapply sameEngine_trans; [apply sameEngine_elapse|].
  eapply sameEngine_trans; [|apply sameEngine_autoSaveTick].
  destruct (_ =? 0); [|apply sameEngine_refl].
  eapply sameEngine_trans; [apply sameEngine_durationTick|apply sameEngine_rerender].
Qed.

Ltac run_fields :=
  cbn [run_phase run_duration run_remaining run_age run_handle run_armed
       aged counted runAt] in *.

Lemma stepRuns_sole p c r tr s :
  Sole p c r tr s -> stepRuns s = stepRun (run_handle r) s.
Proof.
  intros (_ & _ & _ & _ & _ & _ & _ & A8 & _). unfold stepRuns. rewrite A8. reflexivity.
Qed.

Lemma ageRun_sole p c r tr s :
  Sole p c r tr s -> Sole p c (aged r) tr (ageRun (run_handle r) s).
Proof.
  intros (A1 & A2 & A3 & A4 & A5 & A6 & A7 & A8 & A9).
  unfold Sole, ageRun. cbn. rewrite A8. cbn. rewrite Nat.eqb_refl.
  repeat split; assumption.
Qed.

Lemma fireCountdown_idle p c r tr s :
  Sole p c r tr s -> run_age r mod 100 <> 0 ->
  fireCountdown (run_handle r) s = s.
Proof.
  intros (A1 & A2 & A3 & A4 & A5 & A6 & A7 & A8 & A9) M.
  unfold fireCountdown, find_run. rewrite A8. cbn. rewrite Nat.eqb_refl.
  apply Z.eqb_neq in M. now rewrite M.
Qed.

(** The test [remaining <= 0] of the countdown. *)
Lemma expired_positive (d r : Z) : 0 < r -> expired d r = false.
Proof.
  intros L. unfold expired.
  destruct (Z.ltb_spec r 0); [lia|].
  destruct (Z.eqb_spec r 0); [lia|reflexivity].
Qed.

Lemma expired_negative (d r : Z) : r < 0 -> expired d r = true.
Proof.
  intros L. unfold expired. destruct (Z.ltb_spec r 0); [reflexivity|lia].
Qed.

Lemma expired_zero (d : Z) : expired d 0 = negb (lingers d).
Proof. reflexivity. Qed.

Lemma subtractTenths_succ (k : nat) (r : PrimFloat.float) :
  subtractTenths (S k) r = PrimFloat.sub (subtractTenths k r) tenth.
Proof.
  revert r. induction k as [|k IH]; intros r; [reflexivity|].
  change (subtractTenths (S (S k)) r)
    with (subtractTenths (S k) (PrimFloat.sub r tenth)).
  rewrite IH. reflexivity.
Qed.

Lemma agreesFrom_sound (ms : Z) (n k : nat) :
  agreesFrom ms n k (remainingAfter ms k) = true ->
  forall j, (k < j <= k + n)%nat ->
            expiredDouble ms j = expired ms (ms - 100 * Z.of_nat j).
Proof.
  revert k. induction n as [|n IH]; intros k A j Hj; [lia|].
  cbn [agreesFrom] in A. apply andb_true_iff in A as (A1 & A2).
  unfold remainingAfter in A1, A2. rewrite <- subtractTenths_succ in A1, A2.
  destruct (Nat.eq_dec j (S k)) as [-> | N].
  - apply Bool.eqb_prop in A1. exact A1.
  - apply (IH (S k)); [exact A2|lia].
Qed.

Lemma sliderHalves_all (half : Z) : 0 <= half <= 30 -> In half sliderHalves.
Proof.
  intros H. unfold sliderHalves. rewrite <- (Z2Nat.id half) by lia.
  apply in_map, in_seq. lia.
Qed.

Lemma sliders_agree :
  forallb (fun half => agreesFrom (500 * half) (Z.to_nat (5 * half + 1)) 0
                         (remainingAfter (500 * half) 0)
                       && Bool.eqb (lingers (500 * half))
                            ((half =? 1) || (half =? 2) || (10 <=? half)))
          sliderHalves = true.
Proof. vm_compute. reflexivity. Qed.

(** X17.  The countdown in doubles.  For a phase of every duration a slider
    can show, from 0 to 15 s in steps of 0.5 s, and at every step of its
    countdown up to one past the tenths of a second in the duration, the
    test [remaining <= 0] of the source, made on the double that the
    repeated [remaining -= 0.1] leaves, is [expired].  At the step at which
    the decimal value comes to 0 the double is still above 0 exactly for
    0.5 s, for 1 s and from 5 s on: there the countdown resolves one step
    late, and at that step for the durations from 1.5 s to 4.5 s. *)
Theorem expired_as_in_doubles :
  forall (half : Z) (k : nat),
    0 <= half <= 30 ->
    (1 <= k <= Z.to_nat (5 * half + 1))%nat ->
    let ms := 500 * half in
    expiredDouble ms k = expired ms (ms - 100 * Z.of_nat k)
    /\ lingers ms = ((half =? 1) || (half =? 2) || (10 <=? half))
    /\ expired ms (ms - 100 * Z.of_nat k)
       = if lingers ms then (5 * half <? Z.of_nat k) else (5 * half <=? Z.of_nat k).
Proof.
  intros half k H K ms.
  pose proof sliders_agree as A. rewrite forallb_forall in A.
  specialize (A half (sliderHalves_all half H)).
  apply andb_true_iff in A as (A1 & A2).
  split; [|split].
  - apply (agreesFrom_sound ms (Z.to_nat (5 * half + 1)) 0 A1). lia.
  - apply Bool.eqb_prop in A2. exact A2.
  - unfold expired.
    destruct (lingers ms); cbn [negb];
      destruct (Z.ltb_spec (ms - 100 * Z.of_nat k) 0);
      destruct (Z.eqb_spec (ms - 100 * Z.of_nat k) 0); cbn [orb andb];
      symmetry; first [apply Z.ltb_lt | apply Z.ltb_ge | apply Z.leb_le | apply Z.leb_gt];
      unfold ms in *; lia.
Qed.

(** An instance: ten steps leave a phase of 1 s with a double above 0, so
    that the test fails at the tenth step and holds at the eleventh; a phase
    of 4 s passes the test at its fortieth step. *)
Lemma expired_as_in_doubles_second :
  (0 <= 2 <= 30 /\ (1 <= 10 <= Z.to_nat (5 * 2 + 1))%nat)
  /\ expiredDouble 1000 10 = false
  /\ expiredDouble 1000 11 = true
  /\ lingers 1000 = true
  /\ lingers 4000 = false
  /\ expiredDouble 4000 40 = true.
Proof.
  assert (H : 0 <= 2 <= 30) by lia.
  assert (K : (1 <= 10 <= Z.to_nat (5 * 2 + 1))%nat) by (vm_compute; lia).
  destruct (expired_as_in_doubles 2 10 H K) as (E & L & _).
  split; [split; [exact H|exact K]|].
  split; [exact E|].
  split; [reflexivity|].
  split; [exact L|].
  split; reflexivity.
Defined.

(** The double of the countdown and the decimal value it stands for: one
    step from 4 s gives the double of 3.9, five steps give less than 3.5
    (and [Math.round] shows 3), twelve less than 2.8; five steps from 1 s
    give more than 0.5. *)
Lemma countdown_rounding :
  PrimFloat.eqb (remainingAfter 4000 1) (secondsOf 3900) = true
  /\ PrimFloat.ltb (remainingAfter 4000 5) (secondsOf 3500) = true
  /\ PrimFloat.ltb (remainingAfter 4000 12) (secondsOf 2800) = true
  /\ PrimFloat.ltb (secondsOf 500) (remainingAfter 1000 5) = true.
Proof. repeat split; reflexivity. Qed.

Lemma fireCountdown_goes_on p c r tr s :
  Sole p c r tr s -> run_age r mod 100 = 0 -> 0 <= run_remaining r - 100 ->
  expired (run_duration r) (run_remaining r - 100) = false ->
  Sole p c (counted r) (run_remaining r - 100) (fireCountdown (run_handle r) s).
Proof.
  intros (A1 & A2 & A3 & A4 & A5 & A6 & A7 & A8 & A9) M L E.
  unfold fireCountdown, find_run. rewrite A8. cbn [find]. rewrite Nat.eqb_refl.
  apply Z.eqb_eq in M. rewrite M.
  eapply Sole_sameEngine; [apply sameEngine_rerender|].
  unfold countdownTick. rewrite E.
  unfold Sole. cbn. rewrite A8. cbn. rewrite Nat.eqb_refl.
  repeat split; try assumption. lia.
Qed.

Lemma fireCountdown_counts p c r tr s :
  Sole p c r tr s -> run_age r mod 100 = 0 -> 0 < run_remaining r - 100 ->
  Sole p c (counted r) (run_remaining r - 100) (fireCountdown (run_handle r) s).
Proof.
  intros A M L. apply (fireCountdown_goes_on p c r tr s); [exact A|exact M|lia|].
  now apply expired_positive.
Qed.

Lemma fireCountdown_resolves p c r tr s :
  Sole p c r tr s -> run_age r mod 100 = 0 ->
  expired (run_duration r) (run_remaining r - 100) = true ->
  exists q, Quiet p c q /\ nextHandle q = nextHandle s
            /\ sameEngine (continueCycle (run_phase r) q)
                          (fireCountdown (run_handle r) s).
Proof.
  intros (A1 & A2 & A3 & A4 & A5 & A6 & A7 & A8 & A9) M L.
  unfold fireCountdown, find_run. rewrite A8. cbn [find]. rewrite Nat.eqb_refl.
  apply Z.eqb_eq in M. rewrite M.
  unfold countdownTick.
  rewrite L.
  match goal with |- context [continueCycle _ ?q] => exists q end.
  split; [|split; [reflexivity|apply sameEngine_rerender]].
  unfold Quiet. cbn. rewrite A8. cbn. rewrite Nat.eqb_refl. cbn.
  repeat split; assumption.
Qed.

Lemma fireTimeout_waits p c r tr s :
  Sole p c r tr s -> run_age r < run_duration r ->
  fireTimeout (run_handle r) s = s.
Proof.
  intros (A1 & A2 & A3 & A4 & A5 & A6 & A7 & A8 & A9) L.
  unfold fireTimeout, find_run. rewrite A8. cbn. rewrite Nat.eqb_refl.
  apply Z.leb_gt in L. rewrite L. now rewrite andb_false_r.
Qed.

Lemma fireTimeout_resolves p c r tr s :
  Sole p c r tr s -> run_armed r = true -> run_duration r <= run_age r ->
  exists q, Quiet p c q /\ nextHandle q = nextHandle s
            /\ sameEngine (continueCycle (run_phase r) q)
                          (fireTimeout (run_handle r) s).
Proof.
  intros (A1 & A2 & A3 & A4 & A5 & A6 & A7 & A8 & A9) T L.
  unfold fireTimeout, find_run. rewrite A8. cbn [find]. rewrite Nat.eqb_refl.
  apply Z.leb_le in L. rewrite L, T. cbn [andb].
  unfold phaseTimeout.
  match goal with |- context [continueCycle _ ?q] => exists q end.
  split; [|split; [reflexivity|apply sameEngine_rerender]].
  unfold Quiet. cbn. rewrite A8. cbn. rewrite Nat.eqb_refl. cbn.
  repeat split; assumption.
Qed.

(** Once the awaited run has resolved, nothing of it is left to fire. *)
Lemma fireTimeout_gone h s : find_run h (pending s) = None -> fireTimeout h s = s.
Proof. intros E. unfold fireTimeout. now rewrite E. Qed.

(** While the phase has time left, a tick only lets the countdown go on. *)
Lemma tick_awaiting p c ph a s :
  Awaiting p c ph a s -> 0 <= a -> a + 1 < durationOf p ph ->
  Awaiting p c ph (a + 1) (tick s).
Proof.
  intros A Ha Hd.
  destruct (tick_prelude s) as (s' & E & T);
    [destruct A as (h & A); apply A | destruct A as (h & A); apply A |].
  rewrite T. apply (Awaiting_sameEngine _ _ _ _ _ _ E) in A.
  clear T E s. destruct A as (h & A).
  pose proof (countdown_behind a Ha) as Hb.
  pose proof (countdown_behind (a + 1) ltac:(lia)) as Hb'.
  rewrite (stepRuns_sole _ _ _ _ _ A). unfold stepRun.
  apply ageRun_sole in A. run_fields.
  exists h.
  destruct (Z.eq_dec ((a + 1) mod 100) 0) as [M | M].
  - pose proof (countdown_fires a Ha M) as F.
    apply fireCountdown_counts in A; [|exact M|run_fields; lia].
    run_fields.
    pose proof (fireTimeout_waits _ _ _ _ _ A) as W. run_fields.
    rewrite W by lia.
    replace (durationOf p ph - 100 * ((a + 1) / 100))
      with (durationOf p ph - 100 * (a / 100) - 100) by lia.
    replace (runAt p ph (a + 1) h) with (counted (aged (runAt p ph a h)))
      by (unfold counted, aged, runAt; run_fields; f_equal; lia).
    exact A.
  - pose proof (countdown_idle a Ha M) as F.
    pose proof (fireCountdown_idle _ _ _ _ _ A) as I. run_fields.
    rewrite I by exact M.
    pose proof (fireTimeout_waits _ _ _ _ _ A) as W. run_fields.
    rewrite W by lia.
    replace (runAt p ph (a + 1) h) with (aged (runAt p ph a h))
      by (unfold aged, runAt; run_fields; rewrite F; reflexivity).
    rewrite F. exact A.
Qed.

(* ------------------------------------------------------------------ *)
(** ** From one phase to the next *)

Lemma Quiet_sameEngine p c s s' : sameEngine s s' -> Quiet p c s -> Quiet p c s'.
Proof.
  unfold sameEngine, Quiet.
  intros (E1 & E2 & E3 & E4 & E5 & E6 & E7 & E8 & E9 & E10)
         (A1 & A2 & A3 & A4 & A5 & A6).
  repeat split; congruence.
Qed.

Lemma CycleStart_sameEngine p c s s' :
  sameEngine s s' -> CycleStart p c s -> CycleStart p c s'.
Proof.
  intros E (ph & F & A). exists ph. split; [exact F|].
  eapply Awaiting_sameEngine; eassumption.
Qed.

Lemma Entering_sameEngine p c phases s s' :
  sameEngine s s' -> Entering p c phases s -> Entering p c phases s'.
Proof.
  unfold Entering. intros E. destruct (firstAwaited p phases).
  - apply Awaiting_sameEngine, E.
  - apply CycleStart_sameEngine, E.
Qed.

(** [runCycleFrom] awaits the first phase that takes time and skips the
    others without touching the state. *)
Lemma runCycleFrom_spec (phases : list Phase) (s : State) :
  runCycleFrom phases s
  = match firstAwaited (pattern s) phases with
    | Some ph => (false, runPhase ph (durationOf (pattern s) ph) s)
    | None => (true, s)
    end.
Proof.
  induction phases as [|ph rest IH]; cbn; [reflexivity|].
  destruct (durationOf (pattern s) ph =? 0); [exact IH|reflexivity].
Qed.

Lemma firstAwaited_timed p phases ph :
  firstAwaited p phases = Some ph -> durationOf p ph <> 0.
Proof.
  induction phases as [|x rest IH]; cbn; [discriminate|].
  destruct (durationOf p x =? 0) eqn:E; [exact IH|].
  intros H; injection H as <-. now apply Z.eqb_neq.
Qed.

Lemma firstAwaited_exists p ph :
  durationOf p ph <> 0 -> firstAwaited p [Inhale; Hold; Exhale; Pause] <> None.
Proof.
  intros H. cbn.
  destruct (inhale p =? 0) eqn:E1; [|discriminate].
  destruct (hold p =? 0) eqn:E2; [|discriminate].
  destruct (exhale p =? 0) eqn:E3; [|discriminate].
  destruct (pause p =? 0) eqn:E4; [|discriminate].
  apply Z.eqb_eq in E1, E2, E3, E4. destruct ph; cbn in H; contradiction.
Qed.

Lemma runPhase_awaiting p c ph q :
  Quiet p c q -> Awaiting p c ph 0 (runPhase ph (durationOf p ph) q).
Proof.
  intros (A1 & A2 & A3 & A4 & A5 & A6).
  exists (nextHandle q). unfold Sole, runPhase. cbn. rewrite A6. cbn.
  repeat split; try assumption; try lia.
  unfold runAt. change (0 / 100) with 0. do 2 f_equal. lia.
Qed.

Lemma breathingEffect_starts p c q :
  Quiet p c q -> firstAwaited p [Inhale; Hold; Exhale; Pause] <> None ->
  CycleStart p c (breathingEffect q).
Proof.
  intros Q N. pose proof Q as (A1 & A2 & A3 & A4 & A5 & A6).
  unfold breathingEffect. rewrite A2, runCycleFrom_spec, A4.
  destruct (firstAwaited p _) as [ph|] eqn:F; [|contradiction].
  exists ph. split; [exact F|]. now apply runPhase_awaiting.
Qed.

(** After the awaited phase resolved, [runCycle] is at the phases that
    follow it. *)
Lemma continueCycle_entering p c ph q :
  Quiet p c q -> durationOf p ph <> 0 ->
  Entering p c (phasesAfter ph) (continueCycle ph q).
Proof.
  intros Q N. pose proof Q as (A1 & A2 & A3 & A4 & A5 & A6).
  unfold continueCycle, Entering. rewrite runCycleFrom_spec, A4.
  destruct (firstAwaited p (phasesAfter ph)) as [ph'|] eqn:F.
  - now apply runPhase_awaiting.
  - unfold rerunBreathing. cbn [isActive set_cycles]. rewrite A2.
    apply breathingEffect_starts; [|eapply firstAwaited_exists, N].
    unfold Quiet, clearTimeout.
    destruct (phaseTimeoutRef _); cbn; rewrite A6; cbn;
      repeat split; try assumption; lia.
Qed.

Lemma runPhase_fresh (h : nat) x d s :
  pending s = [] -> (h < nextHandle s)%nat ->
  find_run h (pending (runPhase x d s)) = None.
Proof.
  intros Ps Ls. unfold runPhase. cbn. rewrite Ps. cbn.
  destruct (Nat.eqb_spec (nextHandle s) h); [lia|reflexivity].
Qed.

Lemma breathingEffect_fresh (h : nat) s :
  pending s = [] -> (h < nextHandle s)%nat ->
  find_run h (pending (breathingEffect s)) = None.
Proof.
  intros P L. unfold breathingEffect.
  destruct (isActive s); [|now rewrite P].
  rewrite runCycleFrom_spec.
  destruct (firstAwaited _ _); [now apply runPhase_fresh|].
  cbn. now rewrite P.
Qed.

Lemma clearTimeout_quiet h s :
  pending s = [] -> clearTimeout h s = s \/ clearTimeout h s = set_pending [] s.
Proof.
  intros P. destruct h as [h|]; [right|left; reflexivity].
  unfold clearTimeout. now rewrite P.
Qed.

Lemma continueCycle_fresh ph q (h : nat) :
  pending q = [] -> (h < nextHandle q)%nat ->
  find_run h (pending (continueCycle ph q)) = None.
Proof.
  intros P L.
  unfold continueCycle. rewrite runCycleFrom_spec.
  destruct (firstAwaited _ (phasesAfter ph)); [now apply runPhase_fresh|].
  unfold rerunBreathing.
  destruct (isActive _).
  - match goal with
    | |- context [clearTimeout ?r ?s] =>
        destruct (clearTimeout_quiet r s P) as [E | E]; rewrite E
    end; apply breathingEffect_fresh; cbn; first [assumption | reflexivity].
  - apply breathingEffect_fresh; cbn; first [assumption | reflexivity].
Qed.

(** The tick at which the phase runs out takes [runCycle] to the phases
    that follow. *)
Lemma tick_finishes p c ph a s :
  Awaiting p c ph a s -> 0 <= a -> a + 1 = durationOf p ph ->
  Entering p c (phasesAfter ph) (tick s).
Proof.
  intros A Ha Hd.
  destruct (tick_prelude s) as (s' & E & T);
    [destruct A as (h & A); apply A | destruct A as (h & A); apply A |].
  rewrite T. apply (Awaiting_sameEngine _ _ _ _ _ _ E) in A.
  clear T E s. destruct A as (h & A).
  pose proof (countdown_behind a Ha) as Hb.
  pose proof (countdown_behind (a + 1) ltac:(lia)) as Hb'.
  rewrite (stepRuns_sole _ _ _ _ _ A). unfold stepRun.
  apply ageRun_sole in A. run_fields.
  assert (N : durationOf p ph <> 0) by lia.
  destruct (Z.eq_dec ((a + 1) mod 100) 0) as [M | M].
  - pose proof (countdown_fires a Ha M) as F.
    assert (D : 100 * ((a + 1) / 100) = a + 1)
      by (clear - M Ha; Z.div_mod_to_equations; lia).
    pose proof A as (_ & _ & _ & _ & _ & _ & _ & _ & Hh).
    assert (Z0 : durationOf p ph - 100 * (a / 100) - 100 = 0) by lia.
    destruct (lingers (durationOf p ph)) eqn:Ln.
    + (* the double is still above 0: the countdown goes on and the
         time-out, due at this very tick, resolves the phase *)
      apply fireCountdown_goes_on in A;
        [|exact M|run_fields; lia|run_fields; rewrite Z0, expired_zero, Ln; reflexivity].
      run_fields.
      destruct (fireTimeout_resolves _ _ _ _ _ A) as (q & Q & _ & S);
        [reflexivity | run_fields; lia |]. run_fields.
      eapply Entering_sameEngine; [exact S|].
      now apply continueCycle_entering.
    + destruct (fireCountdown_resolves _ _ _ _ _ A) as (q & Q & Hq & S);
        [exact M | run_fields; rewrite Z0, expired_zero, Ln; reflexivity |].
      run_fields.
      pose proof Q as (_ & _ & _ & _ & _ & Pq).
      assert (G : find_run h (pending (fireCountdown h (ageRun h s'))) = None).
      { destruct S as (_ & _ & _ & _ & _ & _ & _ & S8 & _). rewrite S8.
        apply continueCycle_fresh; [exact Pq|]. rewrite Hq. exact Hh. }
      rewrite (fireTimeout_gone _ _ G).
      eapply Entering_sameEngine; [exact S|].
      now apply continueCycle_entering.
  - pose proof (fireCountdown_idle _ _ _ _ _ A) as I. run_fields.
    rewrite I by exact M.
    destruct (fireTimeout_resolves _ _ _ _ _ A) as (q & Q & _ & S);
      [reflexivity | run_fields; lia |]. run_fields.
    eapply Entering_sameEngine; [exact S|].
    now apply continueCycle_entering.
Qed.

(* ------------------------------------------------------------------ *)
(** ** A whole cycle *)

Lemma advance_succ (n : nat) (s : State) : advance (S n) s = tick (advance n s).
Proof. reflexivity. Qed.

Lemma advance_countdown p c ph s (n : nat) :
  Awaiting p c ph 0 s -> Z.of_nat n < durationOf p ph ->
  Awaiting p c ph (Z.of_nat n) (advance n s).
Proof.
  intros A. induction n as [|n IH]; intros L.
  - exact A.
  - rewrite advance_succ, Nat2Z.inj_succ.
    apply tick_awaiting; [apply IH|..]; lia.
Qed.

(** A phase that takes [d] ms is over after exactly [d] ticks. *)
Lemma advance_phase p c ph s :
  Awaiting p c ph 0 s -> 0 < durationOf p ph ->
  Entering p c (phasesAfter ph) (advance (Z.to_nat (durationOf p ph)) s).
Proof.
  intros A L.
  replace (Z.to_nat (durationOf p ph)) with (S (Z.to_nat (durationOf p ph - 1))) by lia.
  rewrite advance_succ.
  apply tick_finishes with (a := Z.of_nat (Z.to_nat (durationOf p ph - 1))); try lia.
  apply advance_countdown; [exact A|lia].
Qed.

Lemma timeOf_nonneg p phases :
  0 <= inhale p -> 0 <= hold p -> 0 <= exhale p -> 0 <= pause p ->
  0 <= timeOf p phases.
Proof.
  intros. induction phases as [|ph rest IH]; cbn; [lia|].
  destruct ph; cbn; lia.
Qed.

Lemma enter_step p c ph rest s :
  0 <= inhale p -> 0 <= hold p -> 0 <= exhale p -> 0 <= pause p ->
  phasesAfter ph = rest ->
  (forall s', Entering p c rest s' ->
              CycleStart p (c + 1) (advance (Z.to_nat (timeOf p rest)) s')) ->
  Entering p c (ph :: rest) s ->
  CycleStart p (c + 1) (advance (Z.to_nat (timeOf p (ph :: rest))) s).
Proof.
  intros Hi Hh He Hp R Next E.
  pose proof (timeOf_nonneg p rest Hi Hh He Hp) as T.
  assert (D : 0 <= durationOf p ph) by (destruct ph; cbn; lia).
  unfold Entering in E. cbn [firstAwaited timeOf] in *.
  destruct (durationOf p ph =? 0) eqn:Z0.
  - apply Z.eqb_eq in Z0. rewrite Z0, Z.add_0_l. apply Next. exact E.
  - apply Z.eqb_neq in Z0.
    rewrite Z2Nat.inj_add, advance_add by lia.
    apply Next. rewrite <- R. apply advance_phase; [exact E|lia].
Qed.

(** From the top of one cycle to the top of the next it takes the time of
    the four phases. *)
Lemma advance_cycle p c s :
  0 <= inhale p -> 0 <= hold p -> 0 <= exhale p -> 0 <= pause p ->
  CycleStart p c s ->
  CycleStart p (c + 1) (advance (Z.to_nat (totalCycleTime p)) s).
Proof.
  intros Hi Hh He Hp (ph & F & A).
  replace (totalCycleTime p) with (timeOf p [Inhale; Hold; Exhale; Pause])
    by (unfold totalCycleTime; cbn; lia).
  apply enter_step; try assumption; [reflexivity| |unfold Entering; now rewrite F].
  intros s1. apply enter_step; try assumption; [reflexivity|].
  intros s2. apply enter_step; try assumption; [reflexivity|].
  intros s3. apply enter_step; try assumption; [reflexivity|].
  intros s4 E. exact E.
Qed.

Lemma CycleStart_shows p c s :
  CycleStart p c s ->
  exists ph, firstAwaited p [Inhale; Hold; Exhale; Pause] = Some ph
             /\ cycles s = c /\ currentPhase s = ph
             /\ timeRemaining s = durationOf p ph
             /\ isActive s = true /\ exited s = None.
Proof.
  intros (ph & F & h & A1 & A2 & A3 & A4 & A5 & A6 & A7 & A8 & A9).
  exists ph. repeat split; try assumption.
  rewrite A7. change (0 / 100) with 0. lia.
Qed.

Lemma Awaiting_shows p c ph a s :
  Awaiting p c ph a s ->
  cycles s = c /\ currentPhase s = ph
  /\ timeRemaining s = durationOf p ph - 100 * (a / 100)
  /\ isActive s = true /\ exited s = None.
Proof.
  intros (h & A1 & A2 & A3 & A4 & A5 & A6 & A7 & A8 & A9).
  repeat split; assumption.
Qed.

Lemma CycleStart_inhale p c s :
  inhale p <> 0 -> CycleStart p c s -> Awaiting p c Inhale 0 s.
Proof.
  intros N (ph & F & A). cbn in F.
  destruct (inhale p =? 0) eqn:E; [apply Z.eqb_eq in E; contradiction|].
  now injection F as <-.
Qed.

(** Cycle after cycle. *)
Lemma advance_cycles p c s (n : nat) :
  0 <= inhale p -> 0 <= hold p -> 0 <= exhale p -> 0 <= pause p ->
  CycleStart p c s ->
  CycleStart p (c + Z.of_nat n)
    (Nat.iter n (advance (Z.to_nat (totalCycleTime p))) s).
Proof.
  intros Hi Hh He Hp St. induction n as [|n IH].
  - cbn [Nat.iter]. now replace (c + Z.of_nat 0) with c by lia.
  - cbn [Nat.iter].
    replace (c + Z.of_nat (S n)) with (c + Z.of_nat n + 1) by lia.
    now apply advance_cycle.
Qed.

Lemma mount_starts_cycle p name now store :
  (exists timed, durationOf p timed <> 0) ->
  CycleStart p 0 (mount p name now store).
Proof.
  intros (timed & N). unfold mount.
  eapply CycleStart_sameEngine; [apply sameEngine_rerender|].
  change (autoSaveEffect (initial p name now store)) with (initial p name now store).
  apply breathingEffect_starts; [|eapply firstAwaited_exists, N].
  unfold Quiet. cbn. repeat split.
Qed.

(** C5.  For every valid pattern, from the top of a cycle at which the
    session shows inhale, any sequence of waits whose lengths sum to
    [D = inhale + hold + exhale + pause] leaves one more cycle counted and
    the session at the top of the next cycle, showing inhale with the full
    inhale duration to go. *)
Theorem one_full_cycle :
  forall (p : BreathPattern) (c : Z) (s : State) (deltas : list nat),
    valid p ->
    CycleStart p c s ->
    currentPhase s = Inhale ->
    total deltas = Z.to_nat (totalCycleTime p) ->
    let s' := advanceAll deltas s in
    cycles s' = c + 1
    /\ currentPhase s' = Inhale
    /\ timeRemaining s' = inhale p
    /\ CycleStart p (c + 1) s'.
Proof.
  intros p c s deltas (Hi & Hh & He & Hp & HD) S I T s'.
  assert (S' : CycleStart p (c + 1) s').
  { unfold s'. rewrite advanceAll_total, T. now apply advance_cycle. }
  destruct (CycleStart_shows _ _ _ S) as (ph & F & _ & P & _).
  destruct (CycleStart_shows _ _ _ S') as (ph' & F' & C' & P' & R' & _).
  assert (E : ph' = Inhale) by congruence.
  rewrite E in P', R'.
  split; [exact C'|]. split; [exact P'|]. split; [exact R'|exact S'].
Qed.

(** The scenario of C5: box breathing 4-4-4-4 from the start of a session,
    160 waits of 100 ms. *)
Lemma one_full_cycle_box :
  let s := mount boxBreathing None 0 None in
  let s' := advanceAll (repeat 100%nat 160) s in
  valid boxBreathing
  /\ CycleStart boxBreathing 0 s
  /\ cycles s' = 1 /\ currentPhase s' = Inhale /\ timeRemaining s' = 4000.
Proof.
  assert (V : valid boxBreathing) by (unfold valid; cbn; lia).
  assert (S : CycleStart boxBreathing 0 (mount boxBreathing None 0 None))
    by (apply mount_starts_cycle; exists Inhale; discriminate).
  split; [exact V|]. split; [exact S|].
  destruct (one_full_cycle boxBreathing 0 (mount boxBreathing None 0 None)
              (repeat 100%nat 160) V S eq_refl eq_refl) as (H1 & H2 & H3 & _).
  change (0 + 1) with 1 in H1. change (inhale boxBreathing) with 4000 in H3.
  split; [exact H1|]. split; [exact H2|exact H3].
Defined.

(* ------------------------------------------------------------------ *)
(** ** What the timers leave alone *)

Ltac conjs := repeat match goal with |- _ /\ _ => split end.

Lemma CycleWork_refl s : CycleWork s s.
Proof. unfold CycleWork. repeat split; lia. Qed.

Lemma CycleWork_trans s1 s2 s3 :
  CycleWork s1 s2 -> CycleWork s2 s3 -> CycleWork s1 s3.
Proof.
  unfold CycleWork. intros (A1 & A2 & A3 & A4 & A5 & A6) (B1 & B2 & B3 & B4 & B5 & B6).
  repeat split; try congruence. lia.
Qed.

Ltac cycle_work := unfold CycleWork; cbn; repeat split; lia.

Lemma CycleWork_runPhase ph d s : CycleWork s (runPhase ph d s).
Proof. cycle_work. Qed.

Lemma CycleWork_clearTimeout h s : CycleWork s (clearTimeout h s).
Proof. destruct h; cycle_work. Qed.

Lemma CycleWork_breathingEffect s : CycleWork s (breathingEffect s).
Proof.
  unfold breathingEffect. destruct (isActive s); [|apply CycleWork_refl].
  rewrite runCycleFrom_spec. destruct (firstAwaited _ _); cycle_work.
Qed.

Lemma CycleWork_rerunBreathing b s : CycleWork s (rerunBreathing b s).
Proof.
  unfold rerunBreathing.
  eapply CycleWork_trans; [|apply CycleWork_breathingEffect].
  destruct b.
  - eapply CycleWork_trans; [|apply CycleWork_clearTimeout]. cycle_work.
  - cycle_work.
Qed.

Lemma CycleWork_continueCycle ph s : CycleWork s (continueCycle ph s).
Proof.
  unfold continueCycle. rewrite runCycleFrom_spec.
  destruct (firstAwaited _ _); [apply CycleWork_runPhase|].
  eapply CycleWork_trans; [|apply CycleWork_rerunBreathing]. cycle_work.
Qed.

Lemma CycleWork_countdownTick r s : CycleWork s (countdownTick r s).
Proof.
  unfold countdownTick. destruct (expired _ _).
  - eapply CycleWork_trans; [|apply CycleWork_continueCycle]. cycle_work.
  - cycle_work.
Qed.

Lemma CycleWork_phaseTimeout r s : CycleWork s (phaseTimeout r s).
Proof.
  unfold phaseTimeout.
  eapply CycleWork_trans; [|apply CycleWork_continueCycle]. cycle_work.
Qed.

Lemma sameRender_true a b :
  sameRender a b = true ->
  isActive b = isActive a /\ cycles b = cycles a.
Proof.
  unfold sameRender. rewrite !andb_true_iff.
  intros ((((_ & A) & C) & _) & _).
  apply Bool.eqb_prop in A. apply Z.eqb_eq in C. auto.
Qed.

Lemma Follows_refl s : Follows s s.
Proof.
  unfold Follows. conjs; try reflexivity; try lia; [tauto|].
  left. split; reflexivity.
Qed.

Lemma Follows_trans s1 s2 s3 : Follows s1 s2 -> Follows s2 s3 -> Follows s1 s3.
Proof.
  unfold Follows.
  intros (A1 & A2 & A3 & A4 & A5 & A6 & A7) (B1 & B2 & B3 & B4 & B5 & B6 & B7).
  conjs; try congruence; try lia; [tauto|].
  destruct B7 as [(E & C) | B7]; [|auto].
  destruct A7 as [(E' & C') | A7]; [left; split; congruence|].
  right. rewrite E. exact A7.
Qed.

(** A handler that does work of the breathing cycle, and the render that
    follows it. *)
Lemma Follows_rerender a b : CycleWork a b -> Follows a (rerender a b).
Proof.
  intros (W1 & W2 & W3 & W4 & W5 & W6).
  unfold rerender. destruct (sameRender a b) eqn:R.
  - apply sameRender_true in R as (RA & RC).
    unfold Follows, AutoSaveGuarded. rewrite RC, RA, W6.
    conjs; try assumption; try lia; tauto.
  - unfold Follows, AutoSaveGuarded, autoSaveEffect. cbn.
    conjs; try assumption.
    + intros _ N. destruct (isActive b); [|contradiction].
      destruct (0 <? cycles b) eqn:C; [|contradiction].
      apply Z.ltb_lt in C. auto.
    + destruct (isActive b && (0 <? cycles b)); auto.
Qed.

Lemma Follows_ageRun h s : Follows s (ageRun h s).
Proof.
  unfold Follows, ageRun, AutoSaveGuarded. cbn.
  conjs; try reflexivity; try lia; [tauto|].
  left. split; reflexivity.
Qed.

Lemma Follows_fireCountdown h s : Follows s (fireCountdown h s).
Proof.
  unfold fireCountdown. destruct (find_run h (pending s)); [|apply Follows_refl].
  destruct (_ =? 0); [|apply Follows_refl].
  apply Follows_rerender, CycleWork_countdownTick.
Qed.

Lemma Follows_fireTimeout h s : Follows s (fireTimeout h s).
Proof.
  unfold fireTimeout. destruct (find_run h (pending s)); [|apply Follows_refl].
  destruct (_ && _); [|apply Follows_refl].
  apply Follows_rerender, CycleWork_phaseTimeout.
Qed.

Lemma Follows_stepRun h s : Follows s (stepRun h s).
Proof.
  unfold stepRun.
  eapply Follows_trans; [apply Follows_ageRun|].
  eapply Follows_trans; [apply Follows_fireCountdown|apply Follows_fireTimeout].
Qed.

Lemma Follows_stepRuns s : Follows s (stepRuns s).
Proof.
  unfold stepRuns. generalize (map run_handle (pending s)) as hs.
  intros hs. revert s. induction hs as [|h hs IH]; intros s; cbn.
  - apply Follows_refl.
  - eapply Follows_trans; [apply Follows_stepRun|apply IH].
Qed.

Lemma tick_unfold s :
  exited s = None ->
  tick s = stepRuns (autoSaveTick (beforeAutoSave (elapse s))).
Proof. intros X. unfold tick. now rewrite X. Qed.

Lemma Follows_beforeAutoSave s : Follows s (beforeAutoSave s).
Proof.
  unfold beforeAutoSave.
  eapply Follows_trans with
    (s2 := if effectPending s then rerender s (rerunBreathing (isActive s) s) else s).
  - destruct (effectPending s); [|apply Follows_refl].
    apply Follows_rerender, CycleWork_rerunBreathing.
  - destruct (_ =? 0); [|apply Follows_refl].
    apply Follows_rerender. cycle_work.
Qed.

(* ------------------------------------------------------------------ *)
(** ** When a snapshot is written *)

Lemma AutoSaveGuarded_elapse s : AutoSaveGuarded s -> AutoSaveGuarded (elapse s).
Proof.
  unfold AutoSaveGuarded. cbn. intros G N. apply G.
  destruct (autoSave s); [discriminate|contradiction].
Qed.

(** When the auto-save interval fires in a tick, it is the interval that
    was armed before the tick. *)
Lemma autoSave_fires s :
  exited s = None ->
  localStorage (tick s) <> localStorage s ->
  autoSave s <> None.
Proof.
  intros X C. rewrite (tick_unfold s X) in C.
  destruct (Follows_stepRuns (autoSaveTick (beforeAutoSave (elapse s))))
    as (L & _). rewrite L in C. clear L.
  destruct (Follows_beforeAutoSave (elapse s)) as (L & _ & _ & _ & _ & _ & A).
  unfold autoSaveTick in C.
  destruct (autoSave (beforeAutoSave (elapse s))) as [age|] eqn:E;
    [|rewrite L in C; now contradiction C].
  destruct ((0 <? age) && (age mod 5000 =? 0)) eqn:F;
    [|rewrite L in C; now contradiction C].
  apply andb_true_iff in F as (F & _). apply Z.ltb_lt in F.
  destruct A as [(A & _) | [A | A]]; try congruence.
  - cbn in A. intros N. rewrite N in A. discriminate.
  - assert (age = 0) by congruence. lia.
Qed.

Lemma AutoSaveGuarded_tick s : AutoSaveGuarded s -> AutoSaveGuarded (tick s).
Proof.
  intros G. unfold tick. destruct (exited s) eqn:X; [exact G|].
  fold (beforeAutoSave (elapse s)).
  apply AutoSaveGuarded_elapse in G.
  apply (Follows_beforeAutoSave (elapse s)) in G.
  apply (Follows_stepRuns (autoSaveTick (beforeAutoSave (elapse s)))).
  unfold autoSaveTick. destruct (autoSave _); [|exact G].
  destruct (_ && _); exact G.
Qed.

Lemma toggleSession_unfold s :
  exists t, toggleSession s = autoSaveEffect t
            /\ localStorage t = localStorage s
            /\ exited t = exited s
            /\ pattern t = pattern s
            /\ isActive t = negb (isActive s)
            /\ cycles s <= cycles t.
Proof.
  unfold toggleSession.
  set (s2 := if negb (isActive s) then _ else _).
  assert (S2 : localStorage s2 = localStorage s /\ exited s2 = exited s
               /\ pattern s2 = pattern s /\ isActive s2 = negb (isActive s)
               /\ cycles s2 = cycles s)
    by (unfold s2; destruct (negb (isActive s)); cbn; repeat split).
  destruct S2 as (S1 & S2 & S3 & S4 & S5).
  destruct (CycleWork_rerunBreathing (isActive s) s2) as (W1 & W2 & W3 & W4 & W5 & W6).
  exists (rerunBreathing (isActive s) s2).
  split.
  - unfold rerender, sameRender. rewrite W4, S4.
    destruct (isActive s); cbn; rewrite !andb_false_r; reflexivity.
  - conjs; congruence.
Qed.

Lemma AutoSaveGuarded_autoSaveEffect t : AutoSaveGuarded (autoSaveEffect t).
Proof.
  unfold AutoSaveGuarded, autoSaveEffect. cbn. intros N.
  destruct (isActive t); [|contradiction].
  destruct (0 <? cycles t) eqn:C; [|contradiction].
  apply Z.ltb_lt in C. auto.
Qed.

Lemma AutoSaveGuarded_handle e s : AutoSaveGuarded s -> AutoSaveGuarded (handle e s).
Proof.
  intros G. unfold handle. destruct (exited s); [exact G|].
  destruct e.
  - now apply AutoSaveGuarded_tick.
  - destruct (toggleSession_unfold s) as (t & E & _). rewrite E.
    apply AutoSaveGuarded_autoSaveEffect.
  - unfold handleBeforeUnload. destruct (_ && _); exact G.
  - unfold handleVisibilityChange. destruct (_ && _); exact G.
  - unfold AutoSaveGuarded, handleExit. cbn. intros N. contradiction.
Qed.

Lemma AutoSaveGuarded_mount p name now store :
  AutoSaveGuarded (mount p name now store).
Proof.
  change (mount p name now store)
    with (rerender (initial p name now store)
            (breathingEffect (initial p name now store))).
  apply (Follows_rerender _ _ (CycleWork_breathingEffect _)).
  unfold AutoSaveGuarded. cbn. intros N. contradiction.
Qed.

Lemma AutoSaveGuarded_run events s :
  AutoSaveGuarded s -> AutoSaveGuarded (run events s).
Proof.
  unfold run. revert s. induction events as [|e es IH]; intros s G; cbn.
  - exact G.
  - apply IH, AutoSaveGuarded_handle, G.
Qed.

Lemma Guarded_handle e s : Guarded s -> Guarded (handle e s).
Proof.
  intros (G & S). split; [now apply AutoSaveGuarded_handle|].
  unfold handle. destruct (exited s) eqn:X; [exact S|].
  destruct e.
  - rewrite (tick_unfold s X).
    apply AutoSaveGuarded_elapse in G.
    destruct (Follows_beforeAutoSave (elapse s)) as (L & _ & _ & _ & C & A & _).
    destruct (Follows_stepRuns (autoSaveTick (beforeAutoSave (elapse s))))
      as (L' & _ & _ & _ & C' & _).
    rewrite L'. intros N.
    assert (0 < cycles (autoSaveTick (beforeAutoSave (elapse s)))); [|lia].
    unfold autoSaveTick in *.
    destruct (autoSave (beforeAutoSave (elapse s))) as [age|] eqn:E.
    + assert (0 < cycles (beforeAutoSave (elapse s)))
        by (apply A; [exact G|congruence]).
      destruct (_ && _); cbn; assumption.
    + rewrite L in N. cbn in C. specialize (S N). lia.
  - destruct (toggleSession_unfold s) as (t & E & L & _ & _ & _ & C). rewrite E.
    cbn. rewrite L. intros N. specialize (S N). lia.
  - unfold handleBeforeUnload. destruct (isActive s && (0 <? cycles s)) eqn:B;
      [|exact S].
    intros _. cbn. apply andb_true_iff in B as (_ & B). now apply Z.ltb_lt.
  - unfold handleVisibilityChange.
    destruct (hidden && isActive s && (0 <? cycles s)) eqn:B; [|exact S].
    intros _. cbn. apply andb_true_iff in B as (_ & B). now apply Z.ltb_lt.
  - cbn. intros N. contradiction.
Qed.

Lemma Guarded_run events s : Guarded s -> Guarded (run events s).
Proof.
  unfold run. revert s. induction events as [|e es IH]; intros s G; cbn.
  - exact G.
  - apply IH, Guarded_handle, G.
Qed.

Lemma Guarded_mount p name now : Guarded (mount p name now None).
Proof.
  split; [apply AutoSaveGuarded_mount|].
  unfold mount. rewrite rerender_localStorage.
  destruct (CycleWork_breathingEffect
              (autoSaveEffect (initial p name now None))) as (L & _).
  rewrite L. cbn. intros N. contradiction.
Qed.

(** C10.  In every state a session reaches, whatever the store it was
    mounted over, an event changes the store into one that holds a snapshot
    only if the session is active and has completed a cycle: this covers the
    auto-save interval, [beforeunload] and [visibilitychange].  Hence a
    session mounted over an empty store that is still in its first cycle has
    left no snapshot, and the prompt finds nothing to offer. *)
Theorem snapshot_needs_completed_cycle :
  forall (coerce : Js.Value -> option Q) (p : BreathPattern)
         (name : option string) (now : Z) (store : LocalStorage)
         (events : list Event),
    (let s := run events (mount p name now store) in
     forall e : Event,
       localStorage (handle e s) <> localStorage s ->
       localStorage (handle e s) <> None ->
       isActive s = true /\ 0 < cycles s)
    /\ (let s := run events (mount p name now None) in
        cycles s = 0 ->
        localStorage s = None
        /\ forall later : Z,
             SessionAutoSave.offered
               (SessionAutoSave.checkForSavedSession coerce later
                  (SessionAutoSave.mount (localStorage s))) = None).
Proof.
  intros coerce p name now store events. split.
  - intros s e C N.
    pose proof (AutoSaveGuarded_run events _ (AutoSaveGuarded_mount p name now store))
      as G. fold s in G.
    unfold handle in *. destruct (exited s) eqn:X; [now contradiction C|].
    destruct e.
    + apply G. now apply autoSave_fires.
    + destruct (toggleSession_unfold s) as (t & E & L & _). rewrite E in C.
      cbn in C. now contradiction C.
    + unfold handleBeforeUnload in C.
      destruct (isActive s && (0 <? cycles s)) eqn:B; [|now contradiction C].
      apply andb_true_iff in B as (A & B). apply Z.ltb_lt in B. auto.
    + unfold handleVisibilityChange in C.
      destruct (hidden && isActive s && (0 <? cycles s)) eqn:B; [|now contradiction C].
      apply andb_true_iff in B as (A & B). apply andb_true_iff in A as (_ & A).
      apply Z.ltb_lt in B. auto.
    + cbn in N. now contradiction N.
  - intros s Z0.
    destruct (Guarded_run events _ (Guarded_mount p name now)) as (_ & S). fold s in S.
    assert (E : localStorage s = None).
    { destruct (localStorage s) eqn:L; [|reflexivity].
      assert (0 < cycles s) by (apply S; discriminate). lia. }
    split; [exact E|]. intros later. rewrite E. reflexivity.
Qed.

(* ------------------------------------------------------------------ *)
(** ** Phases of duration 0 *)

Lemma runCycleFrom_skips ph rest s :
  durationOf (pattern s) ph = 0 ->
  runCycleFrom (ph :: rest) s = runCycleFrom rest s.
Proof. intros Z0. cbn. now rewrite Z0. Qed.

Ltac timed_setter :=
  unfold ShowsTimedPhases; cbn; intros (S & R); split; assumption.

Lemma timed_runPhase ph s :
  durationOf (pattern s) ph <> 0 ->
  Forall (fun r => durationOf (pattern s) (run_phase r) <> 0) (pending s) ->
  ShowsTimedPhases (runPhase ph (durationOf (pattern s) ph) s).
Proof.
  intros N R. unfold ShowsTimedPhases, runPhase. cbn. split; [exact N|].
  apply Forall_app. split; [exact R|]. constructor; [exact N|constructor].
Qed.

Lemma timed_clearTimeout h s :
  ShowsTimedPhases s -> ShowsTimedPhases (clearTimeout h s).
Proof.
  destruct h as [h|]; [|auto]. unfold ShowsTimedPhases, clearTimeout. cbn.
  intros (S & R). split; [exact S|].
  apply Forall_map. eapply Forall_impl; [|exact R].
  intros r Hr. cbn. destruct (Nat.eqb _ _); exact Hr.
Qed.

Lemma timed_breathingEffect s :
  ShowsTimedPhases s -> ShowsTimedPhases (breathingEffect s).
Proof.
  intros T. unfold breathingEffect. destruct (isActive s); [|exact T].
  rewrite runCycleFrom_spec.
  destruct (firstAwaited _ _) eqn:F.
  - apply timed_runPhase; [eapply firstAwaited_timed, F|apply T].
  - revert T. timed_setter.
Qed.

Lemma timed_rerunBreathing b s :
  ShowsTimedPhases s -> ShowsTimedPhases (rerunBreathing b s).
Proof.
  intros T. unfold rerunBreathing. apply timed_breathingEffect.
  destruct b; [apply timed_clearTimeout|]; revert T; timed_setter.
Qed.

Lemma timed_continueCycle ph s :
  ShowsTimedPhases s -> ShowsTimedPhases (continueCycle ph s).
Proof.
  intros T. unfold continueCycle. rewrite runCycleFrom_spec.
  destruct (firstAwaited _ _) eqn:F.
  - apply timed_runPhase; [eapply firstAwaited_timed, F|apply T].
  - apply timed_rerunBreathing. revert T. timed_setter.
Qed.

Lemma timed_remove h v s :
  ShowsTimedPhases s ->
  ShowsTimedPhases (set_pending (remove_run h (pending s)) (set_timeRemaining v s)).
Proof.
  unfold ShowsTimedPhases. cbn. intros (S & R). split; [exact S|].
  unfold remove_run. apply Forall_forall. intros r I.
  apply filter_In in I as (I & _). rewrite Forall_forall in R. now apply R.
Qed.

Lemma find_run_In h l r : find_run h l = Some r -> In r l.
Proof. unfold find_run. intros F. now apply find_some in F. Qed.

Lemma timed_countdownTick r s :
  In r (pending s) -> ShowsTimedPhases s -> ShowsTimedPhases (countdownTick r s).
Proof.
  intros I T. unfold countdownTick. destruct (expired _ _).
  - apply timed_continueCycle. cbn [pending set_timeRemaining]. now apply timed_remove.
  - destruct T as (S & R). unfold ShowsTimedPhases. cbn. split; [exact S|].
    unfold replace_run. apply Forall_map.
    rewrite Forall_forall in R. apply Forall_forall. intros x Ix.
    destruct (Nat.eqb _ _); [apply (R r I)|apply (R x Ix)].
Qed.

Lemma timed_phaseTimeout r s :
  ShowsTimedPhases s -> ShowsTimedPhases (phaseTimeout r s).
Proof.
  intros T. unfold phaseTimeout. apply timed_continueCycle.
  apply (timed_remove (run_handle r) (timeRemaining s)) in T.
  revert T. timed_setter.
Qed.

Lemma timed_rerender a b : ShowsTimedPhases b -> ShowsTimedPhases (rerender a b).
Proof.
  destruct (rerender_cases a b) as [E | E]; rewrite E; [auto|timed_setter].
Qed.

Lemma timed_stepRun h s : ShowsTimedPhases s -> ShowsTimedPhases (stepRun h s).
Proof.
  intros T. unfold stepRun.
  assert (T1 : ShowsTimedPhases (ageRun h s)).
  { destruct T as (S & R). unfold ShowsTimedPhases, ageRun. cbn. split; [exact S|].
    apply Forall_map. eapply Forall_impl; [|exact R].
    intros r Hr. destruct (Nat.eqb _ _); exact Hr. }
  assert (T2 : ShowsTimedPhases (fireCountdown h (ageRun h s))).
  { unfold fireCountdown. destruct (find_run h _) as [r|] eqn:F; [|exact T1].
    destruct (_ =? 0); [|exact T1].
    apply timed_rerender, timed_countdownTick; [eapply find_run_In, F|exact T1]. }
  unfold fireTimeout. destruct (find_run h _) as [r|]; [|exact T2].
  destruct (_ && _); [|exact T2].
  apply timed_rerender, timed_phaseTimeout, T2.
Qed.

Lemma timed_stepRuns s : ShowsTimedPhases s -> ShowsTimedPhases (stepRuns s).
Proof.
  unfold stepRuns. generalize (map run_handle (pending s)) as hs.
  intros hs. revert s. induction hs as [|h hs IH]; intros s T; cbn.
  - exact T.
  - apply IH, timed_stepRun, T.
Qed.

Lemma timed_tick s : ShowsTimedPhases s -> ShowsTimedPhases (tick s).
Proof.
  intros T. unfold tick. destruct (exited s); [exact T|].
  fold (beforeAutoSave (elapse s)).
  apply timed_stepRuns.
  assert (T1 : ShowsTimedPhases (beforeAutoSave (elapse s))).
  { unfold beforeAutoSave.
    assert (T0 : ShowsTimedPhases (elapse s)) by (revert T; timed_setter).
    set (e := elapse s) in *. clearbody e.
    assert (T' : ShowsTimedPhases
                   (if effectPending e
                    then rerender e (rerunBreathing (isActive e) e) else e)).
    { destruct (effectPending e); [|exact T0].
      apply timed_rerender, timed_rerunBreathing, T0. }
    destruct (_ =? 0); [|exact T'].
    apply timed_rerender. revert T'. timed_setter. }
  unfold autoSaveTick. destruct (autoSave _); [|exact T1].
  destruct (_ && _); [|exact T1]. revert T1. timed_setter.
Qed.

Lemma timed_handle e s : ShowsTimedPhases s -> ShowsTimedPhases (handle e s).
Proof.
  intros T. unfold handle. destruct (exited s); [exact T|]. destruct e.
  - now apply timed_tick.
  - unfold toggleSession. apply timed_rerender, timed_rerunBreathing.
    destruct (negb (isActive s)); revert T; timed_setter.
  - unfold handleBeforeUnload. destruct (_ && _); [|exact T]. revert T. timed_setter.
  - unfold handleVisibilityChange. destruct (_ && _); [|exact T]. revert T. timed_setter.
  - revert T. timed_setter.
Qed.

Lemma timed_run events s : ShowsTimedPhases s -> ShowsTimedPhases (run events s).
Proof.
  unfold run. revert s. induction events as [|e es IH]; intros s T; cbn.
  - exact T.
  - apply IH, timed_handle, T.
Qed.

Lemma timed_mount p name now store :
  (exists timed, durationOf p timed <> 0) ->
  ShowsTimedPhases (mount p name now store).
Proof.
  intros (timed & N). apply (firstAwaited_exists p timed) in N.
  unfold mount. apply timed_rerender.
  change (autoSaveEffect (initial p name now store)) with (initial p name now store).
  unfold breathingEffect. cbn [isActive initial].
  rewrite runCycleFrom_spec.
  change (pattern (initial p name now store)) with p.
  destruct (firstAwaited p _) as [ph|] eqn:F; [|contradiction].
  apply (timed_runPhase ph (initial p name now store)).
  - eapply firstAwaited_timed, F.
  - constructor.
Qed.

Lemma pattern_run events s : pattern (run events s) = pattern s.
Proof.
  unfold run. revert s. induction events as [|e es IH]; intros s; cbn; [reflexivity|].
  rewrite IH. unfold handle. destruct (exited s) eqn:X; [reflexivity|]. destruct e.
  - rewrite (tick_unfold s X).
    destruct (Follows_stepRuns (autoSaveTick (beforeAutoSave (elapse s))))
      as (_ & _ & P & _). rewrite P.
    destruct (sameEngine_autoSaveTick (beforeAutoSave (elapse s)))
      as (_ & _ & _ & P' & _). rewrite P'.
    destruct (Follows_beforeAutoSave (elapse s)) as (_ & _ & P'' & _).
    rewrite P''. reflexivity.
  - destruct (toggleSession_unfold s) as (t & E & _ & _ & P & _). rewrite E. exact P.
  - unfold handleBeforeUnload. destruct (_ && _); reflexivity.
  - unfold handleVisibilityChange. destruct (_ && _); reflexivity.
  - reflexivity.
Qed.

Lemma pattern_mount p name now store : pattern (mount p name now store) = p.
Proof.
  unfold mount. rewrite rerender_pattern.
  destruct (CycleWork_breathingEffect (autoSaveEffect (initial p name now store)))
    as (_ & _ & P & _).
  rewrite P. reflexivity.
Qed.

(** C6, as the code has it.  A phase [ph] configured with duration 0 is
    skipped at once: the sequencer goes on to the phases after it without
    touching the state (no timer is armed, so no tick is emitted for it);
    once the screen is mounted, in a session whose pattern has a phase that
    takes time, [ph] is never the phase shown and no countdown is ever
    pending for it; and the tick at which the phase before runs out already
    enters the first later phase that takes time or, when there is none, the
    next cycle. *)
Theorem zero_duration_phase_skipped :
  forall (p : BreathPattern) (ph : Phase),
    durationOf p ph = 0 ->
    (forall (s : State) (rest : list Phase),
        pattern s = p -> runCycleFrom (ph :: rest) s = runCycleFrom rest s)
    /\ (forall (name : option string) (now : Z) (store : LocalStorage)
               (events : list Event),
          (exists timed, durationOf p timed <> 0) ->
          let s := run events (mount p name now store) in
          currentPhase s <> ph
          /\ Forall (fun r => run_phase r <> ph) (pending s))
    /\ (forall (c : Z) (before : Phase) (a : Z) (s : State),
          Awaiting p c before a s -> 0 <= a -> a + 1 = durationOf p before ->
          Entering p c (phasesAfter before) (tick s)).
Proof.
  intros p ph Z0. split; [|split].
  - intros s rest P. apply runCycleFrom_skips. now rewrite P.
  - intros name now store events T s.
    pose proof (timed_run events _ (timed_mount p name now store T)) as (S & R).
    fold s in S, R.
    assert (P : pattern s = p) by (unfold s; now rewrite pattern_run, pattern_mount).
    rewrite P in S, R. split.
    + intros E. rewrite E in S. contradiction.
    + eapply Forall_impl; [|exact R]. intros r Hr E. cbn in Hr.
      rewrite E in Hr. contradiction.
  - intros c before a s. apply tick_finishes.
Qed.

(** The scenario of C6: with the 4-7-8 pattern, whose pause is 0, the tick
    that ends the exhale (4 s of inhale, 7 s of hold and 8 s of exhale after
    the start) shows inhale again, one cycle counted. *)
Lemma zero_duration_phase_skipped_478 :
  let s := advance (Z.to_nat 7999)
             (advance (Z.to_nat 7000)
                (advance (Z.to_nat 4000) (mount relaxing478 None 0 None))) in
  durationOf relaxing478 Pause = 0
  /\ currentPhase s = Exhale /\ cycles s = 0 /\ timeRemaining s = 100
  /\ CycleStart relaxing478 1 (tick s)
  /\ currentPhase (tick s) = Inhale /\ cycles (tick s) = 1
  /\ timeRemaining (tick s) = 4000.
Proof.
  assert (S : CycleStart relaxing478 0 (mount relaxing478 None 0 None))
    by (apply mount_starts_cycle; exists Inhale; discriminate).
  apply CycleStart_inhale in S; [|discriminate].
  apply (advance_phase relaxing478 0 Inhale) in S; [|reflexivity].
  change (Awaiting relaxing478 0 Hold 0
            (advance (Z.to_nat 4000) (mount relaxing478 None 0 None))) in S.
  apply (advance_phase relaxing478 0 Hold) in S; [|reflexivity].
  change (Awaiting relaxing478 0 Exhale 0
            (advance (Z.to_nat 7000)
               (advance (Z.to_nat 4000) (mount relaxing478 None 0 None)))) in S.
  apply (advance_countdown relaxing478 0 Exhale _ (Z.to_nat 7999)) in S;
    [|reflexivity].
  set (s := advance (Z.to_nat 7999) _) in *.
  destruct (zero_duration_phase_skipped relaxing478 Pause eq_refl) as (_ & _ & H).
  specialize (H 0 Exhale (Z.of_nat (Z.to_nat 7999)) s S (Nat2Z.is_nonneg _) eq_refl).
  change (CycleStart relaxing478 1 (tick s)) in H.
  assert (N : inhale relaxing478 <> 0) by discriminate.
  destruct (Awaiting_shows _ _ _ _ _ S) as (C0 & P0 & R0 & _).
  destruct (Awaiting_shows _ _ _ _ _ (CycleStart_inhale _ _ _ N H))
    as (C1 & P1 & R1 & _).
  change (durationOf relaxing478 Exhale - 100 * (Z.of_nat (Z.to_nat 7999) / 100))
    with 100 in R0.
  change (durationOf relaxing478 Inhale - 100 * (0 / 100)) with 4000 in R1.
  split; [reflexivity|]. split; [exact P0|]. split; [exact C0|].
  split; [exact R0|]. split; [exact H|].
  split; [exact P1|]. split; [exact C1|exact R1].
Defined.

(** C6 as stated fails where the inhale itself has duration 0: the first
    render shows inhale before any effect has run, and a session of the
    all-zero pattern, which the screen accepts, shows inhale for ever. *)
Lemma zero_duration_inhale_shown :
  let noInhale := {| inhale := 0; hold := 4000; exhale := 4000; pause := 0 |} in
  durationOf noInhale Inhale = 0
  /\ currentPhase (initial noInhale None 0 None) = Inhale
  /\ durationOf allZero Inhale = 0
  /\ currentPhase (mount allZero None 0 None) = Inhale
  /\ currentPhase (run (repeat Tick 50) (mount allZero None 0 None)) = Inhale.
Proof. vm_compute. repeat split. Qed.

(* ------------------------------------------------------------------ *)
(** ** The target count, pausing and the stop-watch *)

Lemma handle_exited e s :
  e <> Exit -> exited (handle e s) = exited s.
Proof.
  intros N. unfold handle. destruct (exited s) eqn:X; [exact X|]. destruct e.
  - rewrite (tick_unfold s X).
    destruct (Follows_stepRuns (autoSaveTick (beforeAutoSave (elapse s))))
      as (_ & P & _). rewrite P.
    destruct (sameEngine_autoSaveTick (beforeAutoSave (elapse s))) as (P' & _).
    rewrite P'.
    destruct (Follows_beforeAutoSave (elapse s)) as (_ & P'' & _).
    rewrite P''. exact X.
  - destruct (toggleSession_unfold s) as (t & E & _ & P & _). rewrite E.
    cbn. now rewrite P.
  - unfold handleBeforeUnload. destruct (_ && _); exact X.
  - unfold handleVisibilityChange. destruct (_ && _); exact X.
  - contradiction.
Qed.

(** C2 as stated fails: after ten cycles of box breathing (ten times 16 s)
    the session is still running and has produced no summary; the ticks that
    follow move the countdown, and 16 s later an eleventh cycle is counted. *)
Lemma session_runs_past_target :
  let s := Nat.iter 10 (advance (Z.to_nat 16000)) (mount boxBreathing None 0 None) in
  cycles s = totalCycles
  /\ isActive s = true /\ exited s = None
  /\ timeRemaining s = 4000
  /\ timeRemaining (advance 100 s) = 3900
  /\ cycles (advance (Z.to_nat 16000) s) = 11
  /\ exited (advance (Z.to_nat 16000) s) = None.
Proof.
  assert (S : CycleStart boxBreathing 0 (mount boxBreathing None 0 None))
    by (apply mount_starts_cycle; exists Inhale; discriminate).
  apply (advance_cycles boxBreathing 0 _ 10) in S; try discriminate.
  change (CycleStart boxBreathing 10
            (Nat.iter 10 (advance (Z.to_nat 16000))
               (mount boxBreathing None 0 None))) in S.
  set (s := Nat.iter 10 _ _) in *.
  assert (N : inhale boxBreathing <> 0) by discriminate.
  pose proof (CycleStart_inhale _ _ _ N S) as A.
  destruct (Awaiting_shows _ _ _ _ _ A) as (C & _ & R & I & X).
  destruct (Awaiting_shows _ _ _ _ _
              (advance_countdown boxBreathing 10 Inhale s 100 A eq_refl))
    as (_ & _ & R' & _).
  pose proof (advance_cycle boxBreathing 10 s ltac:(discriminate)
                ltac:(discriminate) ltac:(discriminate) ltac:(discriminate) S)
    as S'.
  change (CycleStart boxBreathing 11 (advance (Z.to_nat 16000) s)) in S'.
  destruct (Awaiting_shows _ _ _ _ _ (CycleStart_inhale _ _ _ N S'))
    as (C'' & _ & _ & _ & X'').
  change (durationOf boxBreathing Inhale - 100 * (0 / 100)) with 4000 in R.
  change (durationOf boxBreathing Inhale - 100 * (Z.of_nat 100 / 100))
    with 3900 in R'.
  split; [exact C|]. split; [exact I|]. split; [exact X|].
  split; [exact R|]. split; [exact R'|]. split; [exact C''|exact X''].
Qed.

(** C2, as the code has it.  The target count ends nothing: from the top of
    any cycle of a valid pattern, whatever the count [c] reached, the session
    is at the top of the next cycle [D] ms later, [c + 1] cycles counted,
    still running and without a summary; and no event but the user's exit
    ever produces the summary. *)
Theorem no_automatic_completion :
  forall (p : BreathPattern) (c : Z) (s : State),
    valid p ->
    CycleStart p c s ->
    let s' := advance (Z.to_nat (totalCycleTime p)) s in
    CycleStart p (c + 1) s'
    /\ cycles s' = c + 1
    /\ isActive s' = true
    /\ exited s' = None
    /\ (forall (e : Event) (t : State),
          e <> Exit -> exited t = None -> exited (handle e t) = None).
Proof.
  intros p c s (Hi & Hh & He & Hp & _) S s'.
  assert (S' : CycleStart p (c + 1) s') by now apply advance_cycle.
  destruct (CycleStart_shows _ _ _ S') as (ph & _ & C & _ & _ & A & X).
  split; [exact S'|]. split; [exact C|]. split; [exact A|]. split; [exact X|].
  intros e t N Xt. now rewrite handle_exited.
Qed.

(** An instance for C2: box breathing at the top of its eleventh cycle, the
    target of ten cycles reached. *)
Lemma no_automatic_completion_at_target :
  let s := Nat.iter 10 (advance (Z.to_nat 16000)) (mount boxBreathing None 0 None) in
  let s' := advance (Z.to_nat 16000) s in
  valid boxBreathing
  /\ CycleStart boxBreathing totalCycles s
  /\ cycles s' = totalCycles + 1 /\ isActive s' = true /\ exited s' = None.
Proof.
  assert (V : valid boxBreathing) by (unfold valid; cbn; lia).
  assert (S : CycleStart boxBreathing 0 (mount boxBreathing None 0 None))
    by (apply mount_starts_cycle; exists Inhale; discriminate).
  apply (advance_cycles boxBreathing 0 _ 10) in S; try discriminate.
  change (CycleStart boxBreathing totalCycles
            (Nat.iter 10 (advance (Z.to_nat 16000))
               (mount boxBreathing None 0 None))) in S.
  destruct (no_automatic_completion boxBreathing totalCycles _ V S)
    as (_ & C & A & X & _).
  split; [exact V|]. split; [exact S|].
  split; [exact C|]. split; [exact A|exact X].
Defined.

(** C4 on the code.  A session of the one-second pattern is paused 0.5 s
    in, with 0 s on the stop-watch and 0.5 s of inhale to go.  While it is
    paused the stop-watch goes on (1 s, then 2 s), the countdown goes on into
    the exhale, and the cycle is counted when it ends; resuming after those
    two seconds sets the start time 2 s back, so the paused time stays in
    the elapsed time. *)
Theorem paused_session_keeps_counting :
  let s := toggleSession (advance (Z.to_nat 500) (mount briefPattern None 0 None)) in
  let later := advance (Z.to_nat 2000) s in
  (isActive s = false /\ sessionDuration s = 0
   /\ currentPhase s = Inhale /\ timeRemaining s = 500 /\ cycles s = 0)
  /\ (isActive (advance (Z.to_nat 1000) s) = false
      /\ sessionDuration (advance (Z.to_nat 1000) s) = 1
      /\ currentPhase (advance (Z.to_nat 1000) s) = Exhale)
  /\ (isActive later = false /\ sessionDuration later = 2 /\ cycles later = 1)
  /\ dateNow later = 2500
  /\ startTimeRef (toggleSession later) = 500
  /\ sessionDuration (advance (Z.to_nat 500) (toggleSession later)) = 2.
Proof. vm_compute. repeat split. Qed.

(** C8 as stated fails: the pause control pressed twice leaves the session
    running, pressed once leaves it paused. *)
Lemma pause_twice_resumes :
  let s := mount boxBreathing None 0 None in
  isActive s = true
  /\ isActive (toggleSession s) = false
  /\ isActive (toggleSession (toggleSession s)) = true
  /\ List.length (pending (toggleSession s)) = 1%nat
  /\ List.length (pending (toggleSession (toggleSession s))) = 2%nat.
Proof. vm_compute. repeat split. Qed.

(** C8, as the code has it.  The pause control is a toggle: it flips
    [isActive], so pressing it twice gives back the value it had; and on a
    paused session the breathing effect returns at once, starting no
    cycle. *)
Theorem toggleSession_flips :
  forall s : State,
    isActive (toggleSession s) = negb (isActive s)
    /\ isActive (toggleSession (toggleSession s)) = isActive s
    /\ (isActive s = false -> breathingEffect s = s).
Proof.
  assert (F : forall s, isActive (toggleSession s) = negb (isActive s)).
  { intros s. destruct (toggleSession_unfold s) as (t & E & _ & _ & _ & A & _).
    rewrite E. exact A. }
  intros s. split; [apply F|]. split.
  - rewrite !F. apply negb_involutive.
  - intros P. unfold breathingEffect. now rewrite P.
Qed.

(* ------------------------------------------------------------------ *)
(** ** A session that is left alone *)

(** Where the phases of a cycle start. *)
Lemma schedule_next p ph ph' :
  valid p -> firstAwaited p (phasesAfter ph) = Some ph' ->
  timeOf p (phasesBefore ph') = timeOf p (phasesBefore ph) + durationOf p ph
  /\ 0 < durationOf p ph' /\ ph' <> ph.
Proof.
  intros (Hi & Hh & He & Hp & _) F.
  destruct ph; cbn in F;
    repeat match type of F with
           | context [?x =? 0] =>
               let E := fresh "E" in
               destruct (x =? 0) eqn:E;
               [apply Z.eqb_eq in E | apply Z.eqb_neq in E]
           end;
    try discriminate; injection F as <-; cbn;
    (split; [lia | split; [lia | discriminate]]).
Qed.

Lemma schedule_wrap p ph :
  valid p -> firstAwaited p (phasesAfter ph) = None ->
  totalCycleTime p = timeOf p (phasesBefore ph) + durationOf p ph.
Proof.
  intros (Hi & Hh & He & Hp & _) F. unfold totalCycleTime.
  destruct ph; cbn in F;
    repeat match type of F with
           | context [?x =? 0] =>
               let E := fresh "E" in
               destruct (x =? 0) eqn:E;
               [apply Z.eqb_eq in E | apply Z.eqb_neq in E]
           end;
    try discriminate; cbn; lia.
Qed.

Lemma schedule_first p ph :
  valid p -> firstAwaited p [Inhale; Hold; Exhale; Pause] = Some ph ->
  timeOf p (phasesBefore ph) = 0 /\ 0 < durationOf p ph.
Proof.
  intros (Hi & Hh & He & Hp & _) F. cbn in F.
  repeat match type of F with
         | context [?x =? 0] =>
             let E := fresh "E" in
             destruct (x =? 0) eqn:E;
             [apply Z.eqb_eq in E | apply Z.eqb_neq in E]
         end;
    try discriminate; injection F as <-; cbn; lia.
Qed.

(** The instant [timeOf (phasesBefore ph) + a] of a cycle falls in [ph]. *)
Lemma phaseAt_schedule p ph a :
  valid p -> 0 <= a < durationOf p ph ->
  phaseAt p [Inhale; Hold; Exhale; Pause] (timeOf p (phasesBefore ph) + a)
  = Some (ph, a).
Proof.
  intros (Hi & Hh & He & Hp & _) A.
  destruct ph; cbn in *;
    repeat match goal with
           | |- context [?x <? ?y] =>
               let E := fresh "E" in
               destruct (x <? y) eqn:E;
               [apply Z.ltb_lt in E | apply Z.ltb_ge in E]
           end;
    try lia; repeat f_equal; lia.
Qed.

Lemma schedule_inside p ph a :
  valid p -> 0 <= a < durationOf p ph ->
  0 <= timeOf p (phasesBefore ph) + a < totalCycleTime p.
Proof.
  intros (Hi & Hh & He & Hp & _) A. unfold totalCycleTime.
  destruct ph; cbn in *; lia.
Qed.

Lemma Phase_eqb_eq (a b : Phase) : Phase_eqb a b = true -> a = b.
Proof. destruct a, b; cbn; congruence. Qed.

(** A render in which the phase, the cycle count or the countdown changed
    arms the auto-save interval afresh, or leaves none. *)
Lemma rerender_resets a b :
  currentPhase b <> currentPhase a \/ cycles b <> cycles a
  \/ timeRemaining b <> timeRemaining a ->
  autoSave (rerender a b) = Some 0 \/ autoSave (rerender a b) = None.
Proof.
  intros D. unfold rerender. destruct (sameRender a b) eqn:R.
  - unfold sameRender in R. rewrite !andb_true_iff in R.
    destruct R as ((((R1 & _) & R3) & R4) & _).
    apply Phase_eqb_eq in R1. apply Z.eqb_eq in R3, R4.
    destruct D as [D | [D | D]]; congruence.
  - unfold autoSaveEffect. cbn. destruct (isActive b && (0 <? cycles b)); auto.
Qed.

Lemma sameEngine_beforeAutoSave s :
  effectPending s = false -> sameEngine s (beforeAutoSave s).
Proof.
  intros P. unfold beforeAutoSave. rewrite P.
  destruct (_ =? 0); [|apply sameEngine_refl].
  eapply sameEngine_trans; [apply sameEngine_durationTick|apply sameEngine_rerender].
Qed.

Lemma fireCountdown_resets p c r tr s :
  Sole p c r tr s -> run_age r mod 100 = 0 ->
  currentPhase (fireCountdown (run_handle r) s) <> currentPhase s
  \/ cycles (fireCountdown (run_handle r) s) <> cycles s
  \/ timeRemaining (fireCountdown (run_handle r) s) <> timeRemaining s ->
  autoSave (fireCountdown (run_handle r) s) = Some 0
  \/ autoSave (fireCountdown (run_handle r) s) = None.
Proof.
  intros (A1 & A2 & A3 & A4 & A5 & A6 & A7 & A8 & A9) M.
  unfold fireCountdown, find_run. rewrite A8. cbn [find]. rewrite Nat.eqb_refl.
  apply Z.eqb_eq in M. rewrite M.
  rewrite rerender_currentPhase, rerender_cycles, rerender_timeRemaining.
  apply rerender_resets.
Qed.

Lemma fireTimeout_resets p c r tr s :
  Sole p c r tr s -> run_armed r = true -> run_duration r <= run_age r ->
  currentPhase (fireTimeout (run_handle r) s) <> currentPhase s
  \/ cycles (fireTimeout (run_handle r) s) <> cycles s
  \/ timeRemaining (fireTimeout (run_handle r) s) <> timeRemaining s ->
  autoSave (fireTimeout (run_handle r) s) = Some 0
  \/ autoSave (fireTimeout (run_handle r) s) = None.
Proof.
  intros (A1 & A2 & A3 & A4 & A5 & A6 & A7 & A8 & A9) T L.
  unfold fireTimeout, find_run. rewrite A8. cbn [find]. rewrite Nat.eqb_refl.
  apply Z.leb_le in L. rewrite L, T. cbn [andb].
  rewrite rerender_currentPhase, rerender_cycles, rerender_timeRemaining.
  apply rerender_resets.
Qed.

(** When a phase runs out, the phase shown changes or a cycle is counted. *)
Lemma Entering_moves p c ph s :
  valid p -> Entering p c (phasesAfter ph) s ->
  currentPhase s <> ph \/ cycles s = c + 1.
Proof.
  intros V E. unfold Entering in E.
  destruct (firstAwaited p (phasesAfter ph)) as [ph'|] eqn:F.
  - left. destruct (Awaiting_shows _ _ _ _ _ E) as (_ & Ph & _). rewrite Ph.
    now destruct (schedule_next p ph ph' V F) as (_ & _ & N).
  - right. now destruct (CycleStart_shows _ _ _ E) as (x & _ & C & _).
Qed.

Lemma countdown_between (a : Z) :
  0 <= a -> (a + 1) mod 100 <> 0 -> (a + 1) mod 100 = a mod 100 + 1.
Proof. intros. Z.div_mod_to_equations. lia. Qed.

(** One millisecond of a session that awaits a phase: the auto-save interval
    does not fire, and it is armed afresh whenever the countdown steps or
    the phase runs out. *)
Lemma tick_interval p c ph a s :
  valid p ->
  Awaiting p c ph a s -> 0 <= a -> a + 1 <= durationOf p ph ->
  match autoSave s with Some age => 0 <= age <= a mod 100 | None => True end ->
  localStorage (tick s) = localStorage s
  /\ match autoSave (tick s) with
     | Some age =>
         0 <= age <= (if a + 1 =? durationOf p ph then 0 else (a + 1) mod 100)
     | None => True
     end.
Proof.
  intros V A Ha Hd K.
  destruct (Awaiting_shows _ _ _ _ _ A) as (_ & _ & _ & _ & X).
  assert (P : effectPending s = false) by (destruct A as (h & A); apply A).
  pose proof (Z.mod_pos_bound a 100 ltac:(lia)) as Hm.
  pose proof (Z.mod_pos_bound (a + 1) 100 ltac:(lia)) as Hm'.
  set (b := beforeAutoSave (elapse s)).
  assert (Kb : match autoSave b with
               | Some age => 0 <= age <= a mod 100 + 1
               | None => True
               end).
  { destruct (Follows_beforeAutoSave (elapse s))
      as (_ & _ & _ & _ & _ & _ & [(E & _) | [E | E]]); fold b in E; rewrite E.
    - cbn. destruct (autoSave s); cbn; [lia | exact I].
    - lia.
    - exact I. }
  assert (Tb : autoSaveTick b = b).
  { unfold autoSaveTick. destruct (autoSave b) as [age|]; [|reflexivity].
    destruct (0 <? age) eqn:E0; [|reflexivity]. apply Z.ltb_lt in E0.
    rewrite Z.mod_small by lia.
    destruct (age =? 0) eqn:E1; [apply Z.eqb_eq in E1; lia|reflexivity]. }
  assert (Lb : localStorage b = localStorage s).
  { destruct (Follows_beforeAutoSave (elapse s)) as (E & _). exact E. }
  assert (Eb : sameEngine s b).
  { eapply sameEngine_trans; [apply sameEngine_elapse|].
    apply sameEngine_beforeAutoSave. exact P. }
  assert (T : tick s = stepRuns b) by (rewrite (tick_unfold s X); fold b; now rewrite Tb).
  rewrite T. split.
  { destruct (Follows_stepRuns b) as (E & _). now rewrite E. }
  apply (Awaiting_sameEngine _ _ _ _ _ _ Eb) in A.
  clearbody b. clear T Eb Tb Lb K P X s.
  destruct A as (h & A).
  pose proof (countdown_behind a Ha) as Hb.
  pose proof (countdown_behind (a + 1) ltac:(lia)) as Hb'.
  rewrite (stepRuns_sole _ _ _ _ _ A). unfold stepRun.
  assert (Kz : autoSave (ageRun h b) = autoSave b) by reflexivity.
  apply ageRun_sole in A. run_fields.
  set (z := ageRun h b) in *. clearbody z. rewrite <- Kz in Kb. clear Kz b.
  pose proof A as (_ & _ & _ & _ & Cz & Pz & Tz & _). run_fields.
  destruct (Z.eq_dec ((a + 1) mod 100) 0) as [M | M].
  - pose proof (countdown_fires a Ha M) as F.
    assert (D : 100 * ((a + 1) / 100) = a + 1)
      by (clear - M Ha; Z.div_mod_to_equations; lia).
    assert (R : autoSave (fireCountdown h z) = Some 0
                \/ autoSave (fireCountdown h z) = None).
    { apply (fireCountdown_resets _ _ _ _ _ A M).
      destruct (Z_lt_le_dec (a + 1) (durationOf p ph)) as [Lt | Ge].
      - right. right.
        apply fireCountdown_counts in A; [|exact M|run_fields; lia]. run_fields.
        destruct A as (_ & _ & _ & _ & _ & _ & T' & _). rewrite T', Tz. lia.
      - pose proof A as (_ & _ & _ & _ & _ & _ & _ & _ & Hh).
        assert (Z0 : durationOf p ph - 100 * (a / 100) - 100 = 0) by lia.
        destruct (lingers (durationOf p ph)) eqn:Ln.
        + right. right.
          apply fireCountdown_goes_on in A;
            [|exact M|run_fields; lia
             |run_fields; rewrite Z0, expired_zero, Ln; reflexivity].
          run_fields.
          destruct A as (_ & _ & _ & _ & _ & _ & T' & _). rewrite T', Tz. lia.
        + destruct (fireCountdown_resolves _ _ _ _ _ A) as (q & Q & Hq & S);
            [exact M | run_fields; rewrite Z0, expired_zero, Ln; reflexivity |].
          run_fields.
          assert (N : durationOf p ph <> 0) by lia.
          pose proof (Entering_sameEngine _ _ _ _ _ S
                        (continueCycle_entering p c ph q Q N)) as E.
          destruct (Entering_moves _ _ _ _ V E) as [E' | E'].
          * left. now rewrite Pz.
          * right. left. rewrite E', Cz. lia. }
    destruct (Follows_fireTimeout h (fireCountdown h z))
      as (_ & _ & _ & _ & _ & _ & [(E & _) | [E | E]]); rewrite E.
    + destruct R as [R | R]; rewrite R; [|exact I].
      destruct (_ =? _); lia.
    + destruct (_ =? _); lia.
    + exact I.
  - pose proof (fireCountdown_idle _ _ _ _ _ A) as Id. run_fields.
    rewrite Id by exact M.
    destruct (Z_lt_le_dec (a + 1) (durationOf p ph)) as [Lt | Ge].
    + pose proof (fireTimeout_waits _ _ _ _ _ A) as W. run_fields.
      rewrite W by lia.
      destruct (a + 1 =? durationOf p ph) eqn:E; [apply Z.eqb_eq in E; lia|].
      rewrite (countdown_between a Ha M).
      destruct (autoSave z); [lia|exact I].
    + assert (R : autoSave (fireTimeout h z) = Some 0
                  \/ autoSave (fireTimeout h z) = None).
      { apply (fireTimeout_resets _ _ _ _ _ A); [reflexivity | run_fields; lia |].
        destruct (fireTimeout_resolves _ _ _ _ _ A) as (q & Q & _ & S);
          [reflexivity | run_fields; lia |]. run_fields.
        assert (N : durationOf p ph <> 0) by lia.
        pose proof (Entering_sameEngine _ _ _ _ _ S
                      (continueCycle_entering p c ph q Q N)) as E.
        destruct (Entering_moves _ _ _ _ V E) as [E' | E'].
        - left. now rewrite Pz.
        - right. left. rewrite E', Cz. lia. }
      destruct R as [R | R]; rewrite R; [|exact I].
      destruct (_ =? _); lia.
Qed.

Lemma tick_untouched p store n s :
  valid p -> Untouched p store n s -> Untouched p store (n + 1) (tick s).
Proof.
  intros V (c & ph & a & Hc & Ha & Hn & A & L & K).
  destruct (tick_interval p c ph a s V A) as (L' & K'); [lia | lia | exact K |].
  destruct (Z_lt_le_dec (a + 1) (durationOf p ph)) as [Lt | Ge].
  - exists c, ph, (a + 1).
    destruct (a + 1 =? durationOf p ph) eqn:E; [apply Z.eqb_eq in E; lia|].
    conjs; try lia; [now apply tick_awaiting | congruence | exact K'].
  - assert (E : a + 1 = durationOf p ph) by lia.
    rewrite (proj2 (Z.eqb_eq _ _) E) in K'.
    pose proof (tick_finishes p c ph a s A ltac:(lia) E) as En.
    unfold Entering in En.
    destruct (firstAwaited p (phasesAfter ph)) as [ph'|] eqn:F.
    + destruct (schedule_next p ph ph' V F) as (B & D & _).
      exists c, ph', 0. change (0 mod 100) with 0.
      conjs; try lia; [exact En | congruence | exact K'].
    + pose proof (schedule_wrap p ph V F) as W.
      destruct En as (ph' & F' & A').
      destruct (schedule_first p ph' V F') as (B & D).
      exists (c + 1), ph', 0. change (0 mod 100) with 0.
      conjs; try lia; [exact A' | congruence | exact K'].
Qed.

Lemma mount_untouched p name now store :
  valid p -> Untouched p store 0 (mount p name now store).
Proof.
  intros V. pose proof V as (Hi & Hh & He & Hp & HT).
  assert (T : exists timed, durationOf p timed <> 0).
  { unfold totalCycleTime in HT.
    destruct (Z.eq_dec (inhale p) 0); [|now exists Inhale].
    destruct (Z.eq_dec (hold p) 0); [|now exists Hold].
    destruct (Z.eq_dec (exhale p) 0); [|now exists Exhale].
    exists Pause. cbn. lia. }
  destruct (mount_starts_cycle p name now store T) as (ph & F & A).
  destruct (schedule_first p ph V F) as (B & D).
  destruct (Awaiting_shows _ _ _ _ _ A) as (C & _).
  exists 0, ph, 0. change (0 mod 100) with 0.
  conjs; try lia; [exact A | |].
  - unfold mount. rewrite rerender_localStorage.
    now destruct (CycleWork_breathingEffect (autoSaveEffect (initial p name now store)))
      as (L & _).
  - destruct (autoSave (mount p name now store)) as [age|] eqn:E; [|exact I].
    destruct (AutoSaveGuarded_mount p name now store) as (_ & G); [congruence|].
    lia.
Qed.

Lemma advance_untouched p name now store (n : nat) :
  valid p ->
  Untouched p store (Z.of_nat n) (advance n (mount p name now store)).
Proof.
  intros V. induction n as [|n IH].
  - now apply mount_untouched.
  - rewrite advance_succ, Nat2Z.inj_succ. now apply tick_untouched.
Qed.

(** What a session that has been left alone for [n] ms shows. *)
Lemma untouched_shows p store n s :
  valid p -> Untouched p store n s ->
  exists ph a,
    phaseAt p [Inhale; Hold; Exhale; Pause] (n mod totalCycleTime p) = Some (ph, a)
    /\ currentPhase s = ph
    /\ timeRemaining s = durationOf p ph - 100 * (a / 100)
    /\ 0 < timeRemaining s <= durationOf p ph
    /\ cycles s = n / totalCycleTime p
    /\ isActive s = true
    /\ exited s = None
    /\ List.length (pending s) = 1%nat.
Proof.
  intros V (c & ph & a & Hc & Ha & Hn & A & _).
  destruct (Awaiting_shows _ _ _ _ _ A) as (C & Ph & T & Ac & X).
  pose proof (schedule_inside p ph a V Ha) as In.
  pose proof (countdown_behind a ltac:(lia)) as Hb.
  assert (Q : n / totalCycleTime p = c
              /\ n mod totalCycleTime p = timeOf p (phasesBefore ph) + a).
  { rewrite Hn. split.
    - symmetry. apply (Z.div_unique _ _ c (timeOf p (phasesBefore ph) + a)); lia.
    - symmetry. apply (Z.mod_unique _ _ c (timeOf p (phasesBefore ph) + a)); lia. }
  destruct Q as (Q1 & Q2).
  exists ph, a. rewrite Q1, Q2, T. conjs; try assumption; try lia.
  - now apply phaseAt_schedule.
  - assert (0 <= a / 100) by (apply Z.div_pos; lia). lia.
  - destruct A as (h & A). destruct A as (_ & _ & _ & _ & _ & _ & _ & P8 & _).
    now rewrite P8.
Qed.

(** X1.  The state of a session that is left alone, in closed form.  For a
    valid pattern with cycle time [D], [n] ms after the screen was mounted
    the session is running, it has counted [n / D] cycles and it shows the
    phase [ph] in which the instant [n mod D] of the cycle falls; exactly
    one countdown is pending. *)
Theorem untouched_session_state :
  forall (p : BreathPattern) (name : option string) (now : Z)
         (store : LocalStorage) (n : nat),
    valid p ->
    let s := advance n (mount p name now store) in
    let D := totalCycleTime p in
    exists ph a,
      phaseAt p [Inhale; Hold; Exhale; Pause] (Z.of_nat n mod D) = Some (ph, a)
      /\ currentPhase s = ph
      /\ cycles s = Z.of_nat n / D
      /\ isActive s = true
      /\ exited s = None
      /\ List.length (pending s) = 1%nat.
Proof.
  intros p name now store n V s D.
  destruct (untouched_shows p store (Z.of_nat n) s V) as (ph & a & H);
    [now apply advance_untouched|].
  exists ph, a. tauto.
Qed.

(** An instance: box breathing 5.25 s after the start is 1.25 s into the
    hold of its first cycle. *)
Lemma untouched_session_state_box :
  let s := advance (Z.to_nat 5250) (mount boxBreathing None 0 None) in
  valid boxBreathing
  /\ phaseAt boxBreathing [Inhale; Hold; Exhale; Pause] 5250 = Some (Hold, 1250)
  /\ currentPhase s = Hold /\ cycles s = 0 /\ isActive s = true.
Proof.
  assert (V : valid boxBreathing) by (unfold valid; cbn; lia).
  split; [exact V|].
  destruct (untouched_session_state boxBreathing None 0 None (Z.to_nat 5250) V)
    as (ph & a & H1 & H0 & H2 & H3 & _).
  assert (E : phaseAt boxBreathing [Inhale; Hold; Exhale; Pause]
                 (Z.of_nat (Z.to_nat 5250) mod totalCycleTime boxBreathing)
               = Some (Hold, 1250)) by reflexivity.
  rewrite E in H1. clear E.
  injection H1 as <- <-.
  split; [reflexivity|].
  split; [exact H0|]. split; [exact H2|exact H3].
Defined.

(** The effect that holds the auto-save interval arms it whenever the
    session is active and has completed a cycle. *)
Lemma Armed_rerender a b :
  CycleWork a b -> AutoSaveArmed a -> AutoSaveArmed (rerender a b).
Proof.
  intros (_ & _ & _ & _ & _ & W) G.
  unfold rerender. destruct (sameRender a b) eqn:R.
  - apply sameRender_true in R as (RA & RC).
    unfold AutoSaveArmed in *. rewrite RA, RC, W. exact G.
  - unfold AutoSaveArmed, autoSaveEffect. cbn. intros Ac C.
    rewrite Ac. apply Z.ltb_lt in C. rewrite C. discriminate.
Qed.

Lemma Armed_stepRun h s : AutoSaveArmed s -> AutoSaveArmed (stepRun h s).
Proof.
  intros G. unfold stepRun.
  assert (G1 : AutoSaveArmed (ageRun h s)) by exact G.
  assert (G2 : AutoSaveArmed (fireCountdown h (ageRun h s))).
  { unfold fireCountdown. destruct (find_run _ _); [|exact G1].
    destruct (_ =? 0); [|exact G1].
    apply Armed_rerender; [apply CycleWork_countdownTick|exact G1]. }
  unfold fireTimeout. destruct (find_run _ _); [|exact G2].
  destruct (_ && _); [|exact G2].
  apply Armed_rerender; [apply CycleWork_phaseTimeout|exact G2].
Qed.

Lemma Armed_stepRuns s : AutoSaveArmed s -> AutoSaveArmed (stepRuns s).
Proof.
  unfold stepRuns. generalize (map run_handle (pending s)) as hs.
  intros hs. revert s. induction hs as [|h hs IH]; intros s G; cbn.
  - exact G.
  - apply IH, Armed_stepRun, G.
Qed.

Lemma Armed_tick s : AutoSaveArmed s -> AutoSaveArmed (tick s).
Proof.
  intros G. destruct (exited s) eqn:X; [unfold tick; now rewrite X|].
  rewrite (tick_unfold s X). apply Armed_stepRuns.
  assert (G0 : AutoSaveArmed (elapse s)).
  { unfold AutoSaveArmed in *. cbn. intros Ac C.
    destruct (autoSave s); [discriminate|]. now apply G. }
  assert (G1 : AutoSaveArmed (beforeAutoSave (elapse s))).
  { unfold beforeAutoSave.
    set (e := elapse s) in *. clearbody e.
    assert (G' : AutoSaveArmed
                   (if effectPending e
                    then rerender e (rerunBreathing (isActive e) e) else e)).
    { destruct (effectPending e); [|exact G0].
      apply Armed_rerender; [apply CycleWork_rerunBreathing|exact G0]. }
    destruct (_ =? 0); [|exact G'].
    apply Armed_rerender; [cycle_work|exact G']. }
  unfold autoSaveTick. destruct (autoSave _) eqn:E; [|exact G1].
  destruct (_ && _); [|exact G1].
  unfold AutoSaveArmed in *. cbn. rewrite E. discriminate.
Qed.

Lemma Armed_mount p name now store : AutoSaveArmed (mount p name now store).
Proof.
  change (mount p name now store)
    with (rerender (initial p name now store)
            (breathingEffect (initial p name now store))).
  apply Armed_rerender; [apply CycleWork_breathingEffect|].
  unfold AutoSaveArmed. cbn. lia.
Qed.

Lemma Armed_advance (n : nat) s : AutoSaveArmed s -> AutoSaveArmed (advance n s).
Proof.
  intros G. induction n as [|n IH]; [exact G|].
  rewrite advance_succ. now apply Armed_tick.
Qed.

(** X2.  In a session that is left alone the five-second auto-save interval
    never writes.  Once a cycle is counted the interval is armed, but every
    step of the countdown renders the screen again and the effect that
    holds the interval replaces it by a new one, so that no interval gets
    older than a tenth of a second.  The store is, at every instant, the
    one the screen was mounted over. *)
Theorem auto_save_interval_never_fires :
  forall (p : BreathPattern) (name : option string) (now : Z)
         (store : LocalStorage) (n : nat),
    valid p ->
    let s := advance n (mount p name now store) in
    localStorage s = store
    /\ (forall age, autoSave s = Some age -> 0 <= age < 100)
    /\ (0 < cycles s -> autoSave s <> None).
Proof.
  intros p name now store n V s.
  destruct (advance_untouched p name now store n V)
    as (c & ph & a & Hc & Ha & Hn & A & L & K).
  fold s in A, L, K. split; [exact L|]. split.
  - intros age E. rewrite E in K.
    pose proof (Z.mod_pos_bound a 100 ltac:(lia)). lia.
  - destruct (Awaiting_shows _ _ _ _ _ A) as (_ & _ & _ & Ac & _).
    now apply (Armed_advance n _ (Armed_mount p name now store)).
Qed.

(** An instance: the one-second pattern, where an interval of five seconds
    spans two cycles and a half. *)
Lemma auto_save_interval_never_fires_brief :
  let s := advance (Z.to_nat 20000) (mount briefPattern None 0 None) in
  valid briefPattern
  /\ localStorage s = None
  /\ cycles s = 10
  /\ autoSave s <> None.
Proof.
  assert (V : valid briefPattern) by (unfold valid; cbn; lia).
  destruct (auto_save_interval_never_fires briefPattern None 0 None (Z.to_nat 20000) V)
    as (L & _ & G).
  destruct (untouched_shows briefPattern None _ _ V
              (advance_untouched briefPattern None 0 None (Z.to_nat 20000) V))
    as (ph & a & _ & _ & _ & _ & C & _).
  change (Z.of_nat (Z.to_nat 20000) / totalCycleTime briefPattern) with 10 in C.
  split; [exact V|]. split; [exact L|]. split; [exact C|].
  apply G. rewrite C. lia.
Defined.

(* ------------------------------------------------------------------ *)
(** ** The stop-watch and the summary *)

Lemma sameClock_refl s : sameClock s s.
Proof. unfold sameClock. repeat split. Qed.

Lemma sameClock_trans s1 s2 s3 :
  sameClock s1 s2 -> sameClock s2 s3 -> sameClock s1 s3.
Proof. unfold sameClock. intuition congruence. Qed.

Ltac same_clock := unfold sameClock; cbn; repeat split.

Lemma sameClock_rerender a b : sameClock b (rerender a b).
Proof.
  destruct (rerender_cases a b) as [E | E]; rewrite E; same_clock.
Qed.

Lemma sameClock_clearTimeout h s : sameClock s (clearTimeout h s).
Proof. destruct h; same_clock. Qed.

Lemma sameClock_breathingEffect s : sameClock s (breathingEffect s).
Proof.
  unfold breathingEffect. destruct (isActive s); [|apply sameClock_refl].
  rewrite runCycleFrom_spec. destruct (firstAwaited _ _); same_clock.
Qed.

Lemma sameClock_rerunBreathing b s : sameClock s (rerunBreathing b s).
Proof.
  unfold rerunBreathing.
  eapply sameClock_trans; [|apply sameClock_breathingEffect].
  destruct b.
  - eapply sameClock_trans; [|apply sameClock_clearTimeout]. same_clock.
  - same_clock.
Qed.

Lemma sameClock_continueCycle ph s : sameClock s (continueCycle ph s).
Proof.
  unfold continueCycle. rewrite runCycleFrom_spec.
  destruct (firstAwaited _ _); [same_clock|].
  eapply sameClock_trans; [|apply sameClock_rerunBreathing]. same_clock.
Qed.

Lemma sameClock_stepRun h s : sameClock s (stepRun h s).
Proof.
  unfold stepRun.
  assert (A : sameClock s (ageRun h s)) by same_clock.
  assert (B : forall t, sameClock t (fireCountdown h t)).
  { intros t. unfold fireCountdown.
    destruct (find_run _ _) as [r|]; [|apply sameClock_refl].
    destruct (_ =? 0); [|apply sameClock_refl].
    eapply sameClock_trans; [|apply sameClock_rerender].
    unfold countdownTick. destruct (expired _ _).
    - eapply sameClock_trans; [|apply sameClock_continueCycle]. same_clock.
    - same_clock. }
  assert (C : forall t, sameClock t (fireTimeout h t)).
  { intros t. unfold fireTimeout.
    destruct (find_run _ _) as [r|]; [|apply sameClock_refl].
    destruct (_ && _); [|apply sameClock_refl].
    eapply sameClock_trans; [|apply sameClock_rerender].
    unfold phaseTimeout.
    eapply sameClock_trans; [|apply sameClock_continueCycle]. same_clock. }
  eapply sameClock_trans; [exact A|].
  eapply sameClock_trans; [apply B|apply C].
Qed.

Lemma sameClock_stepRuns s : sameClock s (stepRuns s).
Proof.
  unfold stepRuns. generalize (map run_handle (pending s)) as hs.
  intros hs. revert s. induction hs as [|h hs IH]; intros s; cbn.
  - apply sameClock_refl.
  - eapply sameClock_trans; [apply sameClock_stepRun|apply IH].
Qed.

Lemma sameClock_autoSaveTick s : sameClock s (autoSaveTick s).
Proof.
  unfold autoSaveTick. destruct (autoSave s); [|apply sameClock_refl].
  destruct (_ && _); [same_clock|apply sameClock_refl].
Qed.

Lemma sameClock_mount p name now store :
  sameClock (initial p name now store) (mount p name now store).
Proof.
  unfold mount.
  eapply sameClock_trans; [|apply sameClock_rerender].
  eapply sameClock_trans; [|apply sameClock_breathingEffect]. same_clock.
Qed.

Lemma stopwatch_between (n : Z) :
  (n + 1) mod 1000 <> 0 -> (n + 1) / 1000 = n / 1000.
Proof. intros. Z.div_mod_to_equations. lia. Qed.

(** One millisecond on the clock of a session that only sees time pass. *)
Lemma Clock_tick name now n s :
  patternName s = name /\ Clock now n s ->
  patternName (tick s) = name /\ Clock now (n + 1) (tick s).
Proof.
  intros (Pn & X & Dn & Mf & St & Sd).
  assert (X' : exited (tick s) = None).
  { pose proof (handle_exited Tick s ltac:(discriminate)) as H.
    unfold handle in H. rewrite X in H. now rewrite H. }
  rewrite (tick_unfold s X) in *.
  set (e := elapse s) in *.
  assert (E : patternName e = name /\ dateNow e = now + (n + 1)
              /\ mountedFor e = n + 1 /\ startTimeRef e = now
              /\ sessionDuration e = n / 1000).
  { unfold e. cbn. repeat split; try assumption; lia. }
  clearbody e. destruct E as (E0 & E1 & E2 & E3 & E4).
  set (e1 := if effectPending e then rerender e (rerunBreathing (isActive e) e) else e).
  assert (E' : sameClock e e1).
  { unfold e1. destruct (effectPending e); [|apply sameClock_refl].
    eapply sameClock_trans; [apply sameClock_rerunBreathing|apply sameClock_rerender]. }
  destruct E' as (F0 & F1 & F2 & F3 & F4).
  assert (B : patternName (beforeAutoSave e) = name
              /\ dateNow (beforeAutoSave e) = now + (n + 1)
              /\ mountedFor (beforeAutoSave e) = n + 1
              /\ startTimeRef (beforeAutoSave e) = now
              /\ sessionDuration (beforeAutoSave e) = (n + 1) / 1000).
  { unfold beforeAutoSave. fold e1.
    destruct (mountedFor e1 mod 1000 =? 0) eqn:M.
    - destruct (sameClock_rerender e1 (durationTick e1)) as (G0 & G1 & G2 & G3 & G4).
      rewrite G0, G1, G2, G3, G4. cbn.
      repeat split; try congruence. rewrite F1, F3, E1, E3. f_equal. lia.
    - apply Z.eqb_neq in M. rewrite F2, E2 in M.
      repeat split; try congruence.
      rewrite F4, E4. symmetry. now apply stopwatch_between. }
  destruct B as (B0 & B1 & B2 & B3 & B4).
  destruct (sameClock_autoSaveTick (beforeAutoSave e)) as (G0 & G1 & G2 & G3 & G4).
  destruct (sameClock_stepRuns (autoSaveTick (beforeAutoSave e)))
    as (H0 & H1 & H2 & H3 & H4).
  unfold Clock. repeat split; congruence.
Qed.

Lemma Clock_advance p name now store (n : nat) :
  let s := advance n (mount p name now store) in
  patternName s = name /\ Clock now (Z.of_nat n) s.
Proof.
  induction n as [|n IH]; cbn zeta in *.
  - change (advance 0 (mount p name now store)) with (mount p name now store).
    destruct (sameClock_mount p name now store) as (G0 & G1 & G2 & G3 & G4).
    unfold Clock. rewrite G0, G1, G2, G3, G4. cbn.
    repeat split; try lia.
    unfold mount. rewrite rerender_exited.
    now destruct (CycleWork_breathingEffect (autoSaveEffect (initial p name now store)))
      as (_ & Ex & _).
  - rewrite advance_succ, Nat2Z.inj_succ. now apply Clock_tick.
Qed.

Lemma handle_tick s : handle Tick s = tick s.
Proof. unfold handle, tick. destruct (exited s); reflexivity. Qed.

Lemma pattern_advance (n : nat) s : pattern (advance n s) = pattern s.
Proof.
  induction n as [|n IH]; [reflexivity|].
  rewrite advance_succ, <- handle_tick, <- IH. apply (pattern_run [Tick]).
Qed.

(** The summary an exit hands over after [n] ms of a session left alone. *)
Lemma exit_untouched p name now store (n : nat) :
  let s := advance n (mount p name now store) in
  exited (handle Exit s)
  = Some {| SessionData.duration := Z.of_nat n / 1000;
            SessionData.cycles := cycles s;
            SessionData.pattern := p;
            SessionData.patternName := name |}
  /\ localStorage (handle Exit s) = None.
Proof.
  intros s.
  destruct (Clock_advance p name now store n) as (Pn & X & Dn & Mf & St & Sd).
  fold s in Pn, X, Dn, Mf, St, Sd.
  assert (P : pattern s = p)
    by (unfold s; rewrite pattern_advance; apply pattern_mount).
  unfold handle. rewrite X. unfold handleExit. cbn.
  rewrite Dn, St, P, Pn.
  replace (now + Z.of_nat n - now) with (Z.of_nat n) by lia.
  split; reflexivity.
Qed.

(** X3.  The stop-watch of a session that is left alone.  Whatever the
    pattern, [n] ms after the screen was mounted at time [now] the clock
    reads [now + n], the stop-watch shows the whole seconds in [n], and an
    exit at that instant empties the store and hands the app a summary with
    that duration, the cycles counted, and the pattern and name the screen
    was mounted with; for a valid pattern the cycles are [n / D]. *)
Theorem stopwatch_shows_whole_seconds :
  forall (p : BreathPattern) (name : option string) (now : Z)
         (store : LocalStorage) (n : nat),
    let s := advance n (mount p name now store) in
    dateNow s = now + Z.of_nat n
    /\ sessionDuration s = Z.of_nat n / 1000
    /\ exited (handle Exit s)
       = Some {| SessionData.duration := Z.of_nat n / 1000;
                 SessionData.cycles := cycles s;
                 SessionData.pattern := p;
                 SessionData.patternName := name |}
    /\ localStorage (handle Exit s) = None
    /\ (valid p -> cycles s = Z.of_nat n / totalCycleTime p).
Proof.
  intros p name now store n s.
  destruct (Clock_advance p name now store n) as (_ & _ & Dn & _ & _ & Sd).
  destruct (exit_untouched p name now store n) as (E & L).
  split; [exact Dn|]. split; [exact Sd|]. split; [exact E|]. split; [exact L|].
  intros V.
  destruct (untouched_shows p store _ _ V (advance_untouched p name now store n V))
    as (ph & a & _ & _ & _ & _ & C & _).
  exact C.
Qed.

(* ------------------------------------------------------------------ *)
(** ** What no event undoes *)

Lemma tick_cycles s : cycles s <= cycles (tick s).
Proof.
  destruct (exited s) eqn:X; [unfold tick; rewrite X; lia|].
  rewrite (tick_unfold s X).
  destruct (Follows_stepRuns (autoSaveTick (beforeAutoSave (elapse s))))
    as (_ & _ & _ & _ & C1 & _).
  destruct (sameEngine_autoSaveTick (beforeAutoSave (elapse s)))
    as (_ & _ & _ & _ & C2 & _).
  destruct (Follows_beforeAutoSave (elapse s)) as (_ & _ & _ & _ & C3 & _).
  cbn in C3. lia.
Qed.

Lemma tick_isActive s : isActive (tick s) = isActive s.
Proof.
  destruct (exited s) eqn:X; [unfold tick; now rewrite X|].
  rewrite (tick_unfold s X).
  destruct (Follows_stepRuns (autoSaveTick (beforeAutoSave (elapse s))))
    as (_ & _ & _ & A1 & _).
  destruct (sameEngine_autoSaveTick (beforeAutoSave (elapse s)))
    as (_ & A2 & _).
  destruct (Follows_beforeAutoSave (elapse s)) as (_ & _ & _ & A3 & _).
  rewrite A1, A2, A3. reflexivity.
Qed.

Lemma tick_patternName s : patternName (tick s) = patternName s.
Proof.
  destruct (exited s) eqn:X; [unfold tick; now rewrite X|].
  rewrite (tick_unfold s X).
  destruct (sameClock_stepRuns (autoSaveTick (beforeAutoSave (elapse s)))) as (N1 & _).
  destruct (sameClock_autoSaveTick (beforeAutoSave (elapse s))) as (N2 & _).
  rewrite N1, N2. unfold beforeAutoSave.
  set (e := elapse s).
  assert (N3 : patternName
                 (if effectPending e
                  then rerender e (rerunBreathing (isActive e) e) else e)
               = patternName s).
  { destruct (effectPending e); [|reflexivity].
    destruct (sameClock_rerender e (rerunBreathing (isActive e) e)) as (N & _).
    destruct (sameClock_rerunBreathing (isActive e) e) as (N' & _).
    now rewrite N, N'. }
  destruct (_ =? 0); [|exact N3].
  match goal with
  | |- context [rerender ?x ?y] => destruct (sameClock_rerender x y) as (N & _)
  end.
  rewrite N. exact N3.
Qed.

Lemma toggleSession_patternName s : patternName (toggleSession s) = patternName s.
Proof.
  unfold toggleSession.
  match goal with
  | |- context [rerender ?x ?y] => destruct (sameClock_rerender x y) as (N & _)
  end.
  rewrite N.
  match goal with
  | |- context [rerunBreathing ?b ?y] =>
      destruct (sameClock_rerunBreathing b y) as (N' & _)
  end.
  rewrite N'. destruct (negb (isActive s)); reflexivity.
Qed.

(** X4.  What no event undoes.  Whatever the user and the timers do, in
    whatever order, the count of cycles never goes down (pausing and
    resuming do not reset it), and the session keeps the pattern and the
    name it was mounted with; and only the pause control changes whether
    the session is active. *)
Theorem cycles_never_decrease :
  forall (events : list Event) (s : State),
    cycles s <= cycles (run events s)
    /\ pattern (run events s) = pattern s
    /\ patternName (run events s) = patternName s
    /\ (forallb (fun e => match e with ToggleSession => false | _ => true end) events
        = true -> isActive (run events s) = isActive s).
Proof.
  intros events s. split; [|split; [apply pattern_run|split]].
  - revert s. unfold run. induction events as [|e es IH]; intros s; cbn; [lia|].
    specialize (IH (handle e s)).
    assert (cycles s <= cycles (handle e s)); [|lia].
    unfold handle. destruct (exited s); [lia|]. destruct e.
    + apply tick_cycles.
    + destruct (toggleSession_unfold s) as (t & E & _ & _ & _ & _ & C).
      rewrite E. exact C.
    + unfold handleBeforeUnload. destruct (_ && _); cbn; lia.
    + unfold handleVisibilityChange. destruct (_ && _); cbn; lia.
    + cbn. lia.
  - revert s. unfold run. induction events as [|e es IH]; intros s; cbn; [reflexivity|].
    rewrite IH. unfold handle. destruct (exited s); [reflexivity|]. destruct e.
    + apply tick_patternName.
    + apply toggleSession_patternName.
    + unfold handleBeforeUnload. destruct (_ && _); reflexivity.
    + unfold handleVisibilityChange. destruct (_ && _); reflexivity.
    + reflexivity.
  - revert s. unfold run. induction events as [|e es IH]; intros s; cbn; [reflexivity|].
    intros F. apply andb_true_iff in F as (Fe & F). rewrite (IH _ F).
    unfold handle. destruct (exited s); [reflexivity|]. destruct e.
    + apply tick_isActive.
    + discriminate.
    + unfold handleBeforeUnload. destruct (_ && _); reflexivity.
    + unfold handleVisibilityChange. destruct (_ && _); reflexivity.
    + reflexivity.
Qed.

(* ------------------------------------------------------------------ *)
(** ** A paused session is not saved *)

Lemma tick_keeps_store s :
  autoSave s = None -> localStorage (tick s) = localStorage s.
Proof.
  intros N. destruct (exited s) eqn:X; [unfold tick; now rewrite X|].
  rewrite (tick_unfold s X).
  destruct (Follows_stepRuns (autoSaveTick (beforeAutoSave (elapse s)))) as (L & _).
  rewrite L.
  destruct (Follows_beforeAutoSave (elapse s)) as (L' & _ & _ & _ & _ & _ & A).
  assert (T : autoSaveTick (beforeAutoSave (elapse s)) = beforeAutoSave (elapse s)).
  { unfold autoSaveTick.
    destruct (autoSave (beforeAutoSave (elapse s))) as [age|] eqn:E; [|reflexivity].
    destruct A as [(A & _) | [A | A]].
    - cbn in A. rewrite N in A. discriminate.
    - assert (age = 0) by congruence. subst age. reflexivity.
    - discriminate. }
  rewrite T. exact L'.
Qed.

Lemma paused_keeps_store (events : list Event) (s : State) :
  AutoSaveGuarded s -> isActive s = false ->
  forallb passive events = true ->
  localStorage (run events s) = localStorage s
  /\ isActive (run events s) = false.
Proof.
  revert s. unfold run. induction events as [|e es IH]; intros s G A F; cbn.
  - split; [reflexivity|exact A].
  - cbn in F. apply andb_true_iff in F as (Fe & F).
    assert (N : autoSave s = None).
    { destruct (autoSave s) eqn:E; [|reflexivity].
      destruct G as (G & _); [congruence|congruence]. }
    assert (H : localStorage (handle e s) = localStorage s
                /\ isActive (handle e s) = false).
    { unfold handle. destruct (exited s); [now split|]. destruct e; try discriminate.
      - split; [now apply tick_keeps_store|now rewrite tick_isActive].
      - unfold handleBeforeUnload. rewrite A. now split.
      - unfold handleVisibilityChange. rewrite A, andb_false_r. now split. }
    destruct H as (H1 & H2).
    destruct (IH (handle e s) (AutoSaveGuarded_handle e s G) H2 F) as (I1 & I2).
    split; [congruence|exact I2].
Qed.

(** X5.  A paused session is not saved.  In any state a session reaches,
    once it is paused no timer, no [beforeunload] and no [visibilitychange]
    writes to the store, however long the pause lasts: the store changes
    again only after the pause control or the exit is used. *)
Theorem paused_session_is_not_saved :
  forall (p : BreathPattern) (name : option string) (now : Z)
         (store : LocalStorage) (before events : list Event),
    let s := run before (mount p name now store) in
    isActive s = false ->
    forallb passive events = true ->
    localStorage (run events s) = localStorage s
    /\ isActive (run events s) = false.
Proof.
  intros p name now store before events s A F.
  apply paused_keeps_store; [|exact A|exact F].
  apply AutoSaveGuarded_run, AutoSaveGuarded_mount.
Qed.

(** An instance: the one-second pattern, paused half a second in; the
    first cycles run while it is paused, and hiding or closing the tab then
    saves nothing. *)
Lemma paused_session_is_not_saved_brief :
  let before := repeat Tick 500 ++ [ToggleSession] in
  let events := repeat Tick 4000 ++ [VisibilityChange true; BeforeUnload] in
  let s := run before (mount briefPattern None 0 None) in
  isActive s = false
  /\ forallb passive events = true
  /\ localStorage (run events s) = localStorage s
  /\ isActive (run events s) = false.
Proof.
  assert (A : isActive (run (repeat Tick 500 ++ [ToggleSession])
                          (mount briefPattern None 0 None)) = false)
    by (vm_compute; reflexivity).
  assert (F : forallb passive (repeat Tick 4000 ++ [VisibilityChange true; BeforeUnload])
              = true) by (vm_compute; reflexivity).
  split; [exact A|]. split; [exact F|].
  exact (paused_session_is_not_saved briefPattern None 0 None _ _ A F).
Defined.

(* ------------------------------------------------------------------ *)
(** ** From the snapshot to the prompt *)

Lemma render_snapshot (ss : SavedSession.t) (store : LocalStorage) :
  SessionAutoSave.render
    {| SessionAutoSave.localStorage := store;
       SessionAutoSave.savedSession := Some (SavedSession.toJson ss);
       SessionAutoSave.showPrompt := true |}
  = Js.Normal tt.
Proof.
  unfold SessionAutoSave.render, SessionAutoSave.offered, SavedSession.toJson. cbn.
  destruct (SavedSession.patternName ss); reflexivity.
Qed.

Lemma app_check_snapshot (coerce : Js.Value -> option Q) (ss : SavedSession.t)
    (now : Z) (st : App.State) :
  App.localStorage st = Some (Js.JSON_stringify (SavedSession.toJson ss)) ->
  App.showSavedSessionPrompt (App.savedSessionCheck coerce now st)
  = (now - SavedSession.timestamp ss <? 86400000) || App.showSavedSessionPrompt st.
Proof.
  intros L. unfold App.savedSessionCheck. rewrite L.
  cbn [Js.truthy Js.JSON_stringify Js.JSON_parse].
  rewrite timestamp_of_snapshot, fresh_test.
  destruct (_ <? _); reflexivity.
Qed.

(** X6.  From the unload handler to the prompt.  When the page is unloaded
    or hidden while the session is active with a cycle completed, the store
    receives the snapshot of that instant; read back within 24 hours, the
    hook's [getSavedSession] returns it, the app's start-up check raises the
    prompt, and the prompt component offers exactly that snapshot, leaves it
    in the store, and renders its card without an error. *)
Theorem unload_snapshot_is_offered :
  forall (coerce : Js.Value -> option Q) (s : State) (later : Z),
    exited s = None -> isActive s = true -> 0 < cycles s ->
    later - dateNow s < 86400000 ->
    let saved := SavedSession.toJson (snapshot s) in
    let store := Some (Js.JSON_stringify saved) in
    let prompt := SessionAutoSave.checkForSavedSession coerce later
                    (SessionAutoSave.mount store) in
    localStorage (handle BeforeUnload s) = store
    /\ localStorage (handle (VisibilityChange true) s) = store
    /\ useSessionAutoSave.getSavedSession store = (Some saved, store)
    /\ App.showSavedSessionPrompt (App.savedSessionCheck coerce later (atHome store))
       = true
    /\ SessionAutoSave.offered prompt = Some saved
    /\ SessionAutoSave.localStorage prompt = store
    /\ SessionAutoSave.render prompt = Js.Normal tt.
Proof.
  intros coerce s later X A C Fresh saved store prompt.
  assert (B : (isActive s && (0 <? cycles s)) = true)
    by (rewrite A; apply Z.ltb_lt in C; now rewrite C).
  assert (F : (later - SavedSession.timestamp (snapshot s) <? 86400000) = true)
    by now apply Z.ltb_lt.
  assert (P : prompt
              = {| SessionAutoSave.localStorage := store;
                   SessionAutoSave.savedSession := Some saved;
                   SessionAutoSave.showPrompt := true |}).
  { unfold prompt, store, saved. rewrite check_snapshot, F. reflexivity. }
  conjs.
  - unfold handle. rewrite X. unfold handleBeforeUnload. rewrite B. reflexivity.
  - unfold handle. rewrite X. unfold handleVisibilityChange.
    cbn [andb]. rewrite B. reflexivity.
  - reflexivity.
  - rewrite (app_check_snapshot coerce (snapshot s)); [|reflexivity].
    now rewrite F.
  - now rewrite P.
  - now rewrite P.
  - rewrite P. apply render_snapshot.
Qed.

(** An instance: the one-second pattern unloaded 2.5 s in, looked up a
    minute later. *)
Lemma unload_snapshot_is_offered_brief :
  let s := advance (Z.to_nat 2500) (mount briefPattern (Some "Quick"%string) 0 None) in
  let saved := SavedSession.toJson (snapshot s) in
  exited s = None /\ isActive s = true /\ 0 < cycles s
  /\ 60000 - dateNow s < 86400000
  /\ localStorage (handle BeforeUnload s) = Some (Js.JSON_stringify saved)
  /\ SessionAutoSave.offered
       (SessionAutoSave.checkForSavedSession (fun _ => None) 60000
          (SessionAutoSave.mount (Some (Js.JSON_stringify saved))))
     = Some saved.
Proof.
  assert (V : valid briefPattern) by (unfold valid; cbn; lia).
  destruct (untouched_shows briefPattern None _ _ V
              (advance_untouched briefPattern (Some "Quick"%string) 0 None
                 (Z.to_nat 2500) V))
    as (ph & a & _ & _ & _ & _ & C & A & X & _).
  change (Z.of_nat (Z.to_nat 2500) / totalCycleTime briefPattern) with 1 in C.
  destruct (Clock_advance briefPattern (Some "Quick"%string) 0 None (Z.to_nat 2500))
    as (_ & _ & D & _).
  change (0 + Z.of_nat (Z.to_nat 2500)) with 2500 in D.
  set (s := advance (Z.to_nat 2500) _) in *.
  assert (C' : 0 < cycles s) by (rewrite C; lia).
  assert (F : 60000 - dateNow s < 86400000) by (rewrite D; lia).
  destruct (unload_snapshot_is_offered (fun _ => None) s 60000 X A C' F)
    as (H1 & _ & _ & _ & H5 & _).
  split; [exact X|]. split; [exact A|]. split; [exact C'|]. split; [exact F|].
  split; [exact H1|exact H5].
Defined.

(* ------------------------------------------------------------------ *)
(** ** The two checks at start-up *)

(** The app raises its flag exactly when the component would show the
    prompt. *)
Lemma check_flag (coerce : Js.Value -> option Q) (now : Z) (st : App.State) :
  App.showSavedSessionPrompt (App.savedSessionCheck coerce now st)
  = App.showSavedSessionPrompt st
    || SessionAutoSave.showPrompt
         (SessionAutoSave.checkForSavedSession coerce now
            (SessionAutoSave.mount (App.localStorage st))).
Proof.
  unfold App.savedSessionCheck, SessionAutoSave.checkForSavedSession,
    SessionAutoSave.mount.
  cbn [SessionAutoSave.localStorage].
  destruct (App.localStorage st) as [saved|]; [|now rewrite orb_false_r].
  destruct (Js.truthy saved); [|now rewrite orb_false_r].
  destruct (Js.JSON_parse saved) as [v|]; [|now rewrite orb_false_r].
  destruct (Js.getProp v "timestamp") as [ts|]; [|now rewrite orb_false_r].
  destruct (Js.lt _ _); cbn; [now rewrite orb_true_r|now rewrite orb_false_r].
Qed.

(** What the component does to the store: nothing when it shows the prompt,
    and otherwise it removes the item, unless that is the empty string. *)
Lemma check_store (coerce : Js.Value -> option Q) (now : Z) (store : LocalStorage) :
  let prompt := SessionAutoSave.checkForSavedSession coerce now
                  (SessionAutoSave.mount store) in
  (SessionAutoSave.showPrompt prompt = true ->
   SessionAutoSave.localStorage prompt = store)
  /\ (SessionAutoSave.showPrompt prompt = false ->
      forall saved, store = Some saved -> Js.truthy saved = true ->
      SessionAutoSave.localStorage prompt = None).
Proof.
  unfold SessionAutoSave.checkForSavedSession, SessionAutoSave.mount.
  cbn [SessionAutoSave.localStorage].
  destruct store as [saved|]; [|split; [reflexivity|discriminate]].
  destruct (Js.truthy saved) eqn:T.
  - destruct (Js.JSON_parse saved) as [v|];
      [|split; [discriminate|reflexivity]].
    destruct (Js.getProp v "timestamp") as [ts|];
      [|split; [discriminate|reflexivity]].
    destruct (Js.lt _ _); split; try discriminate; reflexivity.
  - split; [reflexivity|]. intros _ x E. injection E as <-. congruence.
Qed.

(** X7.  The app's start-up check and the prompt component apply the same
    test: over the same store and at the same time, the app raises its flag
    exactly when the component would show the prompt.  They differ in what
    they do otherwise: the app's check never touches the store, while the
    component, when it does not show the prompt, removes whatever non-empty
    item it found. *)
Theorem app_check_agrees_with_prompt :
  forall (coerce : Js.Value -> option Q) (now : Z) (st : App.State),
    let prompt := SessionAutoSave.checkForSavedSession coerce now
                    (SessionAutoSave.mount (App.localStorage st)) in
    App.showSavedSessionPrompt (App.savedSessionCheck coerce now st)
    = App.showSavedSessionPrompt st || SessionAutoSave.showPrompt prompt
    /\ App.localStorage (App.savedSessionCheck coerce now st) = App.localStorage st
    /\ (SessionAutoSave.showPrompt prompt = true ->
        SessionAutoSave.localStorage prompt = App.localStorage st)
    /\ (SessionAutoSave.showPrompt prompt = false ->
        forall saved, App.localStorage st = Some saved -> Js.truthy saved = true ->
        SessionAutoSave.localStorage prompt = None).
Proof.
  intros coerce now st prompt.
  split; [apply check_flag|].
  split; [apply savedSessionCheck_keeps_store|].
  exact (check_store coerce now (App.localStorage st)).
Qed.

Lemma promptOf_unraised (coerce : Js.Value -> option Q) (later : Z) (st : App.State) :
  App.showSavedSessionPrompt st = false -> App.promptOf coerce later st = None.
Proof. intros F. unfold App.promptOf. now rewrite F. Qed.

(** X8.  Start-up never cleans the store.  The prompt component, whose
    check is the only code that removes a stale or unreadable item, is
    mounted only once the app's own check has raised the flag, that is,
    when the item is a fresh snapshot.  So, with both checks reading the
    same clock, the store after start-up is the store before it, whatever
    it held; and a snapshot that is 24 hours old when the app checks stays
    in the store however much later the component would have looked. *)
Theorem start_up_keeps_store :
  forall (coerce : Js.Value -> option Q) (completed : bool) (now : Z)
         (st : App.State),
    App.showSavedSessionPrompt st = false ->
    App.storeAfterStartUp coerce completed now now st = App.localStorage st
    /\ forall (ss : SavedSession.t) (later : Z),
         App.localStorage st = Some (Js.JSON_stringify (SavedSession.toJson ss)) ->
         86400000 <= now - SavedSession.timestamp ss ->
         App.storeAfterStartUp coerce completed now later st = App.localStorage st
         /\ App.promptOf coerce later (App.startUp coerce completed now st) = None.
Proof.
  intros coerce completed now st F. split.
  - unfold App.storeAfterStartUp, App.startUp.
    destruct completed; [|now rewrite (promptOf_unraised coerce now st F)].
    set (st0 := App.navigateToScreen App.home st).
    assert (F0 : App.showSavedSessionPrompt st0 = false) by exact F.
    assert (L0 : App.localStorage st0 = App.localStorage st) by reflexivity.
    pose proof (check_flag coerce now st0) as A.
    pose proof (savedSessionCheck_keeps_store coerce now st0) as K.
    destruct (check_store coerce now (App.localStorage st0)) as (S & _).
    rewrite F0 in A. cbn [orb] in A.
    unfold App.promptOf.
    destruct (App.showSavedSessionPrompt (App.savedSessionCheck coerce now st0)).
    + rewrite K, S by (symmetry; exact A). exact L0.
    + rewrite K. exact L0.
  - intros ss later L Old.
    unfold App.storeAfterStartUp, App.startUp.
    destruct completed;
      [|rewrite (promptOf_unraised coerce later st F); now split].
    set (st0 := App.navigateToScreen App.home st).
    assert (R : App.showSavedSessionPrompt (App.savedSessionCheck coerce now st0)
                = false).
    { rewrite (app_check_snapshot coerce ss now st0 L).
      apply Z.ltb_ge in Old. rewrite Old. exact F. }
    rewrite (promptOf_unraised coerce later _ R).
    split; [|reflexivity].
    now rewrite savedSessionCheck_keeps_store.
Qed.

(** An instance: a snapshot that is 24 hours old when the app starts. *)
Lemma start_up_keeps_store_stale :
  let ss := useSessionAutoSave.sessionData 0 boxBreathing None
              {| SavedSession.cyclesCompleted := 3;
                 SavedSession.totalCycles := 10;
                 SavedSession.timeElapsed := 50;
                 SavedSession.currentPhase := Hold;
                 SavedSession.phaseTimeRemaining := 1500 |} 50 in
  let store := Some (Js.JSON_stringify (SavedSession.toJson ss)) in
  let st := atHome store in
  App.showSavedSessionPrompt st = false
  /\ App.storeAfterStartUp (fun _ => None) true 86400000 86400000 st = store
  /\ App.storeAfterStartUp (fun _ => None) true 86400000 86401000 st = store
  /\ SessionAutoSave.localStorage
       (SessionAutoSave.checkForSavedSession (fun _ => None) 86400000
          (SessionAutoSave.mount store)) = None.
Proof.
  cbv zeta.
  match goal with
  | |- App.showSavedSessionPrompt ?st = false /\ _ =>
      destruct (start_up_keeps_store (fun _ => None) true 86400000 st eq_refl)
        as (H1 & H2)
  end.
  split; [reflexivity|]. split; [exact H1|]. split.
  - refine (proj1 (H2 _ 86401000 eq_refl _)). cbn. lia.
  - rewrite check_snapshot. reflexivity.
Defined.

(* ------------------------------------------------------------------ *)
(** ** The buttons of the prompt *)

(** X9.  Resuming consumes the snapshot.  When the prompt offers a snapshot
    and "Resume Session" is pressed, the parent's callback receives the
    offered snapshot and the item is removed from the store; "Start Fresh"
    removes it as well, in the component and in the app's own handler; after
    either, a new check offers nothing.  The app, which reads the parsed
    snapshot as the [SavedSession] it encodes, then mounts a session of the
    saved pattern (under the saved name, or under none when that is missing
    or empty) over the emptied store, so that a resumed session which is
    interrupted before it has completed a cycle leaves nothing to resume.
    Without a callback the button does nothing. *)
Theorem resume_consumes_snapshot :
  forall (coerce : Js.Value -> option Q) (ss : SavedSession.t) (later : Z)
         (onResumeSession : Js.Value -> App.State -> App.State) (app : App.State),
    later - SavedSession.timestamp ss < 86400000 ->
    onResumeSession (SavedSession.toJson ss) app = App.handleResumeSession ss app ->
    let store := Some (Js.JSON_stringify (SavedSession.toJson ss)) in
    let prompt := SessionAutoSave.checkForSavedSession coerce later
                    (SessionAutoSave.mount store) in
    let pressed := SessionAutoSave.handleResumeSession (Some onResumeSession)
                     prompt app in
    SessionAutoSave.offered prompt = Some (SavedSession.toJson ss)
    /\ snd pressed = App.handleResumeSession ss app
    /\ SessionAutoSave.localStorage (fst pressed) = None
    /\ SessionAutoSave.offered (fst pressed) = None
    /\ SessionAutoSave.localStorage (SessionAutoSave.handleDismiss prompt) = None
    /\ (forall t, SessionAutoSave.offered
                    (SessionAutoSave.checkForSavedSession coerce t
                       (SessionAutoSave.mount
                          (SessionAutoSave.localStorage (fst pressed)))) = None)
    /\ SessionAutoSave.handleResumeSession None prompt app = (prompt, app)
    /\ (forall t,
          App.localStorage (App.handleDismissSavedSession app) = None
          /\ App.showSavedSessionPrompt
               (App.savedSessionCheck coerce t (App.handleDismissSavedSession app))
             = false)
    /\ (forall (name : option string) (now : Z) (events : list Event),
          let s := run events
                     (mount (SavedSession.pattern ss) name
                        now (SessionAutoSave.localStorage (fst pressed))) in
          cycles s = 0 -> localStorage s = None).
Proof.
  intros coerce ss later f app Fresh Reads store prompt pressed.
  assert (F : (later - SavedSession.timestamp ss <? 86400000) = true)
    by now apply Z.ltb_lt.
  assert (P : prompt
              = {| SessionAutoSave.localStorage := store;
                   SessionAutoSave.savedSession := Some (SavedSession.toJson ss);
                   SessionAutoSave.showPrompt := true |}).
  { unfold prompt, store. rewrite check_snapshot, F. reflexivity. }
  assert (R : pressed
              = ({| SessionAutoSave.localStorage := None;
                    SessionAutoSave.savedSession := None;
                    SessionAutoSave.showPrompt := false |},
                 App.handleResumeSession ss app)).
  { unfold pressed. rewrite P. unfold SessionAutoSave.handleResumeSession.
    cbn. now rewrite Reads. }
  rewrite R. cbn [fst snd SessionAutoSave.localStorage].
  conjs; try reflexivity.
  - now rewrite P.
  - now rewrite P.
  - intros t. split; reflexivity.
  - intros name now events C.
    destruct (Guarded_run events _
                (Guarded_mount (SavedSession.pattern ss) name now)) as (_ & S).
    destruct (localStorage (run events _)) eqn:L; [|reflexivity].
    assert (0 < cycles
                  (run events (mount (SavedSession.pattern ss) name now None)))
      by (apply S; discriminate).
    lia.
Qed.

(** An instance: a snapshot of box breathing taken at time 0 and resumed a
    minute later. *)
Lemma resume_consumes_snapshot_box :
  let ss := useSessionAutoSave.sessionData 0 boxBreathing (Some "Box Breathing"%string)
              {| SavedSession.cyclesCompleted := 3;
                 SavedSession.totalCycles := 10;
                 SavedSession.timeElapsed := 50;
                 SavedSession.currentPhase := Hold;
                 SavedSession.phaseTimeRemaining := 1500 |} 50 in
  let store := Some (Js.JSON_stringify (SavedSession.toJson ss)) in
  let prompt := SessionAutoSave.checkForSavedSession (fun _ => None) 60000
                  (SessionAutoSave.mount store) in
  let pressed := SessionAutoSave.handleResumeSession
                   (Some (fun _ => App.handleResumeSession ss))
                   prompt (atHome store) in
  60000 - SavedSession.timestamp ss < 86400000
  /\ SessionAutoSave.localStorage (fst pressed) = None
  /\ App.currentScreen (snd pressed) = App.session
  /\ App.customPattern (snd pressed) = Some boxBreathing.
Proof.
  cbv zeta.
  match goal with
  | |- 60000 - SavedSession.timestamp ?ss < _ /\ _ =>
      assert (F : 60000 - SavedSession.timestamp ss < 86400000) by (cbn; lia);
      destruct (resume_consumes_snapshot (fun _ => None) ss 60000
                  (fun _ => App.handleResumeSession ss)
                  (atHome (Some (Js.JSON_stringify (SavedSession.toJson ss))))
                  F eq_refl)
        as (_ & H2 & H3 & _)
  end.
  split; [exact F|]. split; [exact H3|].
  rewrite H2. split; reflexivity.
Defined.

(** X10.  The percentage on the card.  For every snapshot the session
    screen writes, whose target is always 10 cycles, the card of the prompt
    shows ten times the number of cycles completed, and the same number is
    the width of its progress bar in per cent.  As the session does not stop
    at the target, the number exceeds 100 once an eleventh cycle is done:
    an untouched session of a valid pattern with cycle time [D] that is
    saved [n] ms after its start shows [10 * (n / D)]. *)
Theorem completion_percentage_of_snapshot :
  (forall s : State,
      SessionAutoSave.completionPercentage (SavedSession.progress (snapshot s))
      = Some (10 * cycles s))
  /\ (forall (p : BreathPattern) (name : option string) (now : Z)
             (store : LocalStorage) (n : nat),
         valid p ->
         SessionAutoSave.completionPercentage
           (SavedSession.progress (snapshot (advance n (mount p name now store))))
         = Some (10 * (Z.of_nat n / totalCycleTime p))).
Proof.
  assert (G : forall s : State,
             SessionAutoSave.completionPercentage (SavedSession.progress (snapshot s))
             = Some (10 * cycles s)).
  { intros s. unfold SessionAutoSave.completionPercentage, snapshot,
      useSessionAutoSave.sessionData, progressOf, SessionAutoSave.Math_round.
    remember (10 * cycles s) as r eqn:Er.
    cbn. f_equal. subst r.
    symmetry. apply (Z.div_unique _ _ _ 10); lia. }
  split; [exact G|].
  intros p name now store n V. rewrite G.
  destruct (untouched_shows p store _ _ V (advance_untouched p name now store n V))
    as (ph & a & _ & _ & _ & _ & C & _).
  now rewrite C.
Qed.

(* ------------------------------------------------------------------ *)
(** ** From the library through the control panel to the session *)

Lemma slides_bounds key v :
  ControlPanel.slides key v = true ->
  ControlPanel.sliderMin key <= v <= ControlPanel.sliderMax key.
Proof.
  unfold ControlPanel.slides. rewrite !andb_true_iff.
  intros ((A & B) & _). apply Z.leb_le in A, B. lia.
Qed.

Lemma withinSliders_slide (s : ControlPanel.State) (move : Phase * Z) :
  ControlPanel.withinSliders (ControlPanel.pattern s) = true ->
  ControlPanel.slides (fst move) (snd move) = true ->
  ControlPanel.withinSliders (ControlPanel.pattern (ControlPanel.slide s move)) = true.
Proof.
  destruct move as (key, v). unfold ControlPanel.withinSliders. cbn [fst snd forallb].
  rewrite !andb_true_iff. intros (I & H & E & P & _) M.
  destruct key; cbn [ControlPanel.slide ControlPanel.updatePattern ControlPanel.pattern
                     fst snd durationOf inhale hold exhale pause];
    repeat split; assumption.
Qed.

Lemma withinSliders_slides (moves : list (Phase * Z)) (s : ControlPanel.State) :
  ControlPanel.withinSliders (ControlPanel.pattern s) = true ->
  forallb (fun m => ControlPanel.slides (fst m) (snd m)) moves = true ->
  ControlPanel.withinSliders
    (ControlPanel.pattern (fold_left ControlPanel.slide moves s)) = true.
Proof.
  revert s. induction moves as [|m ms IH]; intros s W F; cbn in *; [exact W|].
  apply andb_true_iff in F as (Fm & F).
  apply IH; [now apply withinSliders_slide|exact F].
Qed.

Lemma withinSliders_valid (p : BreathPattern) :
  ControlPanel.withinSliders p = true ->
  valid p /\ 1000 <= inhale p <= 12000 /\ 2000 <= totalCycleTime p <= 52000.
Proof.
  unfold ControlPanel.withinSliders. cbn [forallb]. rewrite !andb_true_iff.
  intros (I & H & E & P & _).
  apply slides_bounds in I, H, E, P. cbn in I, H, E, P.
  unfold valid, totalCycleTime. lia.
Qed.

(** X11.  From the control panel to the session.  Whenever the control
    panel is opened with a pattern its sliders can show (or with none, for
    which it takes 4-4-4-4), every pattern it can hold after any movements
    of the sliders is again within the sliders' ranges, hence valid: inhale
    and exhale take at least one second, no duration is negative, and a
    cycle takes from 2 to 52 seconds.  Pressing start then mounts a session
    of exactly that pattern, named as the panel was, which shows inhale with
    the whole inhale to go and no cycle counted.  The six default exercises
    are within the ranges; choosing an exercise opens the panel with its
    pattern and name, and "create custom" opens it with 4-4-4-4 and no
    name. *)
Theorem control_panel_starts_valid_session :
  forall (app : App.State) (initial : option BreathPattern) (name : option string)
         (moves : list (Phase * Z)) (now : Z),
    App.controlProps app = Some (initial, name) ->
    match initial with
    | Some p => ControlPanel.withinSliders p = true
    | None => True
    end ->
    forallb (fun m => ControlPanel.slides (fst m) (snd m)) moves = true ->
    let panel := fold_left ControlPanel.slide moves (ControlPanel.mount initial name) in
    let p := ControlPanel.pattern panel in
    let s := mount p name now (App.localStorage app) in
    ControlPanel.withinSliders p = true
    /\ valid p
    /\ 1000 <= inhale p <= 12000
    /\ 2000 <= ControlPanel.totalCycleTime panel <= 52000
    /\ mountSession now (App.handleStartSession p (ControlPanel.presetName panel) app)
       = Some s
    /\ currentPhase s = Inhale /\ timeRemaining s = inhale p /\ cycles s = 0
    /\ isActive s = true
    /\ Forall (fun e => ControlPanel.withinSliders (ExerciseLibrary.pattern e) = true)
         ExerciseLibrary.defaultExercises
    /\ (forall e st,
           App.controlProps (App.handleSelectExercise (ExerciseLibrary.toApp e) st)
           = Some (Some (ExerciseLibrary.pattern e), Some (ExerciseLibrary.name e)))
    /\ (forall st,
           App.controlProps (App.handleCreateCustom st)
           = Some (Some boxBreathing, None)).
Proof.
  intros app initial name moves now Props W0 F panel p s.
  assert (W : ControlPanel.withinSliders p = true).
  { apply withinSliders_slides; [|exact F].
    destruct initial as [q|]; [exact W0|reflexivity]. }
  destruct (withinSliders_valid p W) as (V & I & T).
  assert (N : inhale p <> 0) by lia.
  assert (St : CycleStart p 0 s)
    by (apply mount_starts_cycle; exists Inhale; exact N).
  destruct (Awaiting_shows _ _ _ _ _ (CycleStart_inhale _ _ _ N St))
    as (C & Ph & R & A & _).
  change (0 / 100) with 0 in R. cbn [durationOf] in R.
  assert (T' : 2000 <= ControlPanel.totalCycleTime panel <= 52000) by exact T.
  conjs; try assumption; try lia.
  - unfold mountSession, App.sessionProps, App.handleStartSession,
      App.navigateToScreen.
    cbn [App.currentScreen App.customPattern App.selectedExercise App.localStorage].
    unfold App.controlProps in Props.
    destruct (App.currentScreen app); try discriminate.
    injection Props as _ <-. reflexivity.
  - repeat constructor.
  - reflexivity.
  - reflexivity.
Qed.

(** An instance: "create custom", then every slider moved to its minimum,
    which gives the one-second pattern. *)
Lemma control_panel_starts_valid_session_brief :
  let app := App.handleCreateCustom (atHome None) in
  let moves := [(Inhale, 1000); (Hold, 0); (Exhale, 1000); (Pause, 0)] in
  let panel := fold_left ControlPanel.slide moves
                 (ControlPanel.mount (Some boxBreathing) None) in
  App.controlProps app = Some (Some boxBreathing, None)
  /\ ControlPanel.withinSliders boxBreathing = true
  /\ forallb (fun m => ControlPanel.slides (fst m) (snd m)) moves = true
  /\ ControlPanel.pattern panel = briefPattern
  /\ valid briefPattern
  /\ mountSession 0 (App.handleStartSession briefPattern None app)
     = Some (mount briefPattern None 0 None).
Proof.
  cbv zeta.
  destruct (control_panel_starts_valid_session
              (App.handleCreateCustom (atHome None)) (Some boxBreathing) None
              [(Inhale, 1000); (Hold, 0); (Exhale, 1000); (Pause, 0)] 0
              eq_refl eq_refl eq_refl)
    as (_ & V & _ & _ & M & _).
  split; [reflexivity|]. split; [reflexivity|]. split; [reflexivity|].
  split; [reflexivity|]. split; [exact V|exact M].
Defined.

(* ------------------------------------------------------------------ *)
(** ** The user's own exercises *)

Lemma filter_keeps_all {A : Type} (f : A -> bool) (l : list A) :
  (forall x, In x l -> f x = true) -> filter f l = l.
Proof.
  induction l as [|a l IH]; intros H; cbn; [reflexivity|].
  rewrite (H a (or_introl eq_refl)). f_equal. apply IH.
  intros x Hx. apply H. now right.
Qed.

Lemma delete_unlocked (d : ExerciseLibrary.Exercise) (t : ExerciseLibrary.State) :
  ExerciseLibrary.locked d = false ->
  let kept := filter (fun ex => negb (String.eqb (ExerciseLibrary.id ex)
                                        (ExerciseLibrary.id d)))
                (ExerciseLibrary.customExercises t) in
  let t' := ExerciseLibrary.confirmDeleteExercise
              (ExerciseLibrary.handleDeleteExercise d t) in
  ExerciseLibrary.customExercises t' = kept
  /\ ExerciseLibrary.customItem t'
     = Some (Js.JSON_stringify (Js.JArr (map ExerciseLibrary.exerciseJson kept)))
  /\ ExerciseLibrary.deleteConfirmOpen t' = false.
Proof.
  intros L kept t'. unfold t', ExerciseLibrary.handleDeleteExercise. rewrite L.
  repeat split.
Qed.

(** X12.  Duplicating and deleting.  A duplicate, also one of a default
    exercise, is appended to the user's exercises and written to the store,
    and it is not locked, so it can be deleted; a default exercise cannot.
    Confirming a deletion removes every exercise that bears the id of the
    chosen one and keeps the others in their order; when the exercise is the
    active one, the active exercise and its item are cleared.  Hence duplicating at a
    time whose id ["custom-<now>"] no exercise of the list bears yet, and
    deleting the duplicate, gives back the list and writes it to the
    store. *)
Theorem duplicate_then_delete :
  forall (now : Z) (exercise : ExerciseLibrary.Exercise) (st : ExerciseLibrary.State),
    (forall x, In x (ExerciseLibrary.customExercises st) ->
               ExerciseLibrary.id x <> ("custom-" ++ toString now)%string) ->
    let copy := ExerciseLibrary.duplicatedExercise now exercise in
    let st1 := ExerciseLibrary.handleDuplicateExercise now exercise st in
    let st2 := ExerciseLibrary.confirmDeleteExercise
                 (ExerciseLibrary.handleDeleteExercise copy st1) in
    ExerciseLibrary.customExercises st1 = ExerciseLibrary.customExercises st ++ [copy]
    /\ ExerciseLibrary.locked copy = false
    /\ ExerciseLibrary.pattern copy = ExerciseLibrary.pattern exercise
    /\ ExerciseLibrary.customExercises st2 = ExerciseLibrary.customExercises st
    /\ ExerciseLibrary.customItem st2
       = Some (Js.JSON_stringify
                 (Js.JArr (map ExerciseLibrary.exerciseJson
                             (ExerciseLibrary.customExercises st))))
    /\ ExerciseLibrary.deleteConfirmOpen st2 = false
    /\ (forall (d : ExerciseLibrary.Exercise) (t : ExerciseLibrary.State),
          ExerciseLibrary.locked d = true ->
          ExerciseLibrary.handleDeleteExercise d t = t
          /\ ExerciseLibrary.handleEditExercise d t = t)
    /\ (forall t : ExerciseLibrary.State,
          ExerciseLibrary.exerciseToDelete t = None ->
          ExerciseLibrary.confirmDeleteExercise t = t)
    /\ (forall (d : ExerciseLibrary.Exercise) (t : ExerciseLibrary.State),
          ExerciseLibrary.locked d = false ->
          let t' := ExerciseLibrary.confirmDeleteExercise
                      (ExerciseLibrary.handleDeleteExercise d
                         (ExerciseLibrary.handleSelectExercise d t)) in
          ExerciseLibrary.activeExercise t' = None
          /\ ExerciseLibrary.activeItem t' = None)
    /\ (forall (d x : ExerciseLibrary.Exercise) (t : ExerciseLibrary.State),
          ExerciseLibrary.exerciseToDelete t = Some d ->
          (In x (ExerciseLibrary.customExercises (ExerciseLibrary.confirmDeleteExercise t))
           <-> In x (ExerciseLibrary.customExercises t)
               /\ ExerciseLibrary.id x <> ExerciseLibrary.id d)).
Proof.
  intros now exercise st Fresh copy st1 st2.
  assert (K : filter
                (fun ex => negb (String.eqb (ExerciseLibrary.id ex)
                                   (ExerciseLibrary.id copy)))
                (ExerciseLibrary.customExercises st ++ [copy])
              = ExerciseLibrary.customExercises st).
  { rewrite filter_app. cbn [filter]. rewrite String.eqb_refl. cbn [negb].
    rewrite app_nil_r. apply filter_keeps_all.
    intros x Hx. apply negb_true_iff, String.eqb_neq. now apply Fresh. }
  destruct (delete_unlocked copy st1 eq_refl) as (D1 & D2 & D3).
  fold st2 in D1, D2, D3.
  change (ExerciseLibrary.customExercises st1)
    with (ExerciseLibrary.customExercises st ++ [copy]) in D1, D2.
  rewrite K in D1, D2.
  conjs; try reflexivity; try assumption.
  - intros d t L.
    unfold ExerciseLibrary.handleDeleteExercise, ExerciseLibrary.handleEditExercise.
    rewrite L. now split.
  - intros t E. unfold ExerciseLibrary.confirmDeleteExercise. now rewrite E.
  - intros d t L. unfold ExerciseLibrary.handleDeleteExercise. rewrite L.
    unfold ExerciseLibrary.confirmDeleteExercise. cbn.
    rewrite String.eqb_refl. now split.
  - intros d x t E. unfold ExerciseLibrary.confirmDeleteExercise. rewrite E.
    cbn. rewrite filter_In, negb_true_iff, String.eqb_neq. reflexivity.
Qed.

(** An instance: a duplicate of box breathing made in an empty list. *)
Lemma duplicate_then_delete_box :
  let st := {| ExerciseLibrary.activeExercise := None;
               ExerciseLibrary.customExercises := [];
               ExerciseLibrary.showGuidedBanner := true;
               ExerciseLibrary.editingExercise := None;
               ExerciseLibrary.deleteConfirmOpen := false;
               ExerciseLibrary.exerciseToDelete := None;
               ExerciseLibrary.activeItem := None;
               ExerciseLibrary.customItem := None |} in
  let box := {| ExerciseLibrary.id := "box";
                ExerciseLibrary.name := "Box Breathing";
                ExerciseLibrary.tag := "Focus";
                ExerciseLibrary.description := "Equal rhythm for mental clarity";
                ExerciseLibrary.pattern := boxBreathing;
                ExerciseLibrary.color := "from-blue-500 to-blue-600";
                ExerciseLibrary.isDefault := Some true |} in
  let st2 := ExerciseLibrary.confirmDeleteExercise
               (ExerciseLibrary.handleDeleteExercise
                  (ExerciseLibrary.duplicatedExercise 1700000000000 box)
                  (ExerciseLibrary.handleDuplicateExercise 1700000000000 box st)) in
  In box ExerciseLibrary.defaultExercises
  /\ ExerciseLibrary.locked box = true
  /\ ExerciseLibrary.customExercises st2 = []
  /\ ExerciseLibrary.customItem st2 = Some (Js.JSON_stringify (Js.JArr [])).
Proof.
  cbv zeta.
  match goal with
  | |- In ?box _ /\ _ /\
       ExerciseLibrary.customExercises
         (ExerciseLibrary.confirmDeleteExercise
            (ExerciseLibrary.handleDeleteExercise _
               (ExerciseLibrary.handleDuplicateExercise _ _ ?st))) = [] /\ _ =>
      destruct (duplicate_then_delete 1700000000000 box st
                  ltac:(intros x []))
        as (_ & _ & _ & H4 & H5 & _)
  end.
  split; [left; reflexivity|]. split; [reflexivity|]. split; [exact H4|exact H5].
Defined.

(** X13.  Saving a preset.  [handleSavePreset] appends exactly one exercise
    to the array the item ['aora-custom-exercises'] holds, keeping what was
    there in its order; a missing or empty item counts as the empty array.
    The exercise carries the pattern of the panel, the id ["custom-<now>"],
    is not locked, and its name is never empty: the trimmed name typed, or
    ["Custom <now>"] when that is blank.  When the item does not parse, or
    parses to [null], a number, a boolean or a plain object, the handler
    throws before it writes: nothing is saved. *)
Theorem save_preset_appends :
  forall (trim : string -> string) (spreadString : string -> list string)
         (now : Z) (s : ControlPanel.State),
    let e := ControlPanel.newExercise trim now s in
    let saved xs :=
      Js.Normal (Some (Js.JSON_stringify
                         (Js.JArr (xs ++ [ExerciseLibrary.exerciseJson e])))) in
    (forall xs,
        ControlPanel.handleSavePreset trim spreadString now s
          (Some (Js.JSON_stringify (Js.JArr xs))) = saved xs)
    /\ ControlPanel.handleSavePreset trim spreadString now s None = saved []
    /\ ControlPanel.handleSavePreset trim spreadString now s
         (Some (Js.Unparseable "")) = saved []
    /\ ExerciseLibrary.pattern e = ControlPanel.pattern s
    /\ ExerciseLibrary.id e = ("custom-" ++ toString now)%string
    /\ ExerciseLibrary.locked e = false
    /\ ExerciseLibrary.name e <> EmptyString
    /\ (trim (ControlPanel.customName s) <> EmptyString ->
        ExerciseLibrary.name e = trim (ControlPanel.customName s))
    /\ (forall values : list string,
          (String.length
             (ControlPanel.customName
                (fold_left (fun t v => ControlPanel.setName v t) values s))
           <= Nat.max 30 (String.length (ControlPanel.customName s)))%nat)
    /\ (forall raw, raw <> EmptyString ->
          ControlPanel.handleSavePreset trim spreadString now s
            (Some (Js.Unparseable raw)) = Js.Throw)
    /\ (forall v,
          match v with Js.JArr _ | Js.JStr _ => False | _ => True end ->
          ControlPanel.handleSavePreset trim spreadString now s
            (Some (Js.Serialized v)) = Js.Throw).
Proof.
  intros trim spreadString now s e saved. conjs; try reflexivity.
  - unfold e, ControlPanel.newExercise, ControlPanel.nameOfPreset.
    cbn [ExerciseLibrary.name].
    destruct (String.eqb (trim (ControlPanel.customName s)) EmptyString) eqn:E.
    + discriminate.
    + now apply String.eqb_neq.
  - intros N. unfold e, ControlPanel.newExercise, ControlPanel.nameOfPreset.
    cbn [ExerciseLibrary.name].
    apply String.eqb_neq in N. now rewrite N.
  - intros values. clear e saved. revert s.
    induction values as [|v vs IH]; intros s; cbn [fold_left]; [lia|].
    specialize (IH (ControlPanel.setName v s)).
    assert (H : (String.length (ControlPanel.customName (ControlPanel.setName v s))
                 <= Nat.max 30 (String.length (ControlPanel.customName s)))%nat).
    { unfold ControlPanel.setName.
      destruct (Nat.leb_spec (String.length v) 30); cbn [ControlPanel.customName]; lia. }
    lia.
  - intros raw N. unfold ControlPanel.handleSavePreset. cbn.
    apply String.eqb_neq in N. now rewrite N.
  - intros v H. destruct v; try contradiction; reflexivity.
Qed.

(* ------------------------------------------------------------------ *)
(** ** What reaches the history *)

(** X14.  From the exit to the history.  When a session of a valid pattern
    that was left alone for [n] ms is exited, the app shows the reflection
    screen with the summary and the saved session is gone; saving the
    reflection appends one record to the array the item
    ['aora-session-history'] holds, keeping the earlier records in their
    order, and returns the app to the home screen with nothing selected.
    The record carries [n / D] cycles, the whole seconds in [n], the pattern,
    and the session's name, or ['Custom Pattern'] when the name is missing
    or empty.  A history that does not parse is silently replaced by the one
    new record; a history that parses to something other than an array makes
    the handler throw: nothing is written and the app stays where it is. *)
Theorem finished_session_is_recorded :
  forall (p : BreathPattern) (name : option string) (now : Z)
         (store : LocalStorage) (n : nat) (date reflection : string)
         (app : App.State),
    valid p ->
    let data := {| SessionData.duration := Z.of_nat n / 1000;
                   SessionData.cycles := Z.of_nat n / totalCycleTime p;
                   SessionData.pattern := p;
                   SessionData.patternName := name |} in
    let app1 := App.handleSessionComplete data app in
    let app2 := App.handleReflectionComplete app1 in
    let record := ReflectionScreen.sessionRecord date data reflection in
    let save := ReflectionScreen.handleSaveReflection date data reflection in
    exited (handle Exit (advance n (mount p name now store))) = Some data
    /\ App.reflectionProps app1 = Some data
    /\ App.localStorage app1 = None
    /\ (forall xs,
          save (Some (Js.JSON_stringify (Js.JArr xs))) app1
          = Js.Normal (Some (Js.JSON_stringify (Js.JArr (xs ++ [record]))), app2))
    /\ save None app1 = Js.Normal (Some (Js.JSON_stringify (Js.JArr [record])), app2)
    /\ (forall raw,
          save (Some (Js.Unparseable raw)) app1
          = Js.Normal (Some (Js.JSON_stringify (Js.JArr [record])), app2))
    /\ (forall v,
          match v with Js.JArr _ => False | _ => True end ->
          save (Some (Js.Serialized v)) app1 = Js.Throw)
    /\ (App.currentScreen app2 = App.home /\ App.selectedExercise app2 = None
        /\ App.customPattern app2 = None /\ App.sessionData app2 = None)
    /\ Js.getProp record "cycles"
       = Js.Normal (Some (SavedSession.num (Z.of_nat n / totalCycleTime p)))
    /\ Js.getProp record "duration"
       = Js.Normal (Some (SavedSession.num (Z.of_nat n / 1000)))
    /\ Js.getProp record "exercise"
       = Js.Normal
           (Some (Js.JStr
                    match name with
                    | Some x => if String.eqb x EmptyString
                                then "Custom Pattern"%string else x
                    | None => "Custom Pattern"%string
                    end)).
Proof.
  intros p name now store n date reflection app V data app1 app2 record save.
  conjs; try reflexivity.
  - destruct (exit_untouched p name now store n) as (E & _).
    destruct (untouched_shows p store _ _ V (advance_untouched p name now store n V))
      as (ph & a & _ & _ & _ & _ & C & _).
    rewrite E, C. reflexivity.
  - intros raw. unfold save, ReflectionScreen.handleSaveReflection. cbn.
    destruct (negb (String.eqb raw EmptyString)); reflexivity.
  - intros v H. destruct v; try contradiction; reflexivity.
Qed.

(** An instance: box breathing left alone for 40 s. *)
Lemma finished_session_is_recorded_box :
  let data := {| SessionData.duration := 40;
                 SessionData.cycles := 2;
                 SessionData.pattern := boxBreathing;
                 SessionData.patternName := Some "Box Breathing"%string |} in
  valid boxBreathing
  /\ exited (handle Exit
               (advance (Z.to_nat 40000)
                  (mount boxBreathing (Some "Box Breathing"%string) 0 None)))
     = Some data
  /\ Js.getProp (ReflectionScreen.sessionRecord "2024-01-01T00:00:40.000Z" data "calm")
       "exercise"
     = Js.Normal (Some (Js.JStr "Box Breathing")).
Proof.
  assert (V : valid boxBreathing) by (unfold valid; cbn; lia).
  destruct (finished_session_is_recorded boxBreathing (Some "Box Breathing"%string)
              0 None (Z.to_nat 40000) "2024-01-01T00:00:40.000Z" "calm"
              (atHome None) V)
    as (H1 & _).
  split; [exact V|]. split; [exact H1|reflexivity].
Defined.

(* ------------------------------------------------------------------ *)
(** ** Pausing and resuming within a phase *)

Lemma toggle_pauses p c ph a s :
  Awaiting p c ph a s ->
  isActive (toggleSession s) = false
  /\ exited (toggleSession s) = None
  /\ effectPending (toggleSession s) = false
  /\ pattern (toggleSession s) = p
  /\ cycles (toggleSession s) = c
  /\ nextHandle (toggleSession s) = nextHandle s
  /\ exists r,
       pending (toggleSession s) = [r]
       /\ run_phase r = ph /\ run_age r = a
       /\ run_remaining r = durationOf p ph - 100 * (a / 100).
Proof.
  intros (h & A1 & A2 & A3 & A4 & A5 & A6 & A7 & A8 & A9).
  unfold toggleSession. rewrite A2. cbn [negb].
  match goal with
  | |- context [rerender s ?x] =>
      destruct (sameEngine_rerender s x)
        as (E1 & E2 & E3 & E4 & E5 & _ & _ & E8 & _ & E10)
  end.
  rewrite E1, E2, E3, E4, E5, E8, E10. clear E1 E2 E3 E4 E5 E8 E10.
  unfold rerunBreathing, breathingEffect.
  assert (I : forall o, isActive (clearTimeout o
                                    (set_effectPending false (set_isActive false s)))
                        = false) by (intros [k|]; reflexivity).
  rewrite I.
  destruct (phaseTimeoutRef (set_effectPending false (set_isActive false s)))
    as [k|]; cbn; rewrite ?A8; cbn.
  - conjs; try assumption; try reflexivity.
    destruct (Nat.eqb h k); eexists; (split; [reflexivity|]); cbn; repeat split.
  - conjs; try assumption; try reflexivity.
    eexists; (split; [reflexivity|]); cbn; repeat split.
Qed.

(** The two presses, from a state that awaits a phase. *)
Lemma toggle_twice :
  forall (p : BreathPattern) (c : Z) (ph : Phase) (a : Z) (s : State),
    valid p ->
    Awaiting p c ph a s ->
    let paused := toggleSession s in
    let resumed := toggleSession paused in
    (isActive paused = false
     /\ exists r, pending paused = [r] /\ run_phase r = ph /\ run_age r = a)
    /\ (isActive resumed = true
        /\ cycles resumed = c
        /\ exists r first,
             firstAwaited p [Inhale; Hold; Exhale; Pause] = Some first
             /\ pending resumed = [r; runAt p first 0 (nextHandle s)]
             /\ run_phase r = ph /\ run_age r = a
             /\ currentPhase resumed = first
             /\ timeRemaining resumed = durationOf p first).
Proof.
  intros p c ph a s V A paused resumed.
  destruct (toggle_pauses p c ph a s A)
    as (P1 & P2 & P3 & P4 & P5 & P6 & r & P7 & P8 & P9 & P10).
  fold paused in P1, P2, P3, P4, P5, P6, P7.
  split; [split; [exact P1|exists r; repeat split; assumption]|].
  assert (T : exists timed, durationOf p timed <> 0).
  { destruct V as (Hi & Hh & He & Hp & HT). unfold totalCycleTime in HT.
    destruct (Z.eq_dec (inhale p) 0); [|now exists Inhale].
    destruct (Z.eq_dec (hold p) 0); [|now exists Hold].
    destruct (Z.eq_dec (exhale p) 0); [|now exists Exhale].
    exists Pause. cbn. lia. }
  destruct T as (timed & T).
  destruct (firstAwaited p [Inhale; Hold; Exhale; Pause]) as [first|] eqn:F;
    [|exfalso; now apply (firstAwaited_exists p timed T)].
  unfold resumed, toggleSession. rewrite P1. cbn [negb].
  match goal with
  | |- context [rerender paused ?x] =>
      destruct (sameEngine_rerender paused x)
        as (_ & E2 & _ & _ & E5 & E6 & E7 & E8 & _)
  end.
  rewrite E2, E5, E6, E7, E8. clear E2 E5 E6 E7 E8.
  unfold rerunBreathing, breathingEffect.
  cbn [isActive set_effectPending set_startTimeRef set_isActive].
  rewrite runCycleFrom_spec.
  cbn [pattern set_effectPending set_startTimeRef set_isActive].
  rewrite P4, F. cbn. rewrite P5, P6, P7.
  split; [reflexivity|]. split; [reflexivity|].
  exists r, first. unfold runAt. change (0 / 100) with 0. rewrite Z.mul_0_r, Z.sub_0_r.
  repeat split; try assumption.
Qed.

(** A session left alone is [a] ms into the phase [ph] its schedule gives. *)
Lemma untouched_awaits p store n s :
  valid p -> Untouched p store n s ->
  exists ph a,
    phaseAt p [Inhale; Hold; Exhale; Pause] (n mod totalCycleTime p) = Some (ph, a)
    /\ Awaiting p (n / totalCycleTime p) ph a s.
Proof.
  intros V (c & ph & a & Hc & Ha & Hn & A & _).
  pose proof (schedule_inside p ph a V Ha) as In.
  assert (Q : n / totalCycleTime p = c
              /\ n mod totalCycleTime p = timeOf p (phasesBefore ph) + a).
  { rewrite Hn. split.
    - symmetry. apply (Z.div_unique _ _ c (timeOf p (phasesBefore ph) + a)); lia.
    - symmetry. apply (Z.mod_unique _ _ c (timeOf p (phasesBefore ph) + a)); lia. }
  destruct Q as (Q1 & Q2).
  exists ph, a. rewrite Q1, Q2. split; [|exact A].
  apply phaseAt_schedule; [exact V|lia].
Qed.

(** X15.  Pausing and resuming within a phase.  A session of a valid pattern
    is left alone for [n] ms, which takes it [a] ms into the phase [ph] of
    its schedule, and the pause control is then pressed twice.  The first
    press does not stop the countdown of the phase that is running: while
    the session is paused that countdown is still pending, as long under way
    as it was.  The second press does not continue the phase either: it
    starts the cycle again at its first phase, with that phase's whole
    duration on the countdown, and the interrupted countdown is still
    pending beside the new one.  No cycle is lost or counted by the two
    presses. *)
Theorem pause_resume_adds_countdown :
  forall (p : BreathPattern) (name : option string) (now : Z)
         (store : LocalStorage) (n : nat),
    valid p ->
    let s := advance n (mount p name now store) in
    let paused := toggleSession s in
    let resumed := toggleSession paused in
    let D := totalCycleTime p in
    exists ph a,
      phaseAt p [Inhale; Hold; Exhale; Pause] (Z.of_nat n mod D) = Some (ph, a)
      /\ (isActive paused = false
          /\ exists r, pending paused = [r] /\ run_phase r = ph /\ run_age r = a)
      /\ (isActive resumed = true
          /\ cycles resumed = Z.of_nat n / D
          /\ exists r first,
               firstAwaited p [Inhale; Hold; Exhale; Pause] = Some first
               /\ pending resumed = [r; runAt p first 0 (nextHandle s)]
               /\ run_phase r = ph /\ run_age r = a
               /\ currentPhase resumed = first
               /\ timeRemaining resumed = durationOf p first).
Proof.
  intros p name now store n V s paused resumed D.
  destruct (untouched_awaits p store (Z.of_nat n) s V) as (ph & a & S & A);
    [now apply advance_untouched|].
  exists ph, a. split; [exact S|].
  exact (toggle_twice p (Z.of_nat n / D) ph a s V A).
Qed.

(** An instance: the one-second pattern paused half a second in and resumed
    at once.  Both countdowns go on and each counts cycles.  The pause
    cleared the time-out of the interrupted inhale, and every cycle counted
    clears the time-out of the phase the other countdown is in: such a phase
    ends with the step its countdown takes after 1.1 s.  Cycles are counted
    2.1 s, 2.6 s, 4.2 s and 4.7 s after the start: three are counted four
    seconds after the resumption and four 0.2 s later, where the session
    left alone has counted two. *)
Lemma pause_resume_adds_countdown_brief :
  let s := advance 500 (mount briefPattern None 0 None) in
  let resumed := toggleSession (toggleSession s) in
  let later := advance 4000 resumed in
  valid briefPattern
  /\ phaseAt briefPattern [Inhale; Hold; Exhale; Pause] 500 = Some (Inhale, 500)
  /\ List.length (pending resumed) = 2%nat
  /\ currentPhase resumed = Inhale /\ timeRemaining resumed = 1000
  /\ cycles resumed = 0
  /\ cycles (advance 1599 resumed) = 0 /\ cycles (advance 1600 resumed) = 1
  /\ cycles later = 3 /\ cycles (advance 200 later) = 4
  /\ cycles (advance 4700 (mount briefPattern None 0 None)) = 2.
Proof.
  assert (V : valid briefPattern) by (unfold valid; cbn; lia).
  destruct (pause_resume_adds_countdown briefPattern None 0 None 500%nat V)
    as (ph & a & _ & _ & _ & C & r & first & F & P & _ & _ & Ph & T).
  assert (E : firstAwaited briefPattern [Inhale; Hold; Exhale; Pause] = Some Inhale)
    by reflexivity.
  rewrite E in F. injection F as <-.
  split; [exact V|]. split; [reflexivity|].
  split; [rewrite P; reflexivity|].
  split; [exact Ph|]. split; [exact T|].
  split; [exact C|].
  vm_compute. repeat split.
Defined.

(* ------------------------------------------------------------------ *)
(** ** The time as it is written *)

Lemma below_sixty (P : Z -> Prop) :
  (forall n : nat, (n < 60)%nat -> P (Z.of_nat n)) ->
  forall k, 0 <= k < 60 -> P k.
Proof.
  intros H k Hk. replace k with (Z.of_nat (Z.to_nat k)) by lia. apply H. lia.
Qed.

Lemma two_places (k : Z) :
  0 <= k < 60 ->
  Js.padStart 2 (toString k)
  = String (Ascii.ascii_of_nat (48 + Z.to_nat (k / 10)))
      (String (Ascii.ascii_of_nat (48 + Z.to_nat (k mod 10))) EmptyString).
Proof.
  revert k. apply below_sixty. intros n Hn.
  do 60 (destruct n as [|n]; [vm_compute; reflexivity|]).
  lia.
Qed.

(** X16.  The time as it is written.  For every whole number of seconds
    that is not negative, the stop-watch of the session screen and the card
    of the prompt, which format alike, write the minutes without padding, a
    colon, and the seconds in exactly two decimal digits; so an untouched
    session shows, [n] ms after its start, the minutes and seconds of
    [n / 1000]. *)
Theorem format_time_two_places :
  forall seconds : Z,
    0 <= seconds ->
    let digit d := Ascii.ascii_of_nat (48 + Z.to_nat d) in
    formatTime seconds
    = (toString (seconds / 60) ++ ":"
       ++ String (digit (seconds mod 60 / 10))
            (String (digit (seconds mod 10)) EmptyString))%string
    /\ SessionAutoSave.formatTime seconds = formatTime seconds
    /\ forall (p : BreathPattern) (name : option string) (now : Z)
              (store : LocalStorage) (n : nat),
         formatTime (sessionDuration (advance n (mount p name now store)))
         = formatTime (Z.of_nat n / 1000).
Proof.
  intros seconds H digit. split; [|split; [reflexivity|]].
  - unfold formatTime. rewrite Z.rem_mod_nonneg by lia.
    rewrite two_places by (apply Z.mod_pos_bound; lia).
    replace ((seconds mod 60) mod 10) with (seconds mod 10)
      by (Z.div_mod_to_equations; lia).
    reflexivity.
  - intros p name now store n.
    destruct (Clock_advance p name now store n) as (_ & _ & _ & _ & _ & Sd).
    now rewrite Sd.
Qed.

(** An instance: sixty-five seconds. *)
Lemma format_time_two_places_65 :
  0 <= 65 /\ formatTime 65 = "1:05"%string /\ SessionAutoSave.formatTime 65 = "1:05"%string.
Proof.
  destruct (format_time_two_places 65 ltac:(lia)) as (H1 & H2 & _).
  split; [lia|]. split; [rewrite H1; reflexivity|rewrite H2, H1; reflexivity].
Defined.
